(** * A verified model of the P2P signalling relay (backend/flask_app.py)

    The relay is a small Flask application over three SQLite tables
    (rooms, participants, signals).  Every route handler is embedded as a
    pure function from the request and the committed database to a
    response and the new committed database.  Wall-clock time and the
    random sources are inputs of the handlers; so is the one limit of the
    SQLite build that a handler can meet, the number of variables that a
    statement may have.

    Scope.  A request body is a JSON object.  JSON values carry integers
    and strings of code points below 256; floats, larger code points and
    the interpreter's recursion limit are outside the model.  [json.dumps]
    and [json.loads] are modelled after the standard library, as the
    handlers call them (default options).  The store is SQLite as the
    handlers use it: text columns, the primary keys of the three tables,
    [AUTOINCREMENT] ids, and timestamps with a resolution of one second. *)

From Stdlib Require Import ZArith NArith List String Ascii Bool Lia.
From Stdlib Require Import Decimal DecimalFacts DecimalZ.
From Stdlib Require Import Sorted Permutation.
Import ListNotations.

Local Open Scope string_scope.
Local Open Scope list_scope.
Local Open Scope Z_scope.

(** ** Text helpers *)

Definition chars (s : string) : list ascii := list_ascii_of_string s.
Definition text (l : list ascii) : string := string_of_list_ascii l.

Definition code (c : ascii) : N := N_of_ascii c.

(** The double quote, code 34 *)
Abbreviation dquote := (Ascii false true false false false true false false).

(** ** JSON values, as Python sees them after [request.json]

    [None]/[True]/[False], [int], [str], [list] and [dict].  A [dict] is an
    association list in insertion order; Python keeps its keys distinct.
    A [str] is a sequence of code points below 256, and [float] is left
    out of the model. *)

Unset Elimination Schemes.
Inductive json : Type :=
| JNull
| JBool (b : bool)
| JInt (z : Z)
| JStr (s : string)
| JArr (l : list json)
| JObj (l : list (string * json)).
Set Elimination Schemes.

Definition dict : Type := list (string * json).

Section JsonInduction.
Variable P : json -> Prop.
Hypothesis Hnull : P JNull.
Hypothesis Hbool : forall b, P (JBool b).
Hypothesis Hint : forall z, P (JInt z).
Hypothesis Hstr : forall s, P (JStr s).
Hypothesis Harr : forall l, Forall P l -> P (JArr l).
Hypothesis Hobj : forall l, Forall (fun kv => P (snd kv)) l -> P (JObj l).

Fixpoint json_ind (v : json) : P v :=
  match v with
  | JNull => Hnull
  | JBool b => Hbool b
  | JInt z => Hint z
  | JStr s => Hstr s
  | JArr l =>
      Harr l ((fix items (l : list json) : Forall P l :=
                 match l with
                 | [] => Forall_nil P
                 | x :: l' => Forall_cons x (json_ind x) (items l')
                 end) l)
  | JObj l =>
      Hobj l ((fix members (l : dict) : Forall (fun kv => P (snd kv)) l :=
                 match l with
                 | [] => Forall_nil _
                 | kv :: l' =>
                     Forall_cons (P := fun kv => P (snd kv)) kv
                       (json_ind (snd kv)) (members l')
                 end) l)
  end.
End JsonInduction.

(** [d.get(k)]: the value stored under [k], or [None].  Python's [None]
    is also what a JSON [null] parses to, hence [JNull] in both cases. *)
Fixpoint dict_lookup (k : string) (d : dict) : option json :=
  match d with
  | [] => None
  | (k', v) :: d' => if String.eqb k k' then Some v else dict_lookup k d'
  end.

Definition dict_get (d : dict) (k : string) : json :=
  match dict_lookup k d with
  | Some v => v
  | None => JNull
  end.

(** [d[k] = v]: overwrite in place, or append a new key. *)
Fixpoint dict_set (d : dict) (k : string) (v : json) : dict :=
  match d with
  | [] => [(k, v)]
  | (k', v') :: d' =>
      if String.eqb k k' then (k', v) :: d' else (k', v') :: dict_set d' k v
  end.

(** [dict(pairs)] *)
Definition dict_of_pairs (pairs : list (string * json)) : dict :=
  fold_left (fun d kv => dict_set d (fst kv) (snd kv)) pairs [].

Fixpoint distinct (l : list string) : bool :=
  match l with
  | [] => true
  | k :: l' => negb (existsb (String.eqb k) l') && distinct l'
  end.

(** A value is well formed when every [dict] in it has distinct keys. *)
Fixpoint wf_json (v : json) : bool :=
  match v with
  | JArr l => forallb wf_json l
  | JObj l => distinct (map fst l) && forallb (fun kv => wf_json (snd kv)) l
  | _ => true
  end.

(** Python truthiness ([if not x]). *)
Definition truthy (v : json) : bool :=
  match v with
  | JNull => false
  | JBool b => b
  | JInt z => negb (z =? 0)
  | JStr s => negb (String.eqb s "")
  | JArr l => match l with [] => false | _ => true end
  | JObj l => match l with [] => false | _ => true end
  end.

(** ** [json.dumps] (default options: [ensure_ascii], separators ", " and ": ") *)

Fixpoint uint_chars (u : uint) : list ascii :=
  match u with
  | Nil => []
  | D0 u' => "0"%char :: uint_chars u'
  | D1 u' => "1"%char :: uint_chars u'
  | D2 u' => "2"%char :: uint_chars u'
  | D3 u' => "3"%char :: uint_chars u'
  | D4 u' => "4"%char :: uint_chars u'
  | D5 u' => "5"%char :: uint_chars u'
  | D6 u' => "6"%char :: uint_chars u'
  | D7 u' => "7"%char :: uint_chars u'
  | D8 u' => "8"%char :: uint_chars u'
  | D9 u' => "9"%char :: uint_chars u'
  end.

Definition int_chars (i : Decimal.int) : list ascii :=
  match i with
  | Pos u => uint_chars u
  | Neg u => "-"%char :: uint_chars u
  end.

(** [int.__repr__] *)
Definition int_repr (z : Z) : list ascii := int_chars (Z.to_int z).

Definition hex_digit (n : N) : ascii :=
  ascii_of_N (if (n <? 10)%N then 48 + n else 87 + n)%N.

(** ['\\u{0:04x}'.format(n)] for a code point below 256 *)
Definition escape_u (c : ascii) : list ascii :=
  chars "\u00" ++ [hex_digit (code c / 16); hex_digit (code c mod 16)].

(** One character of [py_encode_basestring_ascii]: the regular expression
    [ESCAPE_ASCII] selects backslash, double quote and everything outside
    [' '..'~']; [ESCAPE_DCT] gives the short escapes. *)
Definition escape_char (c : ascii) : list ascii :=
  if Ascii.eqb c dquote then ["\"%char; dquote]
  else if Ascii.eqb c "\" then chars "\\"
  else if Ascii.eqb c "008" then chars "\b"
  else if Ascii.eqb c "012" then chars "\f"
  else if Ascii.eqb c "010" then chars "\n"
  else if Ascii.eqb c "013" then chars "\r"
  else if Ascii.eqb c "009" then chars "\t"
  else if ((code c <? 32) || (126 <? code c))%N then escape_u c
  else [c].

Fixpoint escape_chars (s : string) : list ascii :=
  match s with
  | EmptyString => []
  | String c s' => escape_char c ++ escape_chars s'
  end.

Definition encode_basestring_ascii (s : string) : list ascii :=
  dquote :: escape_chars s ++ [dquote].

Fixpoint encode (v : json) : list ascii :=
  match v with
  | JNull => chars "null"
  | JBool true => chars "true"
  | JBool false => chars "false"
  | JInt z => int_repr z
  | JStr s => encode_basestring_ascii s
  | JArr l =>
      "["%char ::
      (fix items (l : list json) : list ascii :=
         match l with
         | [] => []
         | x :: l' =>
             encode x ++ match l' with [] => [] | _ => chars ", " ++ items l' end
         end) l ++ ["]"%char]
  | JObj l =>
      "{"%char ::
      (fix members (l : dict) : list ascii :=
         match l with
         | [] => []
         | kv :: l' =>
             encode_basestring_ascii (fst kv) ++ chars ": " ++ encode (snd kv)
             ++ match l' with [] => [] | _ => chars ", " ++ members l' end
         end) l ++ ["}"%char]
  end.

Definition dumps (v : json) : string := text (encode v).

(** ** [json.loads] *)

Definition is_ws (c : ascii) : bool :=
  Ascii.eqb c " " || Ascii.eqb c "009" || Ascii.eqb c "010" || Ascii.eqb c "013".

(** [WHITESPACE.match(s, idx).end()] *)
Fixpoint skip_ws (s : list ascii) : list ascii :=
  match s with
  | c :: s' => if is_ws c then skip_ws s' else s
  | [] => []
  end.

Definition is_digit (c : ascii) : bool := ((48 <=? code c) && (code c <=? 57))%N.

Definition digit_cons (c : ascii) (u : uint) : uint :=
  match code c with
  | 48%N => D0 u | 49%N => D1 u | 50%N => D2 u | 51%N => D3 u | 52%N => D4 u
  | 53%N => D5 u | 54%N => D6 u | 55%N => D7 u | 56%N => D8 u | _ => D9 u
  end.

(** The longest run of decimal digits *)
Fixpoint scan_digits (s : list ascii) : uint * list ascii :=
  match s with
  | c :: s' =>
      if is_digit c
      then let (u, r) := scan_digits s' in (digit_cons c u, r)
      else (Nil, s)
  | [] => (Nil, [])
  end.

(** The integer group of [NUMBER_RE]: an optional minus sign, then a
    single zero or a run of digits that starts with a non-zero digit *)
Definition match_integer (s : list ascii) : option (Decimal.int * list ascii) :=
  let (neg, s1) :=
    match s with
    | c :: t => if Ascii.eqb c "-" then (true, t) else (false, s)
    | [] => (false, s)
    end in
  let sign u := if neg then Neg u else Pos u in
  match s1 with
  | c :: t =>
      if Ascii.eqb c "0" then Some (sign (D0 Nil), t)
      else if is_digit c
           then let (u, r) := scan_digits s1 in Some (sign u, r)
           else None
  | [] => None
  end.

(** The optional groups of [NUMBER_RE]: a fraction (a dot and a digit) and
    an exponent (e or E, an optional sign, a digit) *)
Definition has_frac (s : list ascii) : bool :=
  match s with
  | c :: d :: _ => Ascii.eqb c "." && is_digit d
  | _ => false
  end.

Definition has_exp (s : list ascii) : bool :=
  match s with
  | c :: t =>
      (Ascii.eqb c "e" || Ascii.eqb c "E") &&
      match t with
      | d :: t' =>
          is_digit d ||
          ((Ascii.eqb d "+" || Ascii.eqb d "-") &&
           match t' with d' :: _ => is_digit d' | [] => false end)
      | [] => false
      end
  | [] => false
  end.

(** A number token.  [None] when nothing matches, and also when the token
    is a [float] (a fraction or an exponent follows, or one of [NaN],
    [Infinity], [-Infinity]), which the model does not represent. *)
Definition scan_number (s : list ascii) : option (json * list ascii) :=
  match match_integer s with
  | Some (i, r) =>
      if has_frac r || has_exp r then None else Some (JInt (Z.of_int i), r)
  | None => None
  end.

Definition hex_value (c : ascii) : option N :=
  let n := code c in
  if ((48 <=? n) && (n <=? 57))%N then Some (n - 48)%N
  else if ((97 <=? n) && (n <=? 102))%N then Some (n - 87)%N
  else if ((65 <=? n) && (n <=? 70))%N then Some (n - 55)%N
  else None.

(** [_decode_uXXXX] *)
Definition decode_uXXXX (h1 h2 h3 h4 : ascii) : option N :=
  match hex_value h1, hex_value h2, hex_value h3, hex_value h4 with
  | Some a, Some b, Some c, Some d => Some (((a * 16 + b) * 16 + c) * 16 + d)%N
  | _, _, _, _ => None
  end.

(** The decoder's [BACKSLASH] table *)
Definition backslash (c : ascii) : option ascii :=
  if Ascii.eqb c dquote then Some dquote
  else if Ascii.eqb c "\" then Some "\"%char
  else if Ascii.eqb c "/" then Some "/"%char
  else if Ascii.eqb c "b" then Some "008"%char
  else if Ascii.eqb c "f" then Some "012"%char
  else if Ascii.eqb c "n" then Some "010"%char
  else if Ascii.eqb c "r" then Some "013"%char
  else if Ascii.eqb c "t" then Some "009"%char
  else None.

Definition push (c : ascii) (r : option (string * list ascii)) :
  option (string * list ascii) :=
  match r with
  | Some (s, rest) => Some (String c s, rest)
  | None => None
  end.

(** [py_scanstring] in strict mode, entered after the opening quote.
    [None] on an unterminated string, a raw control character, a bad
    escape, and on an escaped code point of 256 or more (outside the
    model's strings). *)
Fixpoint scanstring (s : list ascii) : option (string * list ascii) :=
  match s with
  | [] => None
  | c :: s' =>
      if Ascii.eqb c dquote then Some (EmptyString, s')
      else if Ascii.eqb c "\" then
        match s' with
        | e :: s'' =>
            if Ascii.eqb e "u" then
              match s'' with
              | h1 :: h2 :: h3 :: h4 :: s3 =>
                  match decode_uXXXX h1 h2 h3 h4 with
                  | Some n =>
                      if (n <? 256)%N then push (ascii_of_N n) (scanstring s3)
                      else None
                  | None => None
                  end
              | _ => None
              end
            else
              match backslash e with
              | Some ch => push ch (scanstring s'')
              | None => None
              end
        | [] => None
        end
      else if (code c <? 32)%N then None
      else push c (scanstring s')
  end.

Fixpoint starts_with (p s : list ascii) : option (list ascii) :=
  match p, s with
  | [], _ => Some s
  | a :: p', b :: s' => if Ascii.eqb a b then starts_with p' s' else None
  | _ :: _, [] => None
  end.

(** [scan_once], [JSONArray] and [JSONObject].  The recursion of the
    scanner is bounded by [fuel]; [array_items] is the loop of [JSONArray]
    and [object_members] the loop of [JSONObject], entered after the
    opening quote of a key. *)
Fixpoint scan_once (fuel : nat) (s : list ascii) : option (json * list ascii) :=
  match fuel with
  | O => None
  | S n =>
      match s with
      | [] => None
      | c :: t =>
          if Ascii.eqb c dquote then
            match scanstring t with
            | Some (str, r) => Some (JStr str, r)
            | None => None
            end
          else if Ascii.eqb c "{" then
            match skip_ws t with
            | c' :: r =>
                if Ascii.eqb c' "}" then Some (JObj [], r)
                else if Ascii.eqb c' dquote then
                  match object_members n r with
                  | Some (pairs, r') => Some (JObj (dict_of_pairs pairs), r')
                  | None => None
                  end
                else None
            | [] => None
            end
          else if Ascii.eqb c "[" then
            match skip_ws t with
            | c' :: r =>
                if Ascii.eqb c' "]" then Some (JArr [], r)
                else
                  match array_items n (c' :: r) with
                  | Some (values, r') => Some (JArr values, r')
                  | None => None
                  end
            | [] => None
            end
          else
            match starts_with (chars "null") s with
            | Some r => Some (JNull, r)
            | None =>
            match starts_with (chars "true") s with
            | Some r => Some (JBool true, r)
            | None =>
            match starts_with (chars "false") s with
            | Some r => Some (JBool false, r)
            | None => scan_number s
            end end end
      end
  end
with array_items (fuel : nat) (s : list ascii) : option (list json * list ascii) :=
  match fuel with
  | O => None
  | S n =>
      match scan_once n s with
      | Some (value, r) =>
          match skip_ws r with
          | c :: r' =>
              if Ascii.eqb c "]" then Some ([value], r')
              else if Ascii.eqb c "," then
                match array_items n (skip_ws r') with
                | Some (values, r'') => Some (value :: values, r'')
                | None => None
                end
              else None
          | [] => None
          end
      | None => None
      end
  end
with object_members (fuel : nat) (s : list ascii) :
  option (list (string * json) * list ascii) :=
  match fuel with
  | O => None
  | S n =>
      match scanstring s with
      | Some (key, r) =>
          match skip_ws r with
          | c :: r1 =>
              if Ascii.eqb c ":" then
                match scan_once n (skip_ws r1) with
                | Some (value, r2) =>
                    match skip_ws r2 with
                    | c' :: r3 =>
                        if Ascii.eqb c' "}" then Some ([(key, value)], r3)
                        else if Ascii.eqb c' "," then
                          match skip_ws r3 with
                          | q :: r4 =>
                              if Ascii.eqb q dquote then
                                match object_members n r4 with
                                | Some (pairs, r5) =>
                                    Some ((key, value) :: pairs, r5)
                                | None => None
                                end
                              else None
                          | [] => None
                          end
                        else None
                    | [] => None
                    end
                | None => None
                end
              else None
          | [] => None
          end
      | None => None
      end
  end.

(** [JSONDecoder.decode]: one value between optional whitespace, nothing
    after it.  The fuel is taken from the length of the text, which is
    enough for every text that [dumps] prints. *)
Definition decode (s : list ascii) : option json :=
  match scan_once (S (List.length s)) (skip_ws s) with
  | Some (v, r) => match skip_ws r with [] => Some v | _ => None end
  | None => None
  end.

Definition loads (s : string) : option json := decode (chars s).

(** ** The database

    Three tables, each a list of rows in rowid order.  Timestamps are the
    seconds of SQLite's [CURRENT_TIMESTAMP] and [datetime('now')], whose
    text form orders like the number.  [signals_seq] is the counter that
    [AUTOINCREMENT] keeps in [sqlite_sequence]; the 63-bit ceiling of a
    rowid is not modelled. *)

Record Room := mkRoom {
  room_id : string;
  host_id : string;
  room_created_at : Z;
  status : string
}.

Record Participant := mkParticipant {
  device_id : string;
  p_room_id : string;
  role : string;
  last_seen : Z
}.

Record Signal := mkSignal {
  id : Z;
  s_room_id : string;
  from_device : string;
  to_device : string;
  s_type : string;
  payload : string;
  created_at : Z
}.

Record db := mkDb {
  rooms : list Room;
  participants : list Participant;
  signals : list Signal;
  signals_seq : Z
}.

(** [init_db]: the tables are created empty. *)
Definition init_db : db := mkDb [] [] [] 0.

(** What [sqlite3] can raise while a handler runs. *)
Inductive exn :=
| IntegrityError (msg : string)
| OperationalError (msg : string)
| BindingError.

(** A statement either raises or yields a value. *)
Definition stmt (A : Type) : Type := exn + A.

Definition ret {A} (a : A) : stmt A := inr a.
Definition raise {A} (e : exn) : stmt A := inl e.
Definition bind_stmt {A B} (m : stmt A) (k : A -> stmt B) : stmt B :=
  match m with
  | inl e => inl e
  | inr a => k a
  end.

Notation "x <- m ;; k" := (bind_stmt m (fun x => k))
  (at level 61, m at next level, right associativity).

(** Binding a Python value to a statement parameter that meets a [TEXT]
    column: a [str] is stored as it is, an [int] (and a [bool], which is an
    [int]) as its decimal text when it fits 64 bits; a [list] or a [dict]
    is refused, and so is an [int] that does not fit.  [None] would bind as
    [NULL]; every handler rejects it before it reaches a statement. *)
Definition bind_text (v : json) : stmt string :=
  match v with
  | JStr s => ret s
  | JInt z =>
      if (- 2 ^ 63 <=? z) && (z <? 2 ^ 63) then ret (text (int_repr z))
      else raise BindingError
  | JBool b => ret (if b then "1" else "0")
  | JNull => raise BindingError
  | JArr _ => raise BindingError
  | JObj _ => raise BindingError
  end.

(** [str(v)] inside an f-string.  The handlers format a value only after
    [bind_text] accepted it, so the text of a [list] or a [dict] is never
    asked for; it is left empty here. *)
Definition py_str (v : json) : string :=
  match v with
  | JStr s => s
  | JInt z => text (int_repr z)
  | JBool b => if b then "True" else "False"
  | JNull => "None"
  | JArr _ | JObj _ => ""
  end.

(** [f"{n:06d}"] for a non-negative [n] *)
Definition format_06d (n : N) : string :=
  let digits := uint_chars (N.to_uint n) in
  text (repeat "0"%char (6 - List.length digits) ++ digits).

Definition room_is (r : string) (x : Room) : bool := String.eqb (room_id x) r.

Definition participant_is (r d : string) (p : Participant) : bool :=
  String.eqb (p_room_id p) r && String.eqb (device_id p) d.

(** [WHERE room_id = ? AND to_device = ?] *)
Definition addressed_to (r d : string) (s : Signal) : bool :=
  String.eqb (s_room_id s) r && String.eqb (to_device s) d.

(** [INSERT INTO rooms]; [room_id] is the primary key. *)
Definition insert_room (x : Room) (st : db) : stmt db :=
  if existsb (room_is (room_id x)) (rooms st)
  then raise (IntegrityError "UNIQUE constraint failed: rooms.room_id")
  else ret (mkDb (rooms st ++ [x]) (participants st) (signals st) (signals_seq st)).

(** [INSERT INTO participants]; the key is [(device_id, room_id)]. *)
Definition insert_participant (p : Participant) (st : db) : stmt db :=
  if existsb (participant_is (p_room_id p) (device_id p)) (participants st)
  then raise (IntegrityError
         "UNIQUE constraint failed: participants.device_id, participants.room_id")
  else ret (mkDb (rooms st) (participants st ++ [p]) (signals st) (signals_seq st)).

(** [INSERT OR REPLACE INTO participants]: the row in conflict is deleted
    and the new row takes a fresh rowid. *)
Definition replace_participant (p : Participant) (st : db) : db :=
  mkDb (rooms st)
       (filter (fun q => negb (participant_is (p_room_id p) (device_id p) q))
               (participants st) ++ [p])
       (signals st) (signals_seq st).

(** [INSERT INTO signals]: the id is one more than the largest ever used. *)
Definition insert_signal (r f t ty pl : string) (now : Z) (st : db) : db :=
  let i := signals_seq st + 1 in
  mkDb (rooms st) (participants st)
       (signals st ++ [mkSignal i r f t ty pl now]) i.

(** [ORDER BY created_at ASC].  The query names no second key.  SQLite
    reads the table in rowid order and feeds a merge sorter that keeps rows
    of equal key in the order they were read; the model is that sort: a
    stable insertion sort over the rows in rowid order. *)
Fixpoint insert_by_created_at (x : Signal) (l : list Signal) : list Signal :=
  match l with
  | [] => [x]
  | y :: l' =>
      if created_at x <=? created_at y then x :: l
      else y :: insert_by_created_at x l'
  end.

Fixpoint order_by_created_at (l : list Signal) : list Signal :=
  match l with
  | [] => []
  | x :: l' => insert_by_created_at x (order_by_created_at l')
  end.

(** The [SELECT] of [get_signals] *)
Definition select_signals (r d : string) (st : db) : list Signal :=
  order_by_created_at (filter (addressed_to r d) (signals st)).

(** The relay runs on the SQLite that its Python was built with.  One
    constant of that build matters to the handlers:
    [SQLITE_LIMIT_VARIABLE_NUMBER], the largest number of [?] variables of
    one statement (999 before SQLite 3.32, 32766 since, more in some
    distributions); on these builds it is met before the limit on the
    length of a statement's text.  The model and its theorems hold for
    every value. *)
Section Relay.

Variable variable_limit : nat.

(** [DELETE FROM signals WHERE id IN (?,?,...)], with one variable per
    id.  SQLite refuses to prepare a statement that has more variables
    than [variable_limit] and raises "too many SQL variables"; within the
    limit the rows of these ids are deleted. *)
Definition delete_signals (ids : list Z) (st : db) : stmt db :=
  if (List.length ids <=? variable_limit)%nat
  then ret (mkDb (rooms st) (participants st)
                 (filter (fun s => negb (existsb (Z.eqb (id s)) ids)) (signals st))
                 (signals_seq st))
  else raise (OperationalError "too many SQL variables").

(** ** Responses *)

Record message := mkMessage {
  m_from : string;
  m_type : string;
  m_payload : json
}.

Record presence := mkPresence {
  pr_device_id : string;
  pr_last_seen : Z;
  pr_role : string
}.

Inductive body :=
| Error (msg : string)                    (* {"error": msg} *)
| Raised (e : exn)                        (* {"error": str(e)} *)
| RoomCreated (room token : string)       (* {"room_id": .., "token": ..} *)
| Joined (token host : string)            (* {"token": .., "host_id": ..} *)
| Sent                                    (* {"ok": true} *)
| Messages (l : list message)
| Alive                                   (* {"status": "alive"} *)
| Present (l : list presence)
| Closed                                  (* {"status": "closed"} *)
| InternalServerError.                    (* Flask's answer to an uncaught exception *)

Definition response : Type := body * Z.

(** ** The handlers

    [data] is the [dict] that [request.json] returns (a body that is not a
    JSON object is outside the model), [room] the path parameter, [now] the
    clock of the database during the call.  A handler answers with the
    committed database: what an exception leaves uncommitted is dropped
    when the connection closes. *)

(** [clean_stale_data] *)
Definition clean_stale_data (now : Z) (st : db) : db :=
  mkDb (rooms st)
       (filter (fun p => negb (last_seen p <? now - 3600)) (participants st))
       (filter (fun s => negb (created_at s <? now - 600)) (signals st))
       (signals_seq st).

(** [POST /rooms].  [rand] is the draw of [random.randint(0, 999999)]. *)
Definition create_room (data : dict) (rand : N) (now : Z) (st : db) : response * db :=
  let host := dict_get data "device_id" in
  if negb (truthy host) then ((Error "device_id required", 400), st)
  else
    let room := format_06d rand in
    match
      (h <- bind_text host ;;
       st1 <- insert_room (mkRoom room h now "open") st ;;
       insert_participant (mkParticipant h room "host" now) st1)
    with
    | inl e => ((Raised e, 500), st)
    | inr st2 =>
        ((RoomCreated room ("host-" ++ py_str host ++ "-" ++ room)%string, 201), st2)
    end.

(** [POST /rooms/<room_id>/join] *)
Definition join_room (room : string) (data : dict) (now : Z) (st : db) : response * db :=
  let device := dict_get data "device_id" in
  if negb (truthy device) then ((Error "device_id required", 400), st)
  else
    match find (fun x => room_is room x && String.eqb (status x) "open") (rooms st) with
    | None => ((Error "Room not found or closed", 404), st)
    | Some x =>
        match bind_text device with
        | inl _ => ((InternalServerError, 500), st)
        | inr d =>
            ((Joined ("peer-" ++ py_str device ++ "-" ++ room)%string (host_id x), 200),
             replace_participant (mkParticipant d room "peer" now) st)
        end
    end.

Definition is_none (v : json) : bool :=
  match v with JNull => true | _ => false end.

Definition missing_fields : string :=
  "Missing fields (from, to, type, payload are required)".

(** [POST /rooms/<room_id>/signal].  [uuid] is [uuid.uuid4().int]. *)
Definition send_signal (room : string) (data : dict) (now : Z) (uuid : N) (st : db)
  : response * db :=
  let from_dev := dict_get data "from" in
  let to_dev := dict_get data "to" in
  let ty := dict_get data "type" in
  let pl := dict_get data "payload" in
  if is_none from_dev || is_none to_dev || is_none ty || is_none pl
  then ((Error missing_fields, 400), st)
  else
    let payload_json := dumps pl in
    match
      (f <- bind_text from_dev ;;
       t <- bind_text to_dev ;;
       k <- bind_text ty ;;
       ret (insert_signal room f t k payload_json now st))
    with
    | inl _ => ((InternalServerError, 500), st)
    | inr st1 =>
        ((Sent, 201),
         if (uuid mod 10 =? 0)%N then clean_stale_data now st1 else st1)
    end.

(** The loop of [get_signals] that builds [messages]; [json.loads] may raise. *)
Fixpoint read_messages (rows : list Signal) : option (list message) :=
  match rows with
  | [] => Some []
  | row :: rows' =>
      match loads (payload row) with
      | Some v =>
          match read_messages rows' with
          | Some l => Some (mkMessage (from_device row) (s_type row) v :: l)
          | None => None
          end
      | None => None
      end
  end.

(** [GET /rooms/<room_id>/signal?device_id=..] *)
Definition get_signals (room : string) (device : option string) (st : db)
  : response * db :=
  match device with
  | None => ((Error "device_id query param required", 400), st)
  | Some d =>
      if String.eqb d "" then ((Error "device_id query param required", 400), st)
      else
        let rows := select_signals room d st in
        match read_messages rows with
        | None => ((InternalServerError, 500), st)
        | Some messages =>
            let ids_to_delete := map id rows in
            match ids_to_delete with
            | [] => ((Messages messages, 200), st)
            | _ =>
                match delete_signals ids_to_delete st with
                | inl _ => ((InternalServerError, 500), st)
                | inr st1 => ((Messages messages, 200), st1)
                end
            end
        end
  end.

(** [POST /rooms/<room_id>/heartbeat] *)
Definition heartbeat (room : string) (data : dict) (now : Z) (st : db) : response * db :=
  let device := dict_get data "device_id" in
  if negb (truthy device) then ((Error "device_id required", 400), st)
  else
    match bind_text device with
    | inl _ => ((InternalServerError, 500), st)
    | inr d =>
        ((Alive, 200),
         mkDb (rooms st)
              (map (fun p =>
                      if participant_is room d p
                      then mkParticipant (device_id p) (p_room_id p) (role p) now
                      else p)
                   (participants st))
              (signals st) (signals_seq st))
    end.

(** [GET /rooms/<room_id>/participants] *)
Definition list_participants (room : string) (now : Z) (st : db) : response * db :=
  ((Present
      (map (fun p => mkPresence (device_id p) (last_seen p) (role p))
           (filter (fun p => String.eqb (p_room_id p) room && (now - 30 <? last_seen p))
                   (participants st))), 200), st).

(** [POST /rooms/<room_id>/close] *)
Definition close_room (room : string) (st : db) : response * db :=
  ((Closed, 200),
   mkDb (map (fun x =>
                if room_is room x
                then mkRoom (room_id x) (host_id x) (room_created_at x) "closed"
                else x)
             (rooms st))
        (filter (fun p => negb (String.eqb (p_room_id p) room)) (participants st))
        (filter (fun s => negb (String.eqb (s_room_id s) room)) (signals st))
        (signals_seq st)).

(** ** Requests and runs *)

Inductive request :=
| CreateRoom (data : dict) (rand : N) (now : Z)
| JoinRoom (room : string) (data : dict) (now : Z)
| Send (room : string) (data : dict) (now : Z) (uuid : N)
| Fetch (room : string) (device : option string)
| Heartbeat (room : string) (data : dict) (now : Z)
| ListPresent (room : string) (now : Z)
| CloseRoom (room : string).

Definition handle (q : request) (st : db) : response * db :=
  match q with
  | CreateRoom data rand now => create_room data rand now st
  | JoinRoom room data now => join_room room data now st
  | Send room data now uuid => send_signal room data now uuid st
  | Fetch room device => get_signals room device st
  | Heartbeat room data now => heartbeat room data now st
  | ListPresent room now => list_participants room now st
  | CloseRoom room => close_room room st
  end.

(** The body of a request is a parsed JSON object: a well-formed value. *)
Definition request_body (q : request) : dict :=
  match q with
  | CreateRoom data _ _ | JoinRoom _ data _ | Send _ data _ _
  | Heartbeat _ data _ => data
  | _ => []
  end.

Definition wf_request (q : request) : bool := wf_json (JObj (request_body q)).

(** Serving the requests of a list one after the other *)
Fixpoint run (qs : list request) (st : db) : list response * db :=
  match qs with
  | [] => ([], st)
  | q :: qs' =>
      let (a, st1) := handle q st in
      let (l, st2) := run qs' st1 in
      (a :: l, st2)
  end.

(** The databases the relay can be in *)
Inductive reachable : db -> Prop :=
| reachable_init : reachable init_db
| reachable_step q st :
    reachable st -> wf_request q = true -> reachable (snd (handle q st)).

(** ** Auxiliary definitions of the statements *)

Definition nonzero_head (u : uint) : bool :=
  match u with
  | Nil | D0 _ => false
  | _ => true
  end.

(** No sign for zero, no leading zero: what [int.__repr__] prints. *)
Definition canonical (i : Decimal.int) : bool :=
  match i with
  | Pos (D0 Nil) => true
  | Pos u | Neg u => nonzero_head u
  end.

(** The text after a number does not continue it. *)
Definition ends_number (rest : list ascii) : bool :=
  match rest with
  | [] => true
  | c :: _ =>
      negb (is_digit c) && negb (Ascii.eqb c ".")
      && negb (Ascii.eqb c "e") && negb (Ascii.eqb c "E")
  end.

(** The list loops of [encode], named *)
Definition encode_items : list json -> list ascii :=
  fix items (l : list json) : list ascii :=
    match l with
    | [] => []
    | x :: l' =>
        encode x ++ match l' with [] => [] | _ => chars ", " ++ items l' end
    end.

Definition encode_members : dict -> list ascii :=
  fix members (l : dict) : list ascii :=
    match l with
    | [] => []
    | kv :: l' =>
        encode_basestring_ascii (fst kv) ++ chars ": " ++ encode (snd kv)
        ++ match l' with [] => [] | _ => chars ", " ++ members l' end
    end.

(** Fuel that [scan_once] needs to read a printed value back *)
Fixpoint cost (v : json) : nat :=
  match v with
  | JArr l =>
      S ((fix items (l : list json) : nat :=
            match l with
            | [] => O
            | x :: l' => S (cost x + items l')
            end) l)
  | JObj l =>
      S ((fix members (l : dict) : nat :=
            match l with
            | [] => O
            | kv :: l' => S (cost (snd kv) + members l')
            end) l)
  | _ => 1%nat
  end.

Definition cost_items : list json -> nat :=
  fix items (l : list json) : nat :=
    match l with
    | [] => O
    | x :: l' => S (cost x + items l')
    end.

Definition cost_members : dict -> nat :=
  fix members (l : dict) : nat :=
    match l with
    | [] => O
    | kv :: l' => S (cost (snd kv) + members l')
    end.

(** What the scanner owes for one printed value: with fuel for it, and
    before text that does not continue a number, it reads the value back. *)
Definition reads_back (v : json) : Prop :=
  wf_json v = true ->
  forall fuel rest,
    (cost v <= fuel)%nat -> ends_number rest = true ->
    scan_once fuel (encode v ++ rest) = Some (v, rest).

(** The row that an accepted [Send] inserts under id [i] *)
Definition sent_row (q : request) (i : Z) : option Signal :=
  match q with
  | Send room data now _ =>
      let from_dev := dict_get data "from" in
      let to_dev := dict_get data "to" in
      let ty := dict_get data "type" in
      let pl := dict_get data "payload" in
      if is_none from_dev || is_none to_dev || is_none ty || is_none pl then None
      else
        match bind_text from_dev, bind_text to_dev, bind_text ty with
        | inr f, inr t, inr k => Some (mkSignal i room f t k (dumps pl) now)
        | _, _, _ => None
        end
  | _ => None
  end.

(** An accepted [Send] into [room] for device [d], with a well-formed body *)
Definition sent_to (room d : string) (q : request) : bool :=
  match sent_row q 0 with
  | Some s => addressed_to room d s && wf_request q
  | None => false
  end.

(** The message a recipient should read for an accepted [Send] *)
Definition sent_message (q : request) : option message :=
  match q, sent_row q 0 with
  | Send _ data _ _, Some s =>
      Some (mkMessage (from_device s) (s_type s) (dict_get data "payload"))
  | _, _ => None
  end.

Fixpoint sent_messages (qs : list request) : list message :=
  match qs with
  | [] => []
  | q :: qs' =>
      match sent_message q with
      | Some m => m :: sent_messages qs'
      | None => sent_messages qs'
      end
  end.

(** The clock reading of a request *)
Definition time_of (q : request) : Z :=
  match q with
  | CreateRoom _ _ now | JoinRoom _ _ now | Send _ _ now _
  | Heartbeat _ _ now | ListPresent _ now => now
  | _ => 0
  end.

(** Does the sweep that [q] may trigger spare a signal created at [t]? *)
Definition keeps (t : Z) (q : request) : bool :=
  match q with
  | Send _ _ now uuid => negb (uuid mod 10 =? 0)%N || (now - 600 <=? t)
  | _ => true
  end.

(** No request of the list sweeps a signal sent by an earlier one (or by itself). *)
Fixpoint retained (qs : list request) : bool :=
  match qs with
  | [] => true
  | q :: qs' => forallb (keeps (time_of q)) qs' && retained qs'
  end.

(** Order of delivery: by [created_at], then by [id] *)
Definition earlier (a b : Signal) : Prop :=
  created_at a < created_at b \/ (created_at a = created_at b /\ id a < id b).

(** [l1] is [l2] with some elements left out *)
Inductive Subseq {A : Type} : list A -> list A -> Prop :=
| Subseq_nil l : Subseq [] l
| Subseq_keep x l1 l2 : Subseq l1 l2 -> Subseq (x :: l1) (x :: l2)
| Subseq_skip x l1 l2 : Subseq l1 l2 -> Subseq l1 (x :: l2).

(** What a poll owes for a stored row: a message with the sender and the
    type of the row, whose payload is the value that the stored text is the
    dump of *)
Definition delivers (s : Signal) (m : message) : Prop :=
  m_from m = from_device s /\ m_type m = s_type s /\
  wf_json (m_payload m) = true /\ dumps (m_payload m) = payload s.

(** A stored payload is the dump of a well-formed value. *)
Definition payload_ok (s : Signal) : Prop :=
  exists v, wf_json v = true /\ payload s = dumps v.

(** What every reachable database satisfies: signal ids grow along the
    table and stay below the sequence counter, payloads are dumps. *)
Record db_inv (st : db) : Prop := mk_db_inv {
  inv_ids : StronglySorted (fun a b => id a < id b) (signals st);
  inv_seq : Forall (fun s => id s <= signals_seq st) (signals st);
  inv_payload : Forall payload_ok (signals st)
}.


(** The database once the mailbox of device [d] in [room] has been read *)
Definition consume (room d : string) (st : db) : db :=
  mkDb (rooms st) (participants st)
       (filter (fun s => negb (addressed_to room d s)) (signals st))
       (signals_seq st).

(** The rows that the accepted requests of [qs] insert, the first under id [i] *)
Fixpoint sent_rows (qs : list request) (i : Z) : list Signal :=
  match qs with
  | [] => []
  | q :: qs' =>
      match sent_row q i with
      | Some s => s :: sent_rows qs' (i + 1)
      | None => sent_rows qs' i
      end
  end.

(** Request bodies of the examples *)
Definition device_body (d : string) : dict := [("device_id", JStr d)].

Definition signal_body (f t k : string) (pl : json) : dict :=
  [("from", JStr f); ("to", JStr t); ("type", JStr k); ("payload", pl)].

(** [SQLITE_LIMIT_VARIABLE_NUMBER] of a SQLite older than 3.32 *)
Definition limit_999 : nat := 999.

(** Three signals for device P of room R, sent while the clock steps back *)
Definition backward_sends : list request :=
  [Send "R" (signal_body "H" "P" "offer" (JInt 1)) 200 1;
   Send "R" (signal_body "H" "P" "candidate" (JInt 2)) 199 2;
   Send "R" (signal_body "H" "P" "candidate" (JInt 3)) 198 3].

(** A thousand signals for device P of room R *)
Definition thousand_sends : list request :=
  repeat (Send "R" (signal_body "H" "P" "candidate" (JInt 0)) 100 1) 1000.

(** Two signals for device P of room R, sent in the same second *)
Definition two_sends : list request :=
  [Send "R" (signal_body "H" "P" "offer" (JObj [("sdp", JStr "v=0")])) 100 1;
   Send "R" (signal_body "H" "P" "candidate" (JArr [JInt 1; JNull])) 100 2].

(** Is there an OPEN room of that id?  (The [SELECT] of [join_room].) *)
Definition room_open (room : string) (st : db) : bool :=
  existsb (fun x => room_is room x && String.eqb (status x) "open") (rooms st).

(** Is there a room of that id, whatever its status? *)
Definition room_exists (room : string) (st : db) : bool :=
  existsb (room_is room) (rooms st).

(** Is the pair registered in [participants]? *)
Definition registered (room d : string) (st : db) : bool :=
  existsb (participant_is room d) (participants st).

(** ** Auxiliary definitions of the further properties *)

(** The HTTP status of a response *)
Definition status_of (r : response) : Z := snd r.

(** The primary key of a participant row *)
Definition participant_key (p : Participant) : string * string :=
  (device_id p, p_room_id p).

(** What a participant row says besides the time it was last seen *)
Definition membership (p : Participant) : string * string * string :=
  (device_id p, p_room_id p, role p).

(** A character of [' '..'~'] *)
Definition printable (c : ascii) : bool :=
  ((32 <=? code c) && (code c <=? 126))%N.

(** The number that a room id spells: its leading run of digits *)
Definition room_number (room : string) : N :=
  N.of_uint (fst (scan_digits (chars room))).

(** The facts that closing an existing room establishes, and that every
    request keeps: the room exists, it is not open, it has no participant. *)
Definition closed_for_good (room : string) (st : db) : Prop :=
  room_exists room st = true /\ room_open room st = false /\
  forall p, In p (participants st) -> p_room_id p <> room.

(** * Properties *)

(** ** [json.loads] undoes [json.dumps] *)

Section Numbers.

Lemma nzhead_shape u : nzhead u = Nil \/ nonzero_head (nzhead u) = true.
Proof. induction u; simpl; auto. Qed.

Lemma to_uint_nonzero_head p : nonzero_head (Pos.to_uint p) = true.
Proof.
  pose proof (DecimalPos.Unsigned.to_of (Pos.to_uint p)) as H.
  rewrite DecimalPos.Unsigned.of_to in H. simpl in H.
  pose proof (DecimalPos.Unsigned.to_uint_nonzero p) as Hz.
  unfold unorm in H.
  destruct (nzhead_shape (Pos.to_uint p)) as [E|E].
  - rewrite E in H. exfalso. apply Hz. exact H.
  - destruct (nzhead (Pos.to_uint p)); simpl in E; try discriminate;
      rewrite H; reflexivity.
Qed.

Lemma to_int_canonical z : canonical (Z.to_int z) = true.
Proof.
  destruct z as [|p|p]; simpl; try reflexivity.
  - pose proof (to_uint_nonzero_head p). unfold Pos.to_int.
    destruct (Pos.to_uint p) as [|u| | | | | | | | |]; simpl in *; try congruence.
  - pose proof (to_uint_nonzero_head p). unfold Pos.to_int.
    destruct (Pos.to_uint p) as [|u| | | | | | | | |]; simpl in *; congruence.
Qed.

Lemma scan_digits_uint u rest :
  match rest with [] => true | c :: _ => negb (is_digit c) end = true ->
  scan_digits (uint_chars u ++ rest) = (u, rest).
Proof.
  intros Hrest. induction u; simpl; try (rewrite IHu; reflexivity).
  destruct rest as [|c rest']; [reflexivity|]. simpl.
  apply negb_true_iff in Hrest. rewrite Hrest. reflexivity.
Qed.

Lemma ends_number_no_digit rest :
  ends_number rest = true ->
  match rest with [] => true | c :: _ => negb (is_digit c) end = true.
Proof.
  destruct rest as [|c r]; simpl; [reflexivity|].
  intros H. repeat (apply andb_prop in H; destruct H as [H ?]). exact H.
Qed.

Lemma ends_number_no_float rest :
  ends_number rest = true -> has_frac rest || has_exp rest = false.
Proof.
  destruct rest as [|c r]; simpl; [reflexivity|].
  intros H. repeat (apply andb_prop in H; destruct H as [H ?]).
  repeat match goal with
         | K : negb _ = true |- _ => apply negb_true_iff in K
         end.
  destruct r; simpl;
    repeat match goal with
           | K : Ascii.eqb _ _ = false |- _ => rewrite K; clear K
           end; reflexivity.
Qed.

Lemma match_integer_int_chars i rest :
  canonical i = true -> ends_number rest = true ->
  match_integer (int_chars i ++ rest) = Some (i, rest).
Proof.
  intros Hc Hrest. apply ends_number_no_digit in Hrest.
  destruct i as [u|u]; unfold match_integer.
  - destruct u; simpl in Hc; try discriminate;
      try (change (int_chars (Pos ?x)) with (uint_chars x); simpl;
           rewrite (scan_digits_uint _ _ Hrest); reflexivity).
    destruct u; try discriminate. reflexivity.
  - destruct u; simpl in Hc; try discriminate;
      simpl; rewrite (scan_digits_uint _ _ Hrest); reflexivity.
Qed.

Lemma scan_number_int_repr z rest :
  ends_number rest = true ->
  scan_number (int_repr z ++ rest) = Some (JInt z, rest).
Proof.
  intros Hrest. unfold scan_number, int_repr.
  rewrite match_integer_int_chars by (auto using to_int_canonical).
  rewrite ends_number_no_float by assumption.
  rewrite DecimalZ.of_to. reflexivity.
Qed.

(** A printed integer starts with a minus sign or a digit. *)
Lemma int_repr_head z :
  exists c tl, int_repr z = c :: tl /\ In c (chars "-0123456789").
Proof.
  unfold int_repr. pose proof (to_int_canonical z) as Hc.
  destruct (Z.to_int z) as [u|u].
  - destruct u; simpl in Hc; try discriminate; simpl;
      eexists; eexists; (split; [reflexivity|]); simpl; tauto.
  - simpl. eexists; eexists; (split; [reflexivity|]); simpl; tauto.
Qed.

End Numbers.

Section Strings.

Lemma scanstring_escape_char c tail :
  scanstring (escape_char c ++ tail) = push c (scanstring tail).
Proof.
  destruct c as [[] [] [] [] [] [] [] []]; reflexivity.
Qed.

Lemma scanstring_escape_chars s rest :
  scanstring (escape_chars s ++ dquote :: rest) = Some (s, rest).
Proof.
  induction s as [|c s IH]; simpl; [reflexivity|].
  rewrite <- app_assoc, scanstring_escape_char, IH. reflexivity.
Qed.

End Strings.

Section RoundTrip.

Lemma encode_arr l : encode (JArr l) = "["%char :: encode_items l ++ ["]"%char].
Proof. reflexivity. Qed.

Lemma encode_obj l : encode (JObj l) = "{"%char :: encode_members l ++ ["}"%char].
Proof. reflexivity. Qed.

Lemma cost_arr l : cost (JArr l) = S (cost_items l).
Proof. reflexivity. Qed.

Lemma cost_obj l : cost (JObj l) = S (cost_members l).
Proof. reflexivity. Qed.

Lemma scan_once_string n t :
  scan_once (S n) (dquote :: t) =
  match scanstring t with
  | Some (str, r) => Some (JStr str, r)
  | None => None
  end.
Proof. reflexivity. Qed.

Lemma scan_once_array n t :
  scan_once (S n) ("["%char :: t) =
  match skip_ws t with
  | c' :: r =>
      if Ascii.eqb c' "]" then Some (JArr [], r)
      else match array_items n (c' :: r) with
           | Some (values, r') => Some (JArr values, r')
           | None => None
           end
  | [] => None
  end.
Proof. reflexivity. Qed.

Lemma scan_once_object n t :
  scan_once (S n) ("{"%char :: t) =
  match skip_ws t with
  | c' :: r =>
      if Ascii.eqb c' "}" then Some (JObj [], r)
      else if Ascii.eqb c' dquote then
        match object_members n r with
        | Some (pairs, r') => Some (JObj (dict_of_pairs pairs), r')
        | None => None
        end
      else None
  | [] => None
  end.
Proof. reflexivity. Qed.

Lemma scan_once_number n c tl :
  In c (chars "-0123456789") ->
  scan_once (S n) (c :: tl) = scan_number (c :: tl).
Proof.
  simpl. intros H.
  repeat (destruct H as [<-|H]; [reflexivity|]). contradiction.
Qed.

Lemma array_items_eq n s :
  array_items (S n) s =
  match scan_once n s with
  | Some (value, r) =>
      match skip_ws r with
      | c :: r' =>
          if Ascii.eqb c "]" then Some ([value], r')
          else if Ascii.eqb c "," then
            match array_items n (skip_ws r') with
            | Some (values, r'') => Some (value :: values, r'')
            | None => None
            end
          else None
      | [] => None
      end
  | None => None
  end.
Proof. reflexivity. Qed.

Lemma object_members_eq n s :
  object_members (S n) s =
  match scanstring s with
  | Some (key, r) =>
      match skip_ws r with
      | c :: r1 =>
          if Ascii.eqb c ":" then
            match scan_once n (skip_ws r1) with
            | Some (value, r2) =>
                match skip_ws r2 with
                | c' :: r3 =>
                    if Ascii.eqb c' "}" then Some ([(key, value)], r3)
                    else if Ascii.eqb c' "," then
                      match skip_ws r3 with
                      | q :: r4 =>
                          if Ascii.eqb q dquote then
                            match object_members n r4 with
                            | Some (pairs, r5) => Some ((key, value) :: pairs, r5)
                            | None => None
                            end
                          else None
                      | [] => None
                      end
                    else None
                | [] => None
                end
            | None => None
            end
          else None
      | [] => None
      end
  | None => None
  end.
Proof. reflexivity. Qed.

(** A printed value starts with a character that is neither blank nor a
    closing bracket. *)
Lemma encode_head v :
  exists c tl, encode v = c :: tl /\ is_ws c = false /\ Ascii.eqb c "]" = false.
Proof.
  destruct v as [|b|z|s|l|l].
  - do 2 eexists. split; [reflexivity|]. split; reflexivity.
  - destruct b; do 2 eexists; (split; [reflexivity|]); split; reflexivity.
  - destruct (int_repr_head z) as (c & tl & E & Hin).
    exists c, tl. split; [exact E|]. simpl in Hin.
    repeat (destruct Hin as [<-|Hin]; [split; reflexivity|]). contradiction.
  - do 2 eexists. split; [reflexivity|]. split; reflexivity.
  - do 2 eexists. split; [reflexivity|]. split; reflexivity.
  - do 2 eexists. split; [reflexivity|]. split; reflexivity.
Qed.

Lemma skip_ws_encode v tail : skip_ws (encode v ++ tail) = encode v ++ tail.
Proof.
  destruct (encode_head v) as (c & tl & E & Hws & _).
  rewrite E. simpl. rewrite Hws. reflexivity.
Qed.

Lemma dict_set_fresh d k v :
  existsb (String.eqb k) (map fst d) = false -> dict_set d k v = d ++ [(k, v)].
Proof.
  induction d as [|[k' v'] d IH]; simpl; [reflexivity|].
  intros H. apply orb_false_iff in H. destruct H as [H1 H2].
  rewrite H1, IH by assumption. reflexivity.
Qed.

Lemma existsb_app_false {A} (f : A -> bool) l1 l2 :
  existsb f l1 = false -> existsb f l2 = false -> existsb f (l1 ++ l2) = false.
Proof. intros. rewrite existsb_app. apply orb_false_iff. auto. Qed.

Lemma dict_of_pairs_distinct l :
  distinct (map fst l) = true -> dict_of_pairs l = l.
Proof.
  unfold dict_of_pairs.
  assert (forall l acc,
             distinct (map fst l) = true ->
             (forall k, In k (map fst l) ->
                        existsb (String.eqb k) (map fst acc) = false) ->
             fold_left (fun d kv => dict_set d (fst kv) (snd kv)) l acc
             = acc ++ l) as G.
  { clear l. induction l as [|[k v] l IH]; intros acc Hd Hfresh; simpl.
    - rewrite List.app_nil_r. reflexivity.
    - simpl in Hd. apply andb_prop in Hd. destruct Hd as [Hk Hd].
      apply negb_true_iff in Hk.
      rewrite dict_set_fresh by (apply Hfresh; simpl; auto).
      rewrite IH; [rewrite <- app_assoc; reflexivity|assumption|].
      intros k' Hin. rewrite map_app. apply existsb_app_false.
      + apply Hfresh. simpl. auto.
      + simpl. rewrite orb_false_r.
        destruct (String.eqb k' k) eqn:E; [|reflexivity].
        apply String.eqb_eq in E. subst k'.
        exfalso. assert (existsb (String.eqb k) (map fst l) = true) as C.
        { apply existsb_exists. exists k. split; [assumption|].
          apply String.eqb_refl. }
        congruence. }
  intros Hd. rewrite G; [reflexivity|assumption|].
  intros; reflexivity.
Qed.

End RoundTrip.

Section Scanner.

Lemma skip_ws_separator t :
  skip_ws (chars ", " ++ t) = ","%char :: " "%char :: t.
Proof. reflexivity. Qed.

Lemma array_items_encode l :
  Forall reads_back l -> forallb wf_json l = true -> l <> [] ->
  forall fuel rest,
    (cost_items l <= fuel)%nat ->
    array_items fuel (encode_items l ++ "]"%char :: rest) = Some (l, rest).
Proof.
  induction 1 as [|x l Hx Hl IH]; [congruence|].
  intros Hwf _ fuel rest Hfuel.
  simpl in Hwf. apply andb_prop in Hwf. destruct Hwf as [Hwx Hwl].
  change (cost_items (x :: l)) with (S (cost x + cost_items l)) in Hfuel.
  destruct fuel as [|n]; [lia|].
  rewrite array_items_eq.
  destruct l as [|y l'].
  - change (encode_items [x]) with (encode x ++ []).
    rewrite List.app_nil_r.
    rewrite (Hx Hwx) by (reflexivity || lia).
    reflexivity.
  - change (encode_items (x :: y :: l'))
      with (encode x ++ chars ", " ++ encode_items (y :: l')).
    rewrite <- !app_assoc.
    rewrite (Hx Hwx) by (reflexivity || lia).
    rewrite skip_ws_separator. cbv iota beta.
    change (Ascii.eqb "," "]") with false.
    change (Ascii.eqb "," ",") with true.
    cbv iota.
    assert (skip_ws (" "%char :: encode_items (y :: l') ++ "]"%char :: rest)
            = encode_items (y :: l') ++ "]"%char :: rest) as E.
    { change (skip_ws (" "%char :: ?t)) with (skip_ws t).
      change (encode_items (y :: l'))
        with (encode y ++ match l' with
                          | [] => []
                          | _ => chars ", " ++ encode_items l'
                          end).
      rewrite <- app_assoc. apply skip_ws_encode. }
    rewrite E.
    rewrite IH by (assumption || congruence || lia).
    reflexivity.
Qed.

Lemma encode_members_cons k v l :
  encode_members ((k, v) :: l) =
  dquote :: escape_chars k ++ dquote :: ":"%char :: " "%char ::
  encode v ++ match l with
              | [] => []
              | _ => ","%char :: " "%char :: encode_members l
              end.
Proof.
  change (encode_members ((k, v) :: l))
    with (encode_basestring_ascii k ++ chars ": " ++ encode v
          ++ match l with [] => [] | _ => chars ", " ++ encode_members l end).
  unfold encode_basestring_ascii. simpl. rewrite <- app_assoc. simpl.
  destruct l; reflexivity.
Qed.

Lemma object_members_encode l :
  Forall (fun kv => reads_back (snd kv)) l ->
  forallb (fun kv => wf_json (snd kv)) l = true ->
  forall fuel rest tl,
    (cost_members l <= fuel)%nat ->
    encode_members l = dquote :: tl ->
    object_members fuel (tl ++ "}"%char :: rest) = Some (l, rest).
Proof.
  induction 1 as [|[k v] l Hx Hl IH]; [discriminate|].
  intros Hwf fuel rest tl Hfuel Htl.
  simpl in Hwf. apply andb_prop in Hwf. destruct Hwf as [Hwx Hwl].
  change (cost_members ((k, v) :: l)) with (S (cost v + cost_members l)) in Hfuel.
  destruct fuel as [|n]; [lia|].
  rewrite encode_members_cons in Htl. injection Htl as <-.
  rewrite object_members_eq.
  rewrite <- app_assoc. rewrite <- app_comm_cons.
  rewrite scanstring_escape_chars.
  rewrite <- !app_comm_cons, <- app_assoc.
  change (skip_ws (":"%char :: " "%char :: ?t)) with (":"%char :: " "%char :: t).
  cbv iota beta. change (Ascii.eqb ":" ":") with true. cbv iota.
  change (skip_ws (" "%char :: ?t)) with (skip_ws t).
  rewrite skip_ws_encode.
  simpl in Hx.
  destruct l as [|[k' v'] l'].
  - rewrite (Hx Hwx) by (reflexivity || lia). reflexivity.
  - rewrite (Hx Hwx) by (reflexivity || lia).
    rewrite <- !app_comm_cons.
    change (skip_ws (","%char :: ?t)) with (","%char :: t).
    cbv iota beta.
    change (Ascii.eqb "," "}") with false.
    change (Ascii.eqb "," ",") with true.
    cbv iota.
    change (skip_ws (" "%char :: ?t)) with (skip_ws t).
    rewrite encode_members_cons. rewrite <- app_comm_cons.
    change (skip_ws (dquote :: ?t)) with (dquote :: t).
    cbv iota beta. change (Ascii.eqb dquote dquote) with true. cbv iota.
    erewrite IH; [reflexivity|assumption| |apply encode_members_cons].
    lia.
Qed.

Lemma scan_once_encode v : reads_back v.
Proof.
  induction v as [|b|z|s|l IH|l IH] using json_ind;
    intros Hwf fuel rest Hfuel Hrest;
    (destruct fuel as [|n]; [simpl in Hfuel; lia|]).
  - reflexivity.
  - destruct b; reflexivity.
  - destruct (int_repr_head z) as (c & tl & E & Hin).
    change (encode (JInt z)) with (int_repr z).
    rewrite E, <- app_comm_cons, scan_once_number by assumption.
    rewrite app_comm_cons, <- E. apply scan_number_int_repr. assumption.
  - change (encode (JStr s)) with (dquote :: escape_chars s ++ [dquote]).
    rewrite <- app_comm_cons, scan_once_string, <- app_assoc.
    change ([dquote] ++ rest) with (dquote :: rest).
    rewrite scanstring_escape_chars. reflexivity.
  - rewrite encode_arr, cost_arr in *.
    rewrite <- app_comm_cons, scan_once_array, <- app_assoc.
    change (["]"%char] ++ rest) with ("]"%char :: rest).
    destruct l as [|x l'].
    + reflexivity.
    + assert (skip_ws (encode_items (x :: l') ++ "]"%char :: rest)
              = encode_items (x :: l') ++ "]"%char :: rest) as E.
      { change (encode_items (x :: l'))
          with (encode x ++ match l' with
                            | [] => []
                            | _ => chars ", " ++ encode_items l'
                            end).
        rewrite <- app_assoc. apply skip_ws_encode. }
      rewrite E.
      pose proof (array_items_encode (x :: l') IH Hwf) as A.
      specialize (A ltac:(congruence) n rest ltac:(lia)).
      destruct (encode_head x) as (c & tl & Ex & _ & Hc).
      revert A.
      change (encode_items (x :: l'))
        with (encode x ++ match l' with
                          | [] => []
                          | _ => chars ", " ++ encode_items l'
                          end).
      rewrite Ex. rewrite <- !app_comm_cons. intros A.
      rewrite Hc, A. reflexivity.
  - rewrite encode_obj, cost_obj in *.
    rewrite <- app_comm_cons, scan_once_object, <- app_assoc.
    change (["}"%char] ++ rest) with ("}"%char :: rest).
    simpl in Hwf. apply andb_prop in Hwf. destruct Hwf as [Hd Hwf].
    destruct l as [|[k v] l'].
    + reflexivity.
    + rewrite encode_members_cons. rewrite <- app_comm_cons.
      change (skip_ws (dquote :: ?t)) with (dquote :: t).
      cbv iota beta.
      change (Ascii.eqb dquote "}") with false.
      change (Ascii.eqb dquote dquote) with true.
      cbv iota.
      erewrite object_members_encode;
        [|exact IH|exact Hwf| |apply encode_members_cons]; [|lia].
      rewrite dict_of_pairs_distinct by assumption. reflexivity.
Qed.

Lemma cost_le_length v : (cost v <= List.length (encode v))%nat.
Proof.
  induction v as [|b|z|s|l IH|l IH] using json_ind.
  - simpl. lia.
  - destruct b; simpl; lia.
  - destruct (int_repr_head z) as (c & tl & E & _).
    change (encode (JInt z)) with (int_repr z). rewrite E. simpl. lia.
  - simpl. lia.
  - rewrite encode_arr, cost_arr. simpl List.length. rewrite length_app.
    simpl List.length.
    assert (l <> [] -> (cost_items l <= List.length (encode_items l) + 1)%nat) as A.
    { induction IH as [|x l' Hx Hl IHl]; [congruence|]. intros _.
      change (cost_items (x :: l')) with (S (cost x + cost_items l')).
      change (encode_items (x :: l'))
        with (encode x ++ match l' with
                          | [] => []
                          | _ => chars ", " ++ encode_items l'
                          end).
      rewrite length_app. destruct l' as [|y l''].
      - simpl. lia.
      - rewrite length_app. simpl (List.length (chars ", ")).
        specialize (IHl ltac:(congruence)). lia. }
    destruct l; [simpl; lia|]. specialize (A ltac:(congruence)). lia.
  - rewrite encode_obj, cost_obj. simpl List.length. rewrite length_app.
    simpl List.length.
    assert ((cost_members l <= List.length (encode_members l))%nat) as A.
    { induction IH as [|[k v] l' Hx Hl IHl]; [simpl; lia|].
      change (cost_members ((k, v) :: l')) with (S (cost v + cost_members l')).
      rewrite encode_members_cons. simpl List.length.
      rewrite length_app. simpl List.length. rewrite length_app.
      change (cost v <= List.length (encode v))%nat in Hx.
      destruct l' as [|kv l'']; [simpl; lia|].
      cbn [List.length]. lia. }
    lia.
Qed.

Lemma decode_encode v : wf_json v = true -> decode (encode v) = Some v.
Proof.
  intros Hwf. unfold decode.
  rewrite <- (List.app_nil_r (encode v)) at 2.
  rewrite skip_ws_encode, List.app_nil_r.
  rewrite <- (List.app_nil_r (encode v)) at 2.
  rewrite (scan_once_encode v Hwf) by (reflexivity || (pose proof (cost_le_length v); lia)).
  reflexivity.
Qed.

Lemma loads_dumps v : wf_json v = true -> loads (dumps v) = Some v.
Proof.
  intros Hwf. unfold loads, dumps, chars, text.
  rewrite list_ascii_of_string_of_list_ascii. apply decode_encode, Hwf.
Qed.

End Scanner.

(** ** Tables, sorting and the invariant *)

Section Tables.

Lemma StronglySorted_filter {A} (R : A -> A -> Prop) (f : A -> bool) l :
  StronglySorted R l -> StronglySorted R (filter f l).
Proof.
  induction 1 as [|x l Hs IH Hx]; simpl; [constructor|].
  destruct (f x); [|exact IH].
  constructor; [exact IH|].
  rewrite Forall_forall in *. intros y Hy.
  apply filter_In in Hy. apply Hx. tauto.
Qed.

Lemma StronglySorted_snoc {A} (R : A -> A -> Prop) l x :
  StronglySorted R l -> Forall (fun y => R y x) l -> StronglySorted R (l ++ [x]).
Proof.
  induction 1 as [|y l Hs IH Hy]; intros Hx; simpl.
  - constructor; constructor.
  - inversion Hx; subst. constructor; [auto|].
    apply Forall_app. split; [assumption|]. constructor; [assumption|constructor].
Qed.

Lemma Forall_filter {A} (P : A -> Prop) (f : A -> bool) l :
  Forall P l -> Forall P (filter f l).
Proof.
  rewrite !Forall_forall. intros H x Hx. apply filter_In in Hx. apply H. tauto.
Qed.

Lemma insert_by_created_at_perm x l :
  Permutation (insert_by_created_at x l) (x :: l).
Proof.
  induction l as [|y l IH]; simpl; [reflexivity|].
  destruct (created_at x <=? created_at y); [reflexivity|].
  rewrite IH. apply perm_swap.
Qed.

Lemma order_by_created_at_perm l : Permutation (order_by_created_at l) l.
Proof.
  induction l as [|x l IH]; simpl; [reflexivity|].
  rewrite insert_by_created_at_perm. constructor. exact IH.
Qed.

Lemma order_by_created_at_In s l : In s (order_by_created_at l) <-> In s l.
Proof.
  split; apply Permutation_in;
    [|symmetry]; apply order_by_created_at_perm.
Qed.

Lemma earlier_created_at a b : earlier a b -> created_at a <= created_at b.
Proof. unfold earlier. lia. Qed.

Lemma insert_by_created_at_sorted x l :
  StronglySorted earlier l -> Forall (fun y => id x < id y) l ->
  StronglySorted earlier (insert_by_created_at x l).
Proof.
  induction 1 as [|y l Hs IH Hy]; intros Hx; simpl.
  - constructor; constructor.
  - inversion Hx as [|? ? Hxy Hxl]; subst.
    destruct (created_at x <=? created_at y) eqn:E.
    + apply Z.leb_le in E. constructor; [constructor; assumption|].
      constructor; [unfold earlier; lia|].
      rewrite Forall_forall in *. intros z Hz.
      specialize (Hy z Hz). specialize (Hxl z Hz).
      apply earlier_created_at in Hy. unfold earlier. lia.
    + apply Z.leb_gt in E. constructor; [auto|].
      rewrite Forall_forall in *. intros z Hz.
      apply (Permutation_in _ (insert_by_created_at_perm x l)) in Hz.
      destruct Hz as [<-|Hz]; [unfold earlier; lia|auto].
Qed.

Lemma order_by_created_at_sorted l :
  StronglySorted (fun a b => id a < id b) l ->
  StronglySorted earlier (order_by_created_at l).
Proof.
  induction 1 as [|x l Hs IH Hx]; simpl; [constructor|].
  apply insert_by_created_at_sorted; [exact IH|].
  rewrite Forall_forall in *. intros y Hy.
  apply (proj1 (order_by_created_at_In _ _)) in Hy. auto.
Qed.

Lemma dict_lookup_In k d v : dict_lookup k d = Some v -> In (k, v) d.
Proof.
  induction d as [|[k' v'] d IH]; simpl; [discriminate|].
  destruct (String.eqb k k') eqn:E.
  - apply String.eqb_eq in E. intros [= ->]. subst. auto.
  - auto.
Qed.

Lemma wf_dict_get data k :
  wf_json (JObj data) = true -> wf_json (dict_get data k) = true.
Proof.
  intros H. simpl in H. apply andb_prop in H. destruct H as [_ H].
  unfold dict_get. destruct (dict_lookup k data) as [v|] eqn:E; [|reflexivity].
  apply dict_lookup_In in E. rewrite forallb_forall in H.
  apply (H (k, v)). assumption.
Qed.

End Tables.

(** The checks and the three bindings of [send_signal], case by case: what
    is left is the accepted request. *)
Ltac sent_row_cases :=
  destruct (_ || _); [discriminate|];
  destruct (bind_text (dict_get _ "from")); [discriminate|];
  destruct (bind_text (dict_get _ "to")); [discriminate|];
  destruct (bind_text (dict_get _ "type")); [discriminate|].

(** Whatever a poll answers, it leaves the database as it was or deletes
    signal rows by their ids. *)
Lemma get_signals_snd room device st :
  snd (get_signals room device st) = st \/
  exists ids,
    snd (get_signals room device st)
    = mkDb (rooms st) (participants st)
           (filter (fun s => negb (existsb (Z.eqb (id s)) ids)) (signals st))
           (signals_seq st).
Proof.
  unfold get_signals. destruct device as [d|]; [|left; reflexivity].
  destruct (String.eqb d ""); [left; reflexivity|].
  destruct (read_messages _); [|left; reflexivity]. cbv zeta.
  destruct (map id _) as [|i ids]; [left; reflexivity|].
  unfold delete_signals.
  destruct (_ <=? _)%nat; [|left; reflexivity].
  right. eexists. reflexivity.
Qed.

Ltac poll_cases :=
  match goal with
  | |- context [get_signals ?r ?dv ?st] =>
      destruct (get_signals_snd r dv st) as [-> | (ids & ->)]
  end.

Section Invariant.

Lemma db_inv_init : db_inv init_db.
Proof. split; simpl; constructor. Qed.

Lemma db_inv_filter st st' f :
  signals st' = filter f (signals st) -> signals_seq st' = signals_seq st ->
  db_inv st -> db_inv st'.
Proof.
  intros Hs Hq [H1 H2 H3]. split; rewrite Hs; try rewrite Hq.
  - apply StronglySorted_filter, H1.
  - apply Forall_filter, H2.
  - apply Forall_filter, H3.
Qed.

Lemma db_inv_same st st' :
  signals st' = signals st -> signals_seq st' = signals_seq st ->
  db_inv st -> db_inv st'.
Proof.
  intros Hs Hq [H1 H2 H3]. split; rewrite Hs; try rewrite Hq; assumption.
Qed.

Lemma sent_row_id q i j s :
  sent_row q i = Some s ->
  sent_row q j =
  Some (mkSignal j (s_room_id s) (from_device s) (to_device s) (s_type s)
                 (payload s) (created_at s)).
Proof.
  destruct q; simpl; try discriminate.
  sent_row_cases.
  intros [= <-]. reflexivity.
Qed.

Lemma sent_row_fields q i s :
  sent_row q i = Some s -> id s = i /\ created_at s = time_of q.
Proof.
  destruct q; simpl; try discriminate.
  sent_row_cases.
  intros [= <-]. split; reflexivity.
Qed.

(** What [send_signal] does with an accepted request *)
Lemma send_signal_accepted room data now uuid st s :
  sent_row (Send room data now uuid) (signals_seq st + 1) = Some s ->
  send_signal room data now uuid st =
  ((Sent, 201),
   let st1 := mkDb (rooms st) (participants st) (signals st ++ [s])
                   (signals_seq st + 1) in
   if (uuid mod 10 =? 0)%N then clean_stale_data now st1 else st1).
Proof.
  unfold sent_row, send_signal.
  sent_row_cases.
  intros [= <-]. reflexivity.
Qed.

(** ... and with any other: an error, and the database untouched *)
Lemma send_signal_rejected room data now uuid st i :
  sent_row (Send room data now uuid) i = None ->
  send_signal room data now uuid st = ((Error missing_fields, 400), st) \/
  send_signal room data now uuid st = ((InternalServerError, 500), st).
Proof.
  unfold sent_row, send_signal.
  destruct (_ || _); [auto|].
  destruct (bind_text (dict_get data "from")); [auto|].
  destruct (bind_text (dict_get data "to")); [auto|].
  destruct (bind_text (dict_get data "type")); [auto|].
  discriminate.
Qed.

Lemma sent_row_payload_ok q i s :
  wf_request q = true -> sent_row q i = Some s -> payload_ok s.
Proof.
  destruct q; simpl; try discriminate. intros Hwf.
  sent_row_cases.
  intros [= <-]. exists (dict_get data "payload"). split; [|reflexivity].
  apply wf_dict_get. exact Hwf.
Qed.

Lemma db_inv_insert st s :
  db_inv st -> id s = signals_seq st + 1 -> payload_ok s ->
  db_inv (mkDb (rooms st) (participants st) (signals st ++ [s])
               (signals_seq st + 1)).
Proof.
  intros [H1 H2 H3] Hid Hp. split; simpl.
  - apply StronglySorted_snoc; [assumption|].
    eapply Forall_impl; [|exact H2]. simpl. intros. lia.
  - apply Forall_app. split.
    + eapply Forall_impl; [|exact H2]. simpl. intros. lia.
    + constructor; [lia|constructor].
  - apply Forall_app. split; [assumption|]. constructor; [assumption|constructor].
Qed.

Lemma db_inv_send room data now uuid st :
  wf_request (Send room data now uuid) = true ->
  db_inv st -> db_inv (snd (send_signal room data now uuid st)).
Proof.
  intros Hwf Hinv.
  destruct (sent_row (Send room data now uuid) (signals_seq st + 1)) as [s|] eqn:E.
  - rewrite (send_signal_accepted _ _ _ _ _ _ E). cbn [snd].
    pose proof (sent_row_fields _ _ _ E) as [Hid _].
    pose proof (sent_row_payload_ok _ _ _ Hwf E) as Hp.
    pose proof (db_inv_insert st s Hinv Hid Hp) as Hins.
    cbv zeta. destruct (uuid mod 10 =? 0)%N; [|exact Hins].
    eapply db_inv_filter; [| |exact Hins]; reflexivity.
  - destruct (send_signal_rejected _ _ _ _ st _ E) as [-> | ->]; exact Hinv.
Qed.

Lemma db_inv_handle q st :
  wf_request q = true -> db_inv st -> db_inv (snd (handle q st)).
Proof.
  intros Hwf Hinv. destruct q; cbn [handle].
  - unfold create_room.
    destruct (negb _); [exact Hinv|].
    destruct (bind_text _) as [e|h]; cbn [bind_stmt]; [exact Hinv|].
    unfold insert_room. destruct (existsb _ _); cbn [bind_stmt raise ret]; [exact Hinv|].
    unfold insert_participant. cbn [participants].
    destruct (existsb _ _); cbn [raise ret snd]; [exact Hinv|].
    eapply db_inv_same; [| |exact Hinv]; reflexivity.
  - unfold join_room.
    destruct (negb _); [exact Hinv|].
    destruct (find _ _); [|exact Hinv].
    destruct (bind_text _); [exact Hinv|].
    eapply db_inv_same; [| |exact Hinv]; reflexivity.
  - apply db_inv_send; assumption.
  - poll_cases;
      [exact Hinv|].
    eapply db_inv_filter; [| |exact Hinv]; reflexivity.
  - unfold heartbeat.
    destruct (negb _); [exact Hinv|].
    destruct (bind_text _); [exact Hinv|].
    eapply db_inv_same; [| |exact Hinv]; reflexivity.
  - exact Hinv.
  - eapply db_inv_filter; [| |exact Hinv]; reflexivity.
Qed.

Lemma reachable_inv st : reachable st -> db_inv st.
Proof.
  induction 1; [apply db_inv_init|]. apply db_inv_handle; assumption.
Qed.

Lemma reachable_run qs st :
  reachable st -> forallb wf_request qs = true -> reachable (snd (run qs st)).
Proof.
  revert st. induction qs as [|q qs IH]; intros st Hr Hwf; simpl; [exact Hr|].
  simpl in Hwf. apply andb_prop in Hwf. destruct Hwf as [Hq Hqs].
  pose proof (reachable_step q st Hr Hq) as Hr1.
  destruct (handle q st) as [a st1]. simpl in Hr1.
  specialize (IH st1 Hr1 Hqs).
  destruct (run qs st1) as [l st2]. exact IH.
Qed.

End Invariant.

(** ** Reading a mailbox *)

Section Mailbox.

Variables room d : string.

Lemma id_injective l a b :
  StronglySorted (fun a b => id a < id b) l ->
  In a l -> In b l -> id a = id b -> a = b.
Proof.
  induction 1 as [|x l Hs IH Hx]; intros Ha Hb E; [contradiction|].
  rewrite Forall_forall in Hx.
  destruct Ha as [<-|Ha], Hb as [<-|Hb]; auto.
  - specialize (Hx _ Hb). lia.
  - specialize (Hx _ Ha). lia.
Qed.

Lemma filter_all {A} (f : A -> bool) l :
  (forall x, In x l -> f x = true) -> filter f l = l.
Proof.
  induction l as [|x l IH]; intros H; simpl; [reflexivity|].
  rewrite (H x) by (left; reflexivity). rewrite IH; [reflexivity|].
  intros y Hy. apply H. right. exact Hy.
Qed.

Lemma filter_none {A} (f : A -> bool) l :
  (forall x, In x l -> f x = false) -> filter f l = [].
Proof.
  induction l as [|x l IH]; intros H; simpl; [reflexivity|].
  rewrite (H x) by (left; reflexivity). apply IH.
  intros y Hy. apply H. right. exact Hy.
Qed.

Lemma read_messages_ok rows :
  Forall payload_ok rows -> exists msgs, read_messages rows = Some msgs.
Proof.
  induction 1 as [|row rows (v & Hwf & Hp) Hrows (msgs & IH)]; simpl.
  - eexists. reflexivity.
  - rewrite Hp, loads_dumps, IH by assumption. eexists. reflexivity.
Qed.

Lemma select_signals_In st s :
  In s (select_signals room d st) <->
  In s (signals st) /\ addressed_to room d s = true.
Proof.
  unfold select_signals. rewrite order_by_created_at_In. apply filter_In.
Qed.

Lemma select_signals_payload_ok st :
  db_inv st -> Forall payload_ok (select_signals room d st).
Proof.
  intros [_ _ H]. rewrite Forall_forall in *. intros s Hs.
  apply select_signals_In in Hs. apply H. tauto.
Qed.

Lemma delete_selected st :
  db_inv st ->
  (List.length (select_signals room d st) <= variable_limit)%nat ->
  delete_signals (map id (select_signals room d st)) st
  = inr (consume room d st).
Proof.
  intros [Hids _ _] Hn. unfold delete_signals, consume.
  rewrite length_map. apply Nat.leb_le in Hn. rewrite Hn.
  unfold ret. f_equal. f_equal.
  apply filter_ext_in. intros s Hs. f_equal.
  destruct (addressed_to room d s) eqn:E.
  - apply existsb_exists. exists (id s). split; [|apply Z.eqb_refl].
    apply in_map. apply select_signals_In. auto.
  - destruct (existsb _ _) eqn:X; [|reflexivity].
    apply existsb_exists in X. destruct X as (i & Hi & Heq).
    apply Z.eqb_eq in Heq. apply in_map_iff in Hi.
    destruct Hi as (r & Hr & Hin). apply select_signals_In in Hin.
    destruct Hin as [Hin Hadd].
    assert (r = s) by (eapply id_injective; eauto; lia).
    subst r. congruence.
Qed.

Lemma consume_nothing st :
  select_signals room d st = [] -> consume room d st = st.
Proof.
  intros Hsel. destruct st as [rs ps ss q]. unfold consume.
  cbn [rooms participants signals signals_seq]. f_equal.
  apply filter_all. intros s Hs.
  destruct (addressed_to room d s) eqn:E; [|reflexivity].
  assert (In s (select_signals room d (mkDb rs ps ss q))) as Hin
      by (apply select_signals_In; auto).
  rewrite Hsel in Hin. contradiction.
Qed.

(** A poll with a device id succeeds on every database that satisfies the
    invariant when the rows it selects are no more than the statement that
    deletes them may name: it answers the selected rows and leaves the
    others. *)
Lemma get_signals_ok st :
  db_inv st -> d <> "" ->
  (List.length (select_signals room d st) <= variable_limit)%nat ->
  exists msgs,
    read_messages (select_signals room d st) = Some msgs /\
    get_signals room (Some d) st = ((Messages msgs, 200), consume room d st).
Proof.
  intros Hinv Hd Hn.
  destruct (read_messages_ok _ (select_signals_payload_ok st Hinv))
    as (msgs & Hm).
  exists msgs. split; [exact Hm|]. unfold get_signals.
  destruct (String.eqb d "") eqn:E; [apply String.eqb_eq in E; contradiction|].
  rewrite Hm. cbv zeta.
  pose proof (delete_selected st Hinv Hn) as Hdel.
  destruct (select_signals room d st) as [|r rows] eqn:Hsel.
  - cbn [map]. rewrite <- Hsel in *.
    rewrite (consume_nothing st Hsel). reflexivity.
  - cbn [map] in *. rewrite Hdel. reflexivity.
Qed.

(** Above the limit the poll fails before it deletes anything. *)
Lemma get_signals_too_many st :
  db_inv st -> d <> "" ->
  (variable_limit < List.length (select_signals room d st))%nat ->
  get_signals room (Some d) st = ((InternalServerError, 500), st).
Proof.
  intros Hinv Hd Hn.
  destruct (read_messages_ok _ (select_signals_payload_ok st Hinv))
    as (msgs & Hm).
  unfold get_signals.
  destruct (String.eqb d "") eqn:E; [apply String.eqb_eq in E; contradiction|].
  rewrite Hm. cbv zeta.
  destruct (select_signals room d st) as [|r rows] eqn:Hsel;
    [simpl in Hn; lia|].
  unfold delete_signals. rewrite length_map.
  apply Nat.leb_gt in Hn. rewrite Hn. reflexivity.
Qed.

Lemma select_consume st : select_signals room d (consume room d st) = [].
Proof.
  unfold select_signals, consume. simpl.
  rewrite filter_none; [reflexivity|].
  intros s Hs. apply filter_In in Hs. destruct Hs as [_ Hs].
  apply negb_true_iff in Hs. exact Hs.
Qed.

Lemma db_inv_consume st : db_inv st -> db_inv (consume room d st).
Proof. apply db_inv_filter with (f := fun s => negb (addressed_to room d s)); reflexivity. Qed.

Lemma consume_idem st :
  consume room d (consume room d st) = consume room d st.
Proof.
  unfold consume. simpl. f_equal. apply filter_all.
  intros s Hs. apply filter_In in Hs. tauto.
Qed.

(** An empty mailbox polls empty, and the poll changes nothing. *)
Lemma get_signals_empty st :
  d <> "" -> select_signals room d st = [] ->
  get_signals room (Some d) st = ((Messages [], 200), st).
Proof.
  intros Hd Hsel. unfold get_signals.
  destruct (String.eqb d "") eqn:E; [apply String.eqb_eq in E; contradiction|].
  rewrite Hsel. reflexivity.
Qed.

End Mailbox.

(** ** Sending, then polling *)

Section Delivery.

Variables room d : string.

Lemma run_app qs1 qs2 st :
  run (qs1 ++ qs2) st =
  (fst (run qs1 st) ++ fst (run qs2 (snd (run qs1 st))),
   snd (run qs2 (snd (run qs1 st)))).
Proof.
  revert st. induction qs1 as [|q qs1 IH]; intros st; simpl.
  - destruct (run qs2 st). reflexivity.
  - destruct (handle q st) as [a st1]. rewrite IH.
    destruct (run qs1 st1) as [l st2]. reflexivity.
Qed.

Lemma run_cons q qs st :
  run (q :: qs) st =
  (fst (handle q st) :: fst (run qs (snd (handle q st))),
   snd (run qs (snd (handle q st)))).
Proof.
  simpl. destruct (handle q st) as [a st1]. simpl.
  destruct (run qs st1). reflexivity.
Qed.

Lemma sent_to_inv q :
  sent_to room d q = true ->
  wf_request q = true /\
  exists data now uuid, q = Send room data now uuid /\
    forall i, exists s, sent_row q i = Some s /\ addressed_to room d s = true.
Proof.
  unfold sent_to. destruct (sent_row q 0) as [s|] eqn:E; [|discriminate].
  intros H. apply andb_prop in H. destruct H as [Ha Hwf]. split; [exact Hwf|].
  destruct q; try discriminate.
  assert (room0 = room) as ->.
  { pose proof (sent_row_id _ 0 0 _ E) as E'. unfold addressed_to in Ha.
    apply andb_prop in Ha. destruct Ha as [Ha _]. apply String.eqb_eq in Ha.
    revert E Ha. simpl. sent_row_cases.
    intros [= <-]. simpl. auto. }
  exists data, now, uuid. split; [reflexivity|]. intros i.
  eexists. split; [apply (sent_row_id _ 0 i _ E)|]. exact Ha.
Qed.

Lemma sent_to_wf qs :
  forallb (sent_to room d) qs = true -> forallb wf_request qs = true.
Proof.
  rewrite !forallb_forall. intros H q Hq. apply (sent_to_inv), H, Hq.
Qed.

(** The signals after an accepted [Send] *)
Lemma send_signals q st s :
  sent_row q (signals_seq st + 1) = Some s ->
  signals_seq (snd (handle q st)) = signals_seq st + 1 /\
  In s (signals (snd (handle q st))) /\
  forall x, In x (signals st) -> keeps (created_at x) q = true ->
            In x (signals (snd (handle q st))).
Proof.
  intros E. destruct q; try discriminate. cbn [handle].
  rewrite (send_signal_accepted _ _ _ _ _ _ E). cbn [snd]. cbv zeta.
  pose proof (sent_row_fields _ _ _ E) as [_ Ht]. simpl in Ht.
  unfold keeps. destruct (uuid mod 10 =? 0)%N; simpl.
  - split; [reflexivity|]. split.
    + apply filter_In. split; [apply in_or_app; right; left; reflexivity|].
      apply negb_true_iff, Z.ltb_ge. lia.
    + intros x Hx Hk. apply filter_In. split; [apply in_or_app; auto|].
      apply Z.leb_le in Hk. apply negb_true_iff, Z.ltb_ge. lia.
  - split; [reflexivity|]. split.
    + apply in_or_app; right; left; reflexivity.
    + intros x Hx _. apply in_or_app; auto.
Qed.

(** A row stays in the table through the sends that keep it. *)
Lemma signal_survives qs st x :
  forallb (sent_to room d) qs = true ->
  In x (signals st) -> forallb (keeps (created_at x)) qs = true ->
  In x (signals (snd (run qs st))).
Proof.
  revert st. induction qs as [|q qs IH]; intros st Hs Hx Hk; [exact Hx|].
  simpl in Hs, Hk. apply andb_prop in Hs, Hk.
  destruct Hs as [Hq Hs], Hk as [Hkq Hk].
  rewrite run_cons. cbn [snd]. apply IH; [assumption| |assumption].
  destruct (sent_to_inv _ Hq) as (_ & data & now & uuid & -> & Hrow).
  destruct (Hrow (signals_seq st + 1)) as (s & Es & _).
  apply (send_signals _ _ _ Es); assumption.
Qed.

(** The rows of a retained run of sends are all in the table afterwards. *)
Lemma sent_rows_stored qs st s :
  forallb (sent_to room d) qs = true -> retained qs = true ->
  In s (sent_rows qs (signals_seq st + 1)) ->
  In s (signals (snd (run qs st))).
Proof.
  revert st. induction qs as [|q qs IH]; intros st Hs Hr Hin; [contradiction|].
  simpl in Hs, Hr. apply andb_prop in Hs, Hr.
  destruct Hs as [Hq Hs], Hr as [Hkq Hr].
  destruct (sent_to_inv _ Hq) as (_ & data & now & uuid & -> & Hrow).
  destruct (Hrow (signals_seq st + 1)) as (s0 & Es & _).
  rewrite run_cons. cbn [snd].
  destruct (send_signals _ _ _ Es) as (Hseq & Hnew & _).
  cbn [sent_rows] in Hin. rewrite Es in Hin. destruct Hin as [<-|Hin].
  - apply (signal_survives); [assumption|assumption|].
    pose proof (sent_row_fields _ _ _ Es) as [_ ->]. exact Hkq.
  - apply IH; [assumption|assumption|]. rewrite Hseq. exact Hin.
Qed.

(** After accepted sends, a stored signal was stored before or is the row
    of one of them. *)
Lemma stored_after_sends qs st s :
  forallb (sent_to room d) qs = true ->
  In s (signals (snd (run qs st))) ->
  In s (signals st) \/ In s (sent_rows qs (signals_seq st + 1)).
Proof.
  revert st. induction qs as [|q qs IH]; intros st Hs Hin; [left; exact Hin|].
  simpl in Hs. apply andb_prop in Hs. destruct Hs as [Hq Hs].
  destruct (sent_to_inv _ Hq) as (_ & data & now & uuid & -> & Hrow).
  destruct (Hrow (signals_seq st + 1)) as (s0 & Es & _).
  rewrite run_cons in Hin. cbn [snd] in Hin.
  destruct (send_signals _ _ _ Es) as (Hseq & _ & _).
  cbn [sent_rows]. rewrite Es.
  destruct (IH _ Hs Hin) as [Hold|Hnew].
  - cbn [handle] in Hold.
    rewrite (send_signal_accepted _ _ _ _ _ _ Es) in Hold.
    cbn [snd] in Hold. cbv zeta in Hold.
    assert (In s (signals st ++ [s0])) as H.
    { destruct (uuid mod 10 =? 0)%N; cbn [clean_stale_data signals] in Hold.
      - apply filter_In in Hold. tauto.
      - exact Hold. }
    apply in_app_or in H. destruct H as [H|[<-|[]]];
      [left; exact H|right; left; reflexivity].
  - right. right. rewrite Hseq in Hnew. exact Hnew.
Qed.

Lemma sent_rows_bounds qs i s :
  In s (sent_rows qs i) ->
  i <= id s /\ In (created_at s) (map time_of qs).
Proof.
  revert i. induction qs as [|q qs IH]; intros i Hin; [contradiction|].
  simpl in Hin. destruct (sent_row q i) as [s0|] eqn:E.
  - destruct Hin as [<-|Hin].
    + pose proof (sent_row_fields _ _ _ E) as [-> ->]. simpl. split; [lia|auto].
    + apply IH in Hin. simpl. split; [lia|tauto].
  - apply IH in Hin. simpl. tauto.
Qed.

Lemma sent_rows_sorted qs i :
  StronglySorted Z.le (map time_of qs) ->
  StronglySorted earlier (sent_rows qs i).
Proof.
  revert i. induction qs as [|q qs IH]; intros i Hs; simpl; [constructor|].
  simpl in Hs. inversion Hs as [|? ? Hs' Hq]; subst.
  destruct (sent_row q i) as [s0|] eqn:E; [|auto].
  constructor; [auto|].
  rewrite Forall_forall in *. intros s Hin.
  apply sent_rows_bounds in Hin. destruct Hin as [Hid Ht].
  pose proof (sent_row_fields _ _ _ E) as [Hi Hc].
  specialize (Hq _ Ht). unfold earlier. lia.
Qed.

Lemma sent_rows_addressed qs i s :
  forallb (sent_to room d) qs = true ->
  In s (sent_rows qs i) -> addressed_to room d s = true.
Proof.
  revert i. induction qs as [|q qs IH]; intros i Hs Hin; [contradiction|].
  simpl in Hs. apply andb_prop in Hs. destruct Hs as [Hq Hs].
  destruct (sent_to_inv _ Hq) as (_ & data & now & uuid & -> & Hrow).
  destruct (Hrow i) as (s0 & Es & Ha).
  cbn [sent_rows] in Hin. rewrite Es in Hin. destruct Hin as [<-|Hin]; eauto.
Qed.

Lemma sent_rows_messages qs i :
  forallb (sent_to room d) qs = true ->
  read_messages (sent_rows qs i) = Some (sent_messages qs).
Proof.
  revert i. induction qs as [|q qs IH]; intros i Hs; [reflexivity|].
  simpl in Hs. apply andb_prop in Hs. destruct Hs as [Hq Hs].
  destruct (sent_to_inv _ Hq) as (Hwf & data & now & uuid & -> & Hrow).
  destruct (Hrow 0) as (s0 & E0 & _).
  pose proof (sent_row_id _ 0 i _ E0) as Ei.
  cbn [sent_rows sent_messages]. rewrite Ei. unfold sent_message. rewrite E0.
  cbn [read_messages payload from_device s_type].
  assert (payload s0 = dumps (dict_get data "payload")) as ->.
  { revert E0. simpl. sent_row_cases.
    intros [= <-]. reflexivity. }
  rewrite loads_dumps by (apply wf_dict_get; exact Hwf).
  rewrite IH by assumption. reflexivity.
Qed.

Lemma earlier_asym a b : earlier a b -> earlier b a -> False.
Proof. unfold earlier. lia. Qed.

(** Two lists sorted by the same strict order: if every element of the
    first is in the second, the first is the second with elements left out. *)
Lemma sorted_Subseq l1 l2 :
  StronglySorted earlier l1 -> StronglySorted earlier l2 ->
  (forall x, In x l1 -> In x l2) -> Subseq l1 l2.
Proof.
  intros H1 H2. revert l1 H1.
  induction H2 as [|y l2 Hs2 IH Hy]; intros l1 H1 Hin.
  - destruct l1 as [|x l1]; [constructor|]. destruct (Hin x (or_introl eq_refl)).
  - destruct l1 as [|x l1]; [constructor|].
    inversion H1 as [|? ? Hs1 Hx]; subst.
    rewrite Forall_forall in Hx, Hy.
    destruct (Hin x (or_introl eq_refl)) as [->|Hxl].
    + apply Subseq_keep. apply IH; [assumption|].
      intros z Hz. destruct (Hin z (or_intror Hz)) as [<-|Hz']; [|assumption].
      exfalso. specialize (Hx _ Hz). eapply earlier_asym; eauto.
    + apply Subseq_skip. apply IH; [assumption|].
      intros z [<-|Hz]; [assumption|].
      destruct (Hin z (or_intror Hz)) as [<-|Hz']; [|assumption].
      exfalso. specialize (Hx _ Hz). specialize (Hy _ Hxl).
      eapply earlier_asym; eauto.
Qed.

Lemma read_messages_Subseq rows1 rows2 msgs2 :
  Subseq rows1 rows2 -> read_messages rows2 = Some msgs2 ->
  exists msgs1, read_messages rows1 = Some msgs1 /\ Subseq msgs1 msgs2.
Proof.
  intros H. revert msgs2. induction H as [l|x l1 l2 H IH|x l1 l2 H IH];
    intros msgs2 E; simpl in *.
  - eexists. split; [reflexivity|constructor].
  - destruct (loads (payload x)); [|discriminate].
    destruct (read_messages l2) as [m2|]; [|discriminate].
    injection E as <-. destruct (IH _ eq_refl) as (m1 & -> & Hsub).
    eexists. split; [reflexivity|]. constructor. exact Hsub.
  - destruct (loads (payload x)); [|discriminate].
    destruct (read_messages l2) as [m2|]; [|discriminate].
    injection E as <-. destruct (IH _ eq_refl) as (m1 & -> & Hsub).
    eexists. split; [reflexivity|]. constructor. exact Hsub.
Qed.

Lemma NoDup_ids l :
  StronglySorted (fun a b => id a < id b) l -> NoDup (map id l).
Proof.
  induction 1 as [|x l Hs IH Hx]; simpl; constructor; [|exact IH].
  rewrite Forall_forall in Hx. intros Hin. apply in_map_iff in Hin.
  destruct Hin as (y & E & Hy). specialize (Hx _ Hy). lia.
Qed.

Lemma select_signals_perm st :
  Permutation (select_signals room d st) (filter (addressed_to room d) (signals st)).
Proof. apply order_by_created_at_perm. Qed.

Lemma select_signals_NoDup st :
  db_inv st -> NoDup (map id (select_signals room d st)).
Proof.
  intros [H _ _].
  eapply Permutation_NoDup;
    [apply Permutation_map; symmetry; apply select_signals_perm|].
  apply NoDup_ids, StronglySorted_filter, H.
Qed.

Lemma select_signals_sorted st :
  db_inv st -> StronglySorted earlier (select_signals room d st).
Proof.
  intros [H _ _]. apply order_by_created_at_sorted, StronglySorted_filter, H.
Qed.

(** Polling again and again: the first poll answers, the others find nothing. *)
Lemma run_polls k st :
  db_inv st -> d <> "" ->
  (List.length (select_signals room d st) <= variable_limit)%nat ->
  exists msgs,
    read_messages (select_signals room d st) = Some msgs /\
    run (repeat (Fetch room (Some d)) (S k)) st =
    ((Messages msgs, 200) :: repeat (Messages [], 200) k, consume room d st).
Proof.
  intros Hinv Hd Hn.
  destruct (get_signals_ok room d st Hinv Hd Hn) as (msgs & Hm & Hg).
  exists msgs. split; [exact Hm|].
  cbn [repeat]. rewrite run_cons. cbn [handle]. rewrite Hg. cbn [fst snd].
  assert (forall n, run (repeat (Fetch room (Some d)) n) (consume room d st)
                    = (repeat (Messages [], 200) n, consume room d st)) as R.
  { induction n as [|n IHn]; [reflexivity|].
    cbn [repeat]. rewrite run_cons. cbn [handle].
    rewrite (get_signals_empty room d _ Hd (select_consume room d st)).
    cbn [fst snd]. rewrite IHn. reflexivity. }
  rewrite R. reflexivity.
Qed.

(** Above the limit every poll fails and the mailbox stays as it is. *)
Lemma run_polls_too_many k st :
  db_inv st -> d <> "" ->
  (variable_limit < List.length (select_signals room d st))%nat ->
  run (repeat (Fetch room (Some d)) k) st
  = (repeat (InternalServerError, 500) k, st).
Proof.
  intros Hinv Hd Hn. induction k as [|k IH]; [reflexivity|].
  cbn [repeat]. rewrite run_cons. cbn [handle].
  rewrite (get_signals_too_many room d st Hinv Hd Hn). cbn [fst snd].
  rewrite IH. reflexivity.
Qed.

(** The messages of a poll are those of the rows, one for one. *)
Lemma read_messages_delivers rows msgs :
  Forall payload_ok rows -> read_messages rows = Some msgs ->
  Forall2 delivers rows msgs.
Proof.
  intros H. revert msgs.
  induction H as [|row rows (v & Hwf & Hp) Hrows IH]; intros msgs; simpl.
  - intros [= <-]. constructor.
  - rewrite Hp, loads_dumps by assumption.
    destruct (read_messages rows) as [l|]; [|discriminate].
    intros [= <-]. constructor; [|apply IH; reflexivity].
    unfold delivers. cbn [m_from m_type m_payload]. auto.
Qed.

(** [json.dumps] prints different values differently. *)
Lemma dumps_inj v v' :
  wf_json v = true -> wf_json v' = true -> dumps v = dumps v' -> v = v'.
Proof.
  intros Hv Hv' E. apply loads_dumps in Hv, Hv'. congruence.
Qed.

Lemma Subseq_In {A} (l1 l2 : list A) x : Subseq l1 l2 -> In x l1 -> In x l2.
Proof.
  induction 1 as [l|y l1 l2 H IH|y l1 l2 H IH]; intros Hin.
  - contradiction.
  - destruct Hin as [<-|Hin]; [left; reflexivity|right; auto].
  - right; auto.
Qed.

End Delivery.

(** ** Participants belong to rooms *)

Section Rooms.

Lemma participants_have_rooms_handle q st :
  (forall p, In p (participants st) -> room_exists (p_room_id p) st = true) ->
  forall p, In p (participants (snd (handle q st))) ->
            room_exists (p_room_id p) (snd (handle q st)) = true.
Proof.
  intros H. unfold room_exists in *. destruct q; cbn [handle].
  - unfold create_room. destruct (negb _); [exact H|].
    destruct (bind_text _) as [e|h]; cbn [bind_stmt]; [exact H|].
    unfold insert_room.
    destruct (existsb _ _); cbn [bind_stmt raise ret]; [exact H|].
    unfold insert_participant. cbn [participants].
    destruct (existsb _ _); cbn [raise ret snd rooms participants]; [exact H|].
    intros p Hp. rewrite existsb_app. apply in_app_or in Hp.
    destruct Hp as [Hp|[<-|[]]].
    + rewrite (H p Hp). reflexivity.
    + simpl. unfold room_is. simpl. rewrite String.eqb_refl.
      rewrite orb_true_r. reflexivity.
  - unfold join_room. destruct (negb _); [exact H|].
    destruct (find _ _) as [x|] eqn:F; [|exact H].
    destruct (bind_text _); [exact H|].
    cbn [snd replace_participant rooms participants].
    intros p Hp. apply in_app_or in Hp. destruct Hp as [Hp|[<-|[]]].
    + apply filter_In in Hp. apply H. tauto.
    + apply find_some in F. destruct F as [Hx Hr].
      apply andb_prop in Hr. destruct Hr as [Hr _].
      apply existsb_exists. exists x. split; [exact Hx|exact Hr].
  - destruct (sent_row (Send room data now uuid) (signals_seq st + 1)) as [s|] eqn:E.
    + rewrite (send_signal_accepted _ _ _ _ _ _ E). cbn [snd]. cbv zeta.
      destruct (uuid mod 10 =? 0)%N; [|exact H].
      cbn [clean_stale_data rooms participants].
      intros p Hp. apply filter_In in Hp. apply H. tauto.
    + destruct (send_signal_rejected _ _ _ _ st _ E) as [-> | ->]; exact H.
  - poll_cases; exact H.
  - unfold heartbeat. destruct (negb _); [exact H|].
    destruct (bind_text _); [exact H|].
    cbn [snd rooms participants]. intros p Hp. apply in_map_iff in Hp.
    destruct Hp as (p0 & <- & Hp0).
    destruct (participant_is room s p0); apply (H p0 Hp0).
  - exact H.
  - cbn [close_room snd rooms participants]. intros p Hp.
    apply filter_In in Hp. destruct Hp as [Hp _].
    specialize (H p Hp). apply existsb_exists in H.
    destruct H as (x & Hx & Hr). apply existsb_exists.
    exists (if room_is room x
            then mkRoom (room_id x) (host_id x) (room_created_at x) "closed"
            else x).
    split.
    + apply in_map_iff. exists x. split; [reflexivity|exact Hx].
    + destruct (room_is room x); exact Hr.
Qed.

Lemma participants_have_rooms st :
  reachable st ->
  forall p, In p (participants st) -> room_exists (p_room_id p) st = true.
Proof.
  induction 1 as [|q st Hr IH Hwf]; [intros p []|].
  apply participants_have_rooms_handle. exact IH.
Qed.

End Rooms.

Section Positions.

Lemma Forall2_nth_error {A B} (R : A -> B -> Prop) l1 l2 n a :
  Forall2 R l1 l2 -> nth_error l1 n = Some a ->
  exists b, nth_error l2 n = Some b /\ R a b.
Proof.
  intros H. revert n. induction H as [|x y l1 l2 Hxy H IH]; intros n.
  - destruct n; discriminate.
  - destruct n as [|n]; simpl.
    + intros [= <-]. eauto.
    + apply IH.
Qed.

Lemma sorted_nth_error {A} (R : A -> A -> Prop) l i j a b :
  StronglySorted R l ->
  nth_error l i = Some a -> nth_error l j = Some b -> (i < j)%nat -> R a b.
Proof.
  intros H. revert i j. induction H as [|x l Hs IH Hx]; intros i j.
  - destruct i; discriminate.
  - destruct i as [|i], j as [|j]; simpl; try lia.
    + intros [= <-] Hb _. rewrite Forall_forall in Hx. apply Hx.
      eapply nth_error_In. exact Hb.
    + intros Ha Hb Hlt. apply (IH i j); [assumption|assumption|lia].
Qed.

(** The message owed for the row of an accepted [Send] is the message that
    was sent. *)
Lemma delivers_sent q i s m :
  wf_request q = true -> sent_row q i = Some s -> delivers s m ->
  sent_message q = Some m.
Proof.
  intros Hwf Hrow (Hf & Ht & Hwfm & Hp).
  pose proof (sent_row_id _ i 0 _ Hrow) as H0.
  destruct q; try discriminate Hrow.
  unfold sent_message. rewrite H0. cbn [from_device s_type].
  assert (payload s = dumps (dict_get data "payload")) as Hpl.
  { revert Hrow. simpl. sent_row_cases. intros [= <-]. reflexivity. }
  assert (m_payload m = dict_get data "payload") as Hv.
  { apply dumps_inj; [exact Hwfm|apply wf_dict_get; exact Hwf|congruence]. }
  destruct m as [f t v]. cbn [m_from m_type m_payload] in *. congruence.
Qed.

End Positions.

(** * The claims *)

(** C1 (amended): at-most-once delivery.  After any accepted sends to device
    [d] of [room], when the signals pending for [d] are no more than one
    statement may name, the first of one or more polls for [d] answers
    every pending signal, each once and in the order of the rows (one
    message for each row, with the sender, the type and the payload of the
    row; the ids of the rows are distinct), and deletes exactly those rows;
    every later poll answers the empty list.  A signal that was sent is
    pending, hence delivered by exactly one poll, with the payload that was
    sent, when no later send of the sequence swept it (each later send
    either does not sweep or comes at most 600 seconds after it). *)
Theorem delivery_at_most_once room d sends k st :
  reachable st -> d <> "" ->
  forallb (sent_to room d) sends = true ->
  let st1 := snd (run sends st) in
  let rows := select_signals room d st1 in
  let polls := repeat (Fetch room (Some d)) (S k) in
  (List.length rows <= variable_limit)%nat ->
  exists msgs,
    fst (run polls st1) = (Messages msgs, 200) :: repeat (Messages [], 200) k /\
    Forall2 delivers rows msgs /\
    (forall s, In s rows <-> In s (signals st1) /\ addressed_to room d s = true) /\
    NoDup (map id rows) /\
    signals (snd (run polls st1)) =
      filter (fun s => negb (addressed_to room d s)) (signals st1) /\
    (forall pre q post s,
        sends = pre ++ q :: post ->
        sent_row q (signals_seq (snd (run pre st)) + 1) = Some s ->
        forallb (keeps (time_of q)) post = true ->
        exists n, nth_error rows n = Some s /\
                  nth_error msgs n = sent_message q).
Proof.
  intros Hr Hd Hs st1 rows polls Hn.
  assert (db_inv st1) as Hinv
      by (apply reachable_inv, reachable_run; eauto using sent_to_wf).
  destruct (run_polls room d k st1 Hinv Hd Hn) as (msgs & Hm & Hrun).
  pose proof (read_messages_delivers _ _
                (select_signals_payload_ok room d st1 Hinv) Hm) as Hdel.
  exists msgs. subst polls. rewrite Hrun. cbn [fst snd].
  split; [reflexivity|]. split; [exact Hdel|].
  split; [intros s; apply select_signals_In|].
  split; [apply select_signals_NoDup, Hinv|]. split; [reflexivity|].
  intros pre q post s -> Hrow Hk.
  rewrite forallb_app in Hs. apply andb_prop in Hs. destruct Hs as [_ Hs].
  cbn [forallb] in Hs. apply andb_prop in Hs. destruct Hs as [Hq Hpost].
  destruct (sent_to_inv _ _ _ Hq) as (Hwf & _ & _ & _ & _ & Hrow').
  assert (In s rows) as Hin.
  { apply select_signals_In. split.
    - subst st1. rewrite run_app. cbn [snd]. rewrite run_cons. cbn [snd].
      apply (signal_survives room d); [assumption| |].
      + destruct (send_signals _ _ _ Hrow) as (_ & Hin & _). exact Hin.
      + pose proof (sent_row_fields _ _ _ Hrow) as [_ ->]. exact Hk.
    - destruct (Hrow' (signals_seq (snd (run pre st)) + 1)) as (s' & E & Ha).
      congruence. }
  apply In_nth_error in Hin. destruct Hin as (n & Hn').
  destruct (Forall2_nth_error _ _ _ _ _ Hdel Hn') as (m & Hm' & Hsm).
  exists n. split; [exact Hn'|]. rewrite Hm'. symmetry.
  apply (delivers_sent _ _ _ _ Hwf Hrow Hsm).
Qed.

(** C2 (amended): order of delivery.  A poll (of a mailbox that one
    statement can delete) answers the signals pending for the device, one
    message for each row, sorted by [created_at] and by [id] among those of
    one second: a total order.  After accepted sends to one recipient the
    pending rows are older ones and rows of these sends ([sent] lists them
    in the order of the sends); when the clock readings of the sends do not
    decrease, those of their signals that are pending come back in the
    order they were sent: of two of them, the one sent first comes first. *)
Theorem fetch_in_creation_order room d sends st :
  reachable st -> d <> "" ->
  forallb (sent_to room d) sends = true ->
  let st1 := snd (run sends st) in
  let rows := select_signals room d st1 in
  let sent := sent_rows sends (signals_seq st + 1) in
  (List.length rows <= variable_limit)%nat ->
  exists msgs,
    fst (get_signals room (Some d) st1) = (Messages msgs, 200) /\
    Forall2 delivers rows msgs /\
    Permutation rows (filter (addressed_to room d) (signals st1)) /\
    StronglySorted earlier rows /\
    (forall s, In s rows -> In s (signals st) \/ In s sent) /\
    (StronglySorted Z.le (map time_of sends) ->
     forall i' j' i j a b,
       nth_error sent i' = Some a -> nth_error sent j' = Some b ->
       (i' < j')%nat ->
       nth_error rows i = Some a -> nth_error rows j = Some b ->
       (i < j)%nat).
Proof.
  intros Hr Hd Hs st1 rows sent Hn.
  assert (db_inv st1) as Hinv
      by (apply reachable_inv, reachable_run; eauto using sent_to_wf).
  destruct (get_signals_ok room d st1 Hinv Hd Hn) as (msgs & Hm & Hg).
  exists msgs. rewrite Hg. split; [reflexivity|].
  split; [apply (read_messages_delivers _ _
                   (select_signals_payload_ok room d st1 Hinv) Hm)|].
  split; [apply select_signals_perm|].
  pose proof (select_signals_sorted room d st1 Hinv) as Hsorted.
  split; [exact Hsorted|]. split.
  { intros s Hin. apply select_signals_In in Hin.
    apply (stored_after_sends room d); tauto. }
  intros Ht i' j' i j a b Ha' Hb' Hlt Ha Hb.
  pose proof (sorted_nth_error _ _ _ _ _ _ (sent_rows_sorted _ _ Ht) Ha' Hb' Hlt)
    as Hab.
  destruct (Nat.lt_trichotomy i j) as [H|[H|H]]; [exact H| |].
  - exfalso. subst j. assert (a = b) as <- by congruence.
    exact (earlier_asym _ _ Hab Hab).
  - exfalso. apply (earlier_asym _ _ Hab).
    exact (sorted_nth_error _ _ _ _ _ _ Hsorted Hb Ha H).
Qed.

(** C3: consumption, and where the handler misses it.  On a reachable
    database, a poll for a device (a non-empty id) whose pending signals
    are no more than one statement may name succeeds, and the same poll
    repeated at once answers the empty list, with status 200, and changes
    nothing.  With more signals pending, the [DELETE] that names every row
    read is refused: the poll answers 500, delivers and deletes nothing,
    and so does every repetition. *)
Theorem fetch_again_is_empty room d st :
  reachable st -> d <> "" ->
  ((List.length (select_signals room d st) <= variable_limit)%nat ->
   exists msgs st1,
     get_signals room (Some d) st = ((Messages msgs, 200), st1) /\
     get_signals room (Some d) st1 = ((Messages [], 200), st1)) /\
  ((variable_limit < List.length (select_signals room d st))%nat ->
   get_signals room (Some d) st = ((InternalServerError, 500), st)).
Proof.
  intros Hr Hd. pose proof (reachable_inv st Hr) as Hinv. split; intros Hn.
  - destruct (get_signals_ok room d st Hinv Hd Hn) as (msgs & _ & Hg).
    exists msgs, (consume room d st). split; [exact Hg|].
    apply get_signals_empty; [exact Hd|apply select_consume].
  - apply get_signals_too_many; assumption.
Qed.

(** C4 (amended): the stored role is the one of the latest registration.
    A [join_room] on an OPEN room answers 200 with the room's host and
    leaves exactly one row for the joining device in that room, with role
    peer and [last_seen] the time of the call, whatever row the device had
    before: a peer stays a peer, the host becomes a peer.  The rows of other
    participants and the rooms are not touched. *)
Theorem join_registers_peer room data now st d :
  truthy (dict_get data "device_id") = true ->
  bind_text (dict_get data "device_id") = inr d ->
  room_open room st = true ->
  let st1 := snd (join_room room data now st) in
  (exists token host, fst (join_room room data now st) = (Joined token host, 200)) /\
  filter (participant_is room d) (participants st1)
  = [mkParticipant d room "peer" now] /\
  filter (fun p => negb (participant_is room d p)) (participants st1)
  = filter (fun p => negb (participant_is room d p)) (participants st) /\
  rooms st1 = rooms st.
Proof.
  intros Ht Hb Ho st1. subst st1. unfold join_room. rewrite Ht, Hb. cbn [negb].
  unfold room_open in Ho.
  destruct (find _ (rooms st)) as [x|] eqn:F.
  - cbn [fst snd replace_participant participants rooms p_room_id device_id].
    split; [eauto|]. rewrite !filter_app.
    assert (participant_is room d (mkParticipant d room "peer" now) = true) as E.
    { unfold participant_is. simpl. rewrite !String.eqb_refl. reflexivity. }
    cbn [filter]. rewrite E. cbn [negb].
    split; [|split; [|reflexivity]].
    + rewrite filter_none; [reflexivity|].
      intros p Hp. apply filter_In in Hp. destruct Hp as [_ Hp].
      apply negb_true_iff in Hp. exact Hp.
    + rewrite List.app_nil_r. apply filter_all.
      intros p Hp. apply filter_In in Hp. tauto.
  - exfalso. apply existsb_exists in Ho. destruct Ho as (x & Hx & Hox).
    pose proof (find_none _ _ F x Hx) as C. congruence.
Qed.

(** C5 (amended): a [Send] whose four fields are present and bindable is
    accepted on every database, whatever the room is there (open, closed or
    never created): it answers 201 and stores one new row under the next
    id, for that room id, which the sweep of the same call does not delete;
    it adds no other row and leaves the rooms table as it was. *)
Theorem send_ignores_room_status room data now uuid st s :
  sent_row (Send room data now uuid) (signals_seq st + 1) = Some s ->
  fst (send_signal room data now uuid st) = (Sent, 201) /\
  In s (signals (snd (send_signal room data now uuid st))) /\
  s_room_id s = room /\ id s = signals_seq st + 1 /\
  (forall x, In x (signals (snd (send_signal room data now uuid st))) ->
             x = s \/ In x (signals st)) /\
  rooms (snd (send_signal room data now uuid st)) = rooms st.
Proof.
  intros E.
  rewrite (send_signal_accepted room data now uuid st s E).
  cbn [fst snd]. cbv zeta. split; [reflexivity|].
  pose proof (sent_row_fields _ _ _ E) as [Hid Ht]. simpl in Ht.
  split; [|split; [|split; [exact Hid|split]]].
  - destruct (uuid mod 10 =? 0)%N; cbn [clean_stale_data signals].
    + apply filter_In. split; [apply in_or_app; right; left; reflexivity|].
      apply negb_true_iff, Z.ltb_ge. lia.
    + apply in_or_app; right; left; reflexivity.
  - revert E. simpl. sent_row_cases.
    intros [= <-]. reflexivity.
  - intros x Hx.
    assert (In x (signals st ++ [s])) as Hin.
    { destruct (uuid mod 10 =? 0)%N; cbn [clean_stale_data signals] in Hx.
      - apply filter_In in Hx. tauto.
      - exact Hx. }
    apply in_app_or in Hin. destruct Hin as [Hin|[<-|[]]]; auto.
  - destruct (uuid mod 10 =? 0)%N; reflexivity.
Qed.

(** C6 (amended): [close_room] always answers 200 "closed".  Afterwards
    the room, if there is one, is closed and no room was added; no
    participant row and no signal row carries the room id, so the list of
    present participants is empty and a poll made at once, for any device,
    is empty whatever was pending; closing again changes nothing.  When no
    room, participant or signal carries the id, the call changes nothing. *)
Theorem close_room_cascades room now d st :
  let st' := snd (close_room room st) in
  fst (close_room room st) = (Closed, 200) /\
  (forall x, In x (rooms st') -> room_id x = room -> status x = "closed") /\
  map room_id (rooms st') = map room_id (rooms st) /\
  (forall p, In p (participants st') -> p_room_id p <> room) /\
  (forall s, In s (signals st') -> s_room_id s <> room) /\
  list_participants room now st' = ((Present [], 200), st') /\
  (d <> "" -> get_signals room (Some d) st' = ((Messages [], 200), st')) /\
  close_room room st' = ((Closed, 200), st') /\
  (room_exists room st = false ->
   (forall p, In p (participants st) -> p_room_id p <> room) ->
   (forall s, In s (signals st) -> s_room_id s <> room) ->
   st' = st).
Proof.
  intros st'. subst st'. unfold close_room. cbn [fst snd].
  cbn [rooms participants signals signals_seq].
  assert (forall p,
             In p (filter (fun p => negb (String.eqb (p_room_id p) room))
                          (participants st)) -> p_room_id p <> room) as Hp.
  { intros p H. apply filter_In in H. destruct H as [_ H].
    apply negb_true_iff, String.eqb_neq in H. exact H. }
  assert (forall s,
             In s (filter (fun s => negb (String.eqb (s_room_id s) room))
                          (signals st)) -> s_room_id s <> room) as Hs.
  { intros s H. apply filter_In in H. destruct H as [_ H].
    apply negb_true_iff, String.eqb_neq in H. exact H. }
  split; [reflexivity|]. split; [|split; [|split; [exact Hp|split; [exact Hs|]]]].
  - intros x Hx Hid. apply in_map_iff in Hx. destruct Hx as (y & <- & Hy).
    destruct (room_is room y) eqn:E; [reflexivity|].
    unfold room_is in E. apply String.eqb_neq in E. contradiction.
  - rewrite map_map. apply map_ext. intros x. destruct (room_is room x); reflexivity.
  - split; [|split; [|split]].
    + unfold list_participants. cbn [participants]. rewrite filter_none; [reflexivity|].
      intros p H. specialize (Hp p H). apply String.eqb_neq in Hp. rewrite Hp.
      reflexivity.
    + intros Hd. apply get_signals_empty; [exact Hd|].
      unfold select_signals. cbn [signals]. rewrite filter_none; [reflexivity|].
      intros s H. specialize (Hs s H). apply String.eqb_neq in Hs.
      unfold addressed_to. rewrite Hs. reflexivity.
    + f_equal. f_equal.
      * rewrite map_map. apply map_ext. intros x.
        unfold room_is. cbn [room_id].
        destruct (String.eqb (room_id x) room) eqn:E; cbn [room_id]; rewrite E;
          reflexivity.
      * apply filter_all. intros p H. apply filter_In in H. tauto.
      * apply filter_all. intros s H. apply filter_In in H. tauto.
    + intros Hr Hps Hss. destruct st as [rs ps ss q].
      cbn [rooms participants signals signals_seq] in *. f_equal.
      * unfold room_exists in Hr. cbn [rooms] in Hr.
        rewrite <- (map_id rs) at 2. apply map_ext_in. intros x Hx.
        destruct (room_is room x) eqn:E; [|reflexivity].
        assert (existsb (room_is room) rs = true) as C
            by (apply existsb_exists; eauto).
        congruence.
      * apply filter_all. intros p H. apply negb_true_iff, String.eqb_neq. auto.
      * apply filter_all. intros s H. apply negb_true_iff, String.eqb_neq. auto.
Qed.

(** C7 (amended): a heartbeat for a pair that is not registered (never
    was, or was swept or cascaded away) updates no row: it answers 200
    "alive" and leaves the database as it was. *)
Theorem heartbeat_unknown_pair_is_noop room data now st d :
  truthy (dict_get data "device_id") = true ->
  bind_text (dict_get data "device_id") = inr d ->
  registered room d st = false ->
  heartbeat room data now st = ((Alive, 200), st).
Proof.
  intros Ht Hb Hr. unfold heartbeat. rewrite Ht, Hb. cbn [negb].
  f_equal. destruct st as [rs ps ss q]. cbn [rooms participants signals signals_seq].
  f_equal. unfold registered in Hr. cbn [participants] in Hr.
  induction ps as [|p ps IH]; [reflexivity|].
  simpl in Hr. apply orb_false_iff in Hr. destruct Hr as [Hp Hps].
  simpl. rewrite Hp, IH by assumption. reflexivity.
Qed.

(** C8 (amended): [create_room] makes one attempt with the identifier it
    drew.  If a room of that id exists, whatever its status, the answer is
    500 with the duplicate-key message and nothing is stored; otherwise the
    room is inserted OPEN with the caller as its host, the host is
    registered with role host, and the answer is 201. *)
Theorem create_room_single_attempt data rand now st h :
  reachable st ->
  truthy (dict_get data "device_id") = true ->
  bind_text (dict_get data "device_id") = inr h ->
  let room := format_06d rand in
  (room_exists room st = true ->
   create_room data rand now st
   = ((Raised (IntegrityError "UNIQUE constraint failed: rooms.room_id"), 500), st))
  /\
  (room_exists room st = false ->
   exists token,
     create_room data rand now st
     = ((RoomCreated room token, 201),
        mkDb (rooms st ++ [mkRoom room h now "open"])
             (participants st ++ [mkParticipant h room "host" now])
             (signals st) (signals_seq st))).
Proof.
  intros Hr Ht Hb room. unfold room_exists, create_room.
  rewrite Ht, Hb. cbn [negb bind_stmt]. fold room. unfold insert_room.
  cbn [room_id]. split; intros E; rewrite E; cbn [bind_stmt raise ret].
  - reflexivity.
  - unfold insert_participant. cbn [participants p_room_id device_id].
    destruct (existsb (participant_is room h) (participants st)) eqn:P.
    + exfalso. apply existsb_exists in P. destruct P as (p & Hp & Hpr).
      pose proof (participants_have_rooms st Hr p Hp) as C.
      unfold participant_is in Hpr. apply andb_prop in Hpr.
      destruct Hpr as [Hpr _]. apply String.eqb_eq in Hpr.
      unfold room_exists in C. rewrite Hpr in C. congruence.
    + cbn [ret rooms signals signals_seq]. eexists. reflexivity.
Qed.

(** C10: a null field is a missing field.  When one of [from], [to],
    [type], [payload] is JSON null in the body, or is absent from it, the
    answer is 400 with the missing-fields message and the database is left
    as it was: no signal row is inserted, and nothing tells the two cases
    apart. *)
Theorem send_rejects_null_field room data now uuid st k :
  In k ["from"; "to"; "type"; "payload"] ->
  dict_lookup k data = Some JNull \/ dict_lookup k data = None ->
  send_signal room data now uuid st = ((Error missing_fields, 400), st).
Proof.
  intros Hk Hnull.
  assert (is_none (dict_get data k) = true) as Hn
      by (unfold dict_get; destruct Hnull as [-> | ->]; reflexivity).
  unfold send_signal. simpl in Hk.
  destruct Hk as [<-|[<-|[<-|[<-|[]]]]]; rewrite Hn;
    rewrite ?orb_true_r; reflexivity.
Qed.

(** * Further properties of the handlers *)

(** ** Failures *)

(** X1: no handler partly applies.  Whatever the request and the database,
    an answer whose status is neither 200 nor 201 leaves the database
    exactly as it was. *)
Theorem failure_changes_nothing q st :
  status_of (fst (handle q st)) <> 200 ->
  status_of (fst (handle q st)) <> 201 ->
  snd (handle q st) = st.
Proof.
  unfold status_of. destruct q; cbn [handle].
  - unfold create_room. destruct (negb _); [reflexivity|].
    destruct (_ <- _ ;; _); cbn [fst snd]; [reflexivity|congruence].
  - unfold join_room. destruct (negb _); [reflexivity|].
    destruct (find _ _); [|reflexivity].
    destruct (bind_text _); cbn [fst snd]; [reflexivity|congruence].
  - destruct (sent_row (Send room data now uuid) (signals_seq st + 1)) as [s|] eqn:E.
    + rewrite (send_signal_accepted _ _ _ _ _ _ E). cbn [fst snd]. congruence.
    + destruct (send_signal_rejected _ _ _ _ st _ E) as [-> | ->]; reflexivity.
  - unfold get_signals. destruct device as [d|]; [|reflexivity].
    destruct (String.eqb d ""); [reflexivity|].
    destruct (read_messages _); cbv zeta; [|reflexivity].
    destruct (map id _); cbn [fst snd]; [congruence|].
    destruct (delete_signals _ _); cbn [fst snd]; [reflexivity|congruence].
  - unfold heartbeat. destruct (negb _); [reflexivity|].
    destruct (bind_text _); cbn [fst snd]; [reflexivity|congruence].
  - cbn [list_participants fst snd]. congruence.
  - cbn [close_room fst snd]. congruence.
Qed.

(** X2: join gating.  When no room of that id is OPEN (the room is closed
    or was never created), [join_room] with a device id answers 404 "Room
    not found or closed" and stores nothing: no participant row is added,
    whatever the device id is. *)
Theorem join_room_needs_open_room room data now st :
  truthy (dict_get data "device_id") = true ->
  room_open room st = false ->
  join_room room data now st = ((Error "Room not found or closed", 404), st).
Proof.
  intros Ht Ho. unfold join_room. rewrite Ht. cbn [negb].
  destruct (find _ (rooms st)) as [x|] eqn:F; [|reflexivity].
  apply find_some in F. destruct F as [Hx Hox].
  unfold room_open in Ho.
  assert (existsb (fun x => room_is room x && String.eqb (status x) "open")
                  (rooms st) = true) as C
      by (apply existsb_exists; eauto).
  congruence.
Qed.


(** ** Rooms and participants *)

Section Keys.

Lemma NoDup_map_filter {A B} (f : A -> B) (g : A -> bool) l :
  NoDup (map f l) -> NoDup (map f (filter g l)).
Proof.
  induction l as [|x l IH]; simpl; [auto|]. intros H.
  inversion H as [|? ? Hx Hl]; subst.
  destruct (g x); [|auto]. simpl. constructor; [|auto].
  intros Hin. apply Hx. apply in_map_iff in Hin.
  destruct Hin as (y & E & Hy). apply filter_In in Hy.
  rewrite <- E. apply in_map. tauto.
Qed.

Lemma NoDup_map_snoc {A B} (f : A -> B) l x :
  NoDup (map f l) -> ~ In (f x) (map f l) -> NoDup (map f (l ++ [x])).
Proof.
  intros Hl Hx. rewrite map_app. simpl.
  apply NoDup_app; [exact Hl|repeat constructor; simpl; tauto|].
  intros b Hb [<-|[]]. contradiction.
Qed.

Lemma NoDup_map_inj {A B} (f : A -> B) l a b :
  NoDup (map f l) -> In a l -> In b l -> f a = f b -> a = b.
Proof.
  induction l as [|x l IH]; simpl; [tauto|]. intros H Ha Hb E.
  inversion H as [|? ? Hx Hl]; subst.
  destruct Ha as [<-|Ha], Hb as [<-|Hb]; auto.
  - exfalso. apply Hx. rewrite E. apply in_map. exact Hb.
  - exfalso. apply Hx. rewrite <- E. apply in_map. exact Ha.
Qed.

Lemma room_id_fresh room rs :
  existsb (room_is room) rs = false -> ~ In room (map room_id rs).
Proof.
  intros H Hin. apply in_map_iff in Hin. destruct Hin as (x & E & Hx).
  assert (existsb (room_is room) rs = true) as C.
  { apply existsb_exists. exists x. split; [exact Hx|].
    unfold room_is. rewrite E. apply String.eqb_refl. }
  congruence.
Qed.

Lemma participant_key_fresh room d ps :
  existsb (participant_is room d) ps = false ->
  ~ In (d, room) (map participant_key ps).
Proof.
  intros H Hin. apply in_map_iff in Hin. destruct Hin as (p & E & Hp).
  assert (existsb (participant_is room d) ps = true) as C.
  { apply existsb_exists. exists p. split; [exact Hp|].
    unfold participant_key in E. injection E as E1 E2.
    unfold participant_is. rewrite E1, E2, !String.eqb_refl. reflexivity. }
  congruence.
Qed.

Lemma keys_distinct_handle q st :
  NoDup (map room_id (rooms st)) /\
  NoDup (map participant_key (participants st)) ->
  NoDup (map room_id (rooms (snd (handle q st)))) /\
  NoDup (map participant_key (participants (snd (handle q st)))).
Proof.
  intros [Hr Hp]. destruct q; cbn [handle].
  - unfold create_room. destruct (negb _); [auto|].
    destruct (bind_text _) as [e|h]; cbn [bind_stmt]; [auto|].
    unfold insert_room. cbn [room_id].
    destruct (existsb _ (rooms st)) eqn:Er; cbn [bind_stmt raise ret]; [auto|].
    unfold insert_participant. cbn [participants p_room_id device_id].
    destruct (existsb _ (participants st)) eqn:Ep;
      cbn [raise ret snd rooms participants]; [auto|].
    split.
    + apply NoDup_map_snoc; [exact Hr|]. apply room_id_fresh, Er.
    + apply NoDup_map_snoc; [exact Hp|]. apply participant_key_fresh, Ep.
  - unfold join_room. destruct (negb _); [auto|].
    destruct (find _ _); [|auto].
    destruct (bind_text _) as [e|d]; [auto|].
    cbn [snd replace_participant rooms participants p_room_id device_id].
    split; [exact Hr|].
    apply NoDup_map_snoc; [apply NoDup_map_filter, Hp|].
    cbn [participant_key device_id p_room_id]. intros Hin.
    apply in_map_iff in Hin. destruct Hin as (p & E & Hin).
    apply filter_In in Hin. destruct Hin as [_ Hin].
    apply negb_true_iff in Hin. unfold participant_key in E.
    injection E as E1 E2. unfold participant_is in Hin.
    rewrite E1, E2, !String.eqb_refl in Hin. discriminate.
  - destruct (sent_row (Send room data now uuid) (signals_seq st + 1)) as [s|] eqn:E.
    + rewrite (send_signal_accepted _ _ _ _ _ _ E). cbn [snd]. cbv zeta.
      destruct (uuid mod 10 =? 0)%N; [|auto].
      cbn [clean_stale_data rooms participants].
      split; [exact Hr|apply NoDup_map_filter, Hp].
    + destruct (send_signal_rejected _ _ _ _ st _ E) as [-> | ->]; auto.
  - poll_cases; auto.
  - unfold heartbeat. destruct (negb _); [auto|].
    destruct (bind_text _) as [e|d]; [auto|].
    cbn [snd rooms participants]. split; [exact Hr|].
    rewrite map_map.
    rewrite (map_ext _ participant_key); [exact Hp|].
    intros p. destruct (participant_is room d p); reflexivity.
  - auto.
  - cbn [close_room snd rooms participants]. split.
    + rewrite map_map. rewrite (map_ext _ room_id); [exact Hr|].
      intros x. destruct (room_is room x); reflexivity.
    + apply NoDup_map_filter, Hp.
Qed.

Lemma keys_distinct st :
  reachable st ->
  NoDup (map room_id (rooms st)) /\
  NoDup (map participant_key (participants st)).
Proof.
  induction 1 as [|q st Hr IH Hwf]; [split; constructor|].
  apply keys_distinct_handle, IH.
Qed.

End Keys.

(** X4: the primary keys hold.  On every reachable database the room ids
    are pairwise distinct, and no device has two participant rows in one
    room. *)
Theorem room_ids_are_distinct st :
  reachable st ->
  NoDup (map room_id (rooms st)) /\
  NoDup (map participant_key (participants st)).
Proof. apply keys_distinct. Qed.

Section RoomLife.

(** One request: every room stays, with its id, host and creation time;
    its status stays or becomes closed. *)
Lemma room_persists_handle q st x :
  In x (rooms st) ->
  exists x',
    In x' (rooms (snd (handle q st))) /\
    room_id x' = room_id x /\ host_id x' = host_id x /\
    room_created_at x' = room_created_at x /\
    (status x' = status x \/ status x' = "closed").
Proof.
  intros Hx.
  assert (exists x', In x' (rooms st) /\ room_id x' = room_id x /\
                     host_id x' = host_id x /\
                     room_created_at x' = room_created_at x /\
                     (status x' = status x \/ status x' = "closed")) as Same
      by (exists x; repeat split; auto).
  destruct q; cbn [handle].
  - unfold create_room. destruct (negb _); [exact Same|].
    destruct (bind_text _) as [e|h]; cbn [bind_stmt]; [exact Same|].
    unfold insert_room.
    destruct (existsb _ (rooms st)); cbn [bind_stmt raise ret]; [exact Same|].
    unfold insert_participant. cbn [participants].
    destruct (existsb _ (participants st));
      cbn [raise ret snd rooms]; [exact Same|].
    exists x. split; [apply in_or_app; auto|auto].
  - unfold join_room. destruct (negb _); [exact Same|].
    destruct (find _ _); [|exact Same].
    destruct (bind_text _); exact Same.
  - destruct (sent_row (Send room data now uuid) (signals_seq st + 1)) as [s|] eqn:E.
    + rewrite (send_signal_accepted _ _ _ _ _ _ E). cbn [snd]. cbv zeta.
      destruct (uuid mod 10 =? 0)%N; exact Same.
    + destruct (send_signal_rejected _ _ _ _ st _ E) as [-> | ->]; exact Same.
  - poll_cases; exact Same.
  - unfold heartbeat. destruct (negb _); [exact Same|].
    destruct (bind_text _); exact Same.
  - exact Same.
  - cbn [close_room snd rooms].
    exists (if room_is room x
            then mkRoom (room_id x) (host_id x) (room_created_at x) "closed"
            else x).
    split; [apply in_map_iff; exists x; auto|].
    destruct (room_is room x); cbn; auto.
Qed.

Lemma room_persists_run qs st x :
  In x (rooms st) ->
  exists x',
    In x' (rooms (snd (run qs st))) /\
    room_id x' = room_id x /\ host_id x' = host_id x /\
    room_created_at x' = room_created_at x /\
    (status x' = status x \/ status x' = "closed").
Proof.
  revert st x. induction qs as [|q qs IH]; intros st x Hx.
  - exists x. repeat split; auto.
  - rewrite run_cons. cbn [snd].
    destruct (room_persists_handle q st x Hx) as (x1 & H1 & Hi & Hh & Hc & Hs).
    destruct (IH _ x1 H1) as (x2 & H2 & Hi2 & Hh2 & Hc2 & Hs2).
    exists x2. split; [exact H2|]. repeat split; try congruence.
    destruct Hs2 as [Hs2|Hs2]; [|auto]. rewrite Hs2. exact Hs.
Qed.

Lemma room_is_other room room' x :
  room_is room' x = true -> room' <> room -> room_is room x = false.
Proof.
  unfold room_is. intros H Hne. apply String.eqb_eq in H.
  apply String.eqb_neq. congruence.
Qed.

Lemma closed_for_good_close room st :
  room_exists room st = true -> closed_for_good room (snd (close_room room st)).
Proof.
  intros He. unfold closed_for_good, room_exists, room_open in *.
  cbn [close_room snd rooms participants]. split; [|split].
  - apply existsb_exists in He. destruct He as (x & Hx & Hr).
    apply existsb_exists.
    exists (mkRoom (room_id x) (host_id x) (room_created_at x) "closed").
    split; [|exact Hr].
    apply in_map_iff. exists x. rewrite Hr. auto.
  - destruct (existsb _ (map _ _)) eqn:E; [|reflexivity]. exfalso.
    apply existsb_exists in E. destruct E as (y & Hy & Ho).
    apply in_map_iff in Hy. destruct Hy as (x & <- & Hx).
    destruct (room_is room x) eqn:Hr.
    + unfold room_is in Ho. cbn [room_id status] in Ho.
      rewrite andb_false_r in Ho. discriminate.
    + rewrite Hr in Ho. discriminate.
  - intros p Hp. apply filter_In in Hp. destruct Hp as [_ Hp].
    apply negb_true_iff, String.eqb_neq in Hp. exact Hp.
Qed.

Lemma closed_for_good_handle room q st :
  closed_for_good room st -> closed_for_good room (snd (handle q st)).
Proof.
  intros Same. pose proof Same as (He & Ho & Hp).
  unfold closed_for_good. destruct q; cbn [handle].
  - unfold create_room. destruct (negb _); [exact Same|].
    destruct (bind_text _) as [e|h]; cbn [bind_stmt]; [exact Same|].
    unfold insert_room. cbn [room_id].
    destruct (existsb (room_is (format_06d rand)) (rooms st)) eqn:Er;
      cbn [bind_stmt raise ret]; [exact Same|].
    unfold insert_participant. cbn [participants].
    destruct (existsb _ (participants st));
      cbn [raise ret snd]; [exact Same|].
    assert (format_06d rand <> room) as Hne.
    { intros Heq. rewrite Heq in Er. unfold room_exists in He. congruence. }
    assert (room_is room (mkRoom (format_06d rand) h now "open") = false) as Hn
        by (unfold room_is; cbn [room_id]; apply String.eqb_neq, Hne).
    unfold room_exists, room_open in *. cbn [rooms participants].
    rewrite !existsb_app. cbn [existsb]. rewrite He, Ho, Hn. cbn.
    split; [reflexivity|]. split; [reflexivity|].
    intros p Hin. apply in_app_or in Hin.
    destruct Hin as [Hin|[<-|[]]]; [auto|exact Hne].
  - unfold join_room. destruct (negb _); [exact Same|].
    destruct (find _ _) as [x|] eqn:F; [|exact Same].
    destruct (bind_text _) as [e|d]; [exact Same|].
    cbn [snd]. unfold room_exists, room_open in *.
    cbn [replace_participant rooms participants].
    split; [exact He|]. split; [exact Ho|].
    assert (room0 <> room) as Hne.
    { intros ->. apply find_some in F. destruct F as [Hx Hox].
      assert (existsb (fun x => room_is room x && String.eqb (status x) "open")
                      (rooms st) = true) as C
          by (apply existsb_exists; eauto).
      congruence. }
    intros p Hin. apply in_app_or in Hin. destruct Hin as [Hin|[<-|[]]].
    + apply filter_In in Hin. apply Hp. tauto.
    + exact Hne.
  - destruct (sent_row (Send room0 data now uuid) (signals_seq st + 1)) as [s|] eqn:E.
    + rewrite (send_signal_accepted _ _ _ _ _ _ E). cbn [snd]. cbv zeta.
      destruct (uuid mod 10 =? 0)%N.
      * unfold room_exists, room_open in *.
        cbn [clean_stale_data rooms participants].
        split; [exact He|]. split; [exact Ho|].
        intros p Hin. apply filter_In in Hin. apply Hp. tauto.
      * exact Same.
    + destruct (send_signal_rejected _ _ _ _ st _ E) as [-> | ->]; exact Same.
  - poll_cases; exact Same.
  - unfold heartbeat. destruct (negb _); [exact Same|].
    destruct (bind_text _) as [e|d]; [exact Same|].
    cbn [snd]. unfold room_exists, room_open in *. cbn [rooms participants].
    split; [exact He|]. split; [exact Ho|].
    intros p Hin. apply in_map_iff in Hin. destruct Hin as (p0 & <- & Hin).
    destruct (participant_is room0 d p0); apply (Hp p0 Hin).
  - exact Same.
  - unfold room_exists, room_open in *.
    cbn [close_room snd rooms participants]. split; [|split].
    + apply existsb_exists in He. destruct He as (x & Hx & Hr).
      apply existsb_exists.
      exists (if room_is room0 x
              then mkRoom (room_id x) (host_id x) (room_created_at x) "closed"
              else x).
      split; [apply in_map_iff; exists x; auto|].
      destruct (room_is room0 x); exact Hr.
    + destruct (existsb _ (map _ _)) eqn:E; [|reflexivity]. exfalso.
      apply existsb_exists in E. destruct E as (y & Hy & Hoy).
      apply in_map_iff in Hy. destruct Hy as (x & <- & Hx).
      assert (room_is room x && String.eqb (status x) "open" = false) as Hxo.
      { destruct (room_is room x && String.eqb (status x) "open") eqn:X;
          [|reflexivity].
        assert (existsb (fun x => room_is room x && String.eqb (status x) "open")
                        (rooms st) = true) as C
            by (apply existsb_exists; eauto).
        congruence. }
      destruct (room_is room0 x); [|congruence].
      unfold room_is in *. cbn [room_id status] in Hoy.
      rewrite andb_false_r in Hoy. discriminate.
    + intros p Hin. apply filter_In in Hin. apply Hp. tauto.
Qed.

Lemma closed_for_good_run room qs st :
  closed_for_good room st -> closed_for_good room (snd (run qs st)).
Proof.
  revert st. induction qs as [|q qs IH]; intros st H; [exact H|].
  rewrite run_cons. cbn [snd]. apply IH, closed_for_good_handle, H.
Qed.

(** Participants are rows of OPEN rooms only. *)
Lemma participants_in_open_rooms_handle q st :
  (forall p, In p (participants st) -> room_open (p_room_id p) st = true) ->
  forall p, In p (participants (snd (handle q st))) ->
            room_open (p_room_id p) (snd (handle q st)) = true.
Proof.
  intros H. unfold room_open in *. destruct q; cbn [handle].
  - unfold create_room. destruct (negb _); [exact H|].
    destruct (bind_text _) as [e|h]; cbn [bind_stmt]; [exact H|].
    unfold insert_room.
    destruct (existsb _ (rooms st)); cbn [bind_stmt raise ret]; [exact H|].
    unfold insert_participant. cbn [participants].
    destruct (existsb _ (participants st));
      cbn [raise ret snd rooms participants]; [exact H|].
    intros p Hp. rewrite existsb_app. apply in_app_or in Hp.
    destruct Hp as [Hp|[<-|[]]].
    + rewrite (H p Hp). reflexivity.
    + cbn. unfold room_is. cbn. rewrite String.eqb_refl.
      apply orb_true_r.
  - unfold join_room. destruct (negb _); [exact H|].
    destruct (find _ _) as [x|] eqn:F; [|exact H].
    destruct (bind_text _); [exact H|].
    cbn [snd replace_participant rooms participants].
    intros p Hp. apply in_app_or in Hp. destruct Hp as [Hp|[<-|[]]].
    + apply filter_In in Hp. apply H. tauto.
    + apply find_some in F. destruct F as [Hx Ho].
      apply existsb_exists. exists x. split; [exact Hx|exact Ho].
  - destruct (sent_row (Send room data now uuid) (signals_seq st + 1)) as [s|] eqn:E.
    + rewrite (send_signal_accepted _ _ _ _ _ _ E). cbn [snd]. cbv zeta.
      destruct (uuid mod 10 =? 0)%N; [|exact H].
      cbn [clean_stale_data rooms participants].
      intros p Hp. apply filter_In in Hp. apply H. tauto.
    + destruct (send_signal_rejected _ _ _ _ st _ E) as [-> | ->]; exact H.
  - poll_cases; exact H.
  - unfold heartbeat. destruct (negb _); [exact H|].
    destruct (bind_text _) as [e|d]; [exact H|].
    cbn [snd rooms participants]. intros p Hp. apply in_map_iff in Hp.
    destruct Hp as (p0 & <- & Hp0).
    destruct (participant_is room d p0); apply (H p0 Hp0).
  - exact H.
  - cbn [close_room snd rooms participants]. intros p Hp.
    apply filter_In in Hp. destruct Hp as [Hp Hne].
    apply negb_true_iff, String.eqb_neq in Hne.
    specialize (H p Hp). apply existsb_exists in H.
    destruct H as (x & Hx & Ho). apply existsb_exists.
    exists x. split; [|exact Ho].
    apply in_map_iff. exists x. split; [|exact Hx].
    apply andb_prop in Ho. destruct Ho as [Hr _].
    rewrite (room_is_other room _ x Hr Hne). reflexivity.
Qed.

End RoomLife.

(** X5: rooms are never deleted, renamed or handed over.  Through any
    sequence of requests, a room that is stored stays stored with the same
    id, host and creation time; its status stays what it was or becomes
    closed, so a closed room is never reopened. *)
Theorem rooms_persist qs st x :
  In x (rooms st) ->
  exists x',
    In x' (rooms (snd (run qs st))) /\
    room_id x' = room_id x /\ host_id x' = host_id x /\
    room_created_at x' = room_created_at x /\
    (status x' = status x \/ status x' = "closed") /\
    (status x = "closed" -> status x' = "closed").
Proof.
  intros Hx.
  destruct (room_persists_run qs st x Hx) as (x' & H1 & H2 & H3 & H4 & H5).
  exists x'. repeat split; try assumption.
  intros Hc. destruct H5 as [H5|H5]; congruence.
Qed.

(** X6: closure is final.  Once an existing room was closed, whatever
    requests follow, nobody is listed as present in it and every
    [join_room] on it with a device id answers 404 and stores nothing. *)
Theorem closed_room_stays_empty room qs now data st :
  room_exists room st = true ->
  let st' := snd (run qs (snd (close_room room st))) in
  list_participants room now st' = ((Present [], 200), st') /\
  (truthy (dict_get data "device_id") = true ->
   join_room room data now st' = ((Error "Room not found or closed", 404), st')).
Proof.
  intros He st'.
  pose proof (closed_for_good_run room qs _ (closed_for_good_close room st He))
    as (_ & Ho & Hp).
  fold st' in Ho, Hp. split.
  - unfold list_participants. rewrite filter_none; [reflexivity|].
    intros p Hin. specialize (Hp p Hin). apply String.eqb_neq in Hp.
    rewrite Hp. reflexivity.
  - intros Ht. unfold join_room. rewrite Ht. cbn [negb].
    destruct (find _ (rooms st')) as [x|] eqn:F; [|reflexivity].
    apply find_some in F. destruct F as [Hx Hox]. unfold room_open in Ho.
    assert (existsb (fun x => room_is room x && String.eqb (status x) "open")
                    (rooms st') = true) as C
        by (apply existsb_exists; eauto).
    congruence.
Qed.

(** X7: no dangling presence.  On every reachable database each
    participant row belongs to a room that is stored and OPEN. *)
Theorem participants_belong_to_open_rooms st p :
  reachable st -> In p (participants st) ->
  room_open (p_room_id p) st = true.
Proof.
  intros Hr. revert p. induction Hr as [|q st Hr IH Hwf]; [intros p []|].
  apply participants_in_open_rooms_handle. exact IH.
Qed.

(** X8: a peer learns the host.  On a reachable database, joining an OPEN
    room with a usable device id answers 200 with the token
    [peer-<device>-<room>] and the [host_id] stored for that room. *)
Theorem join_room_returns_host st x data now d :
  reachable st -> In x (rooms st) -> status x = "open" ->
  truthy (dict_get data "device_id") = true ->
  bind_text (dict_get data "device_id") = inr d ->
  fst (join_room (room_id x) data now st)
  = (Joined ("peer-" ++ py_str (dict_get data "device_id") ++ "-" ++ room_id x)%string
            (host_id x), 200).
Proof.
  intros Hr Hx Hs Ht Hb. unfold join_room. rewrite Ht, Hb. cbn [negb].
  destruct (find _ (rooms st)) as [y|] eqn:F.
  - apply find_some in F. destruct F as [Hy Hoy].
    apply andb_prop in Hoy. destruct Hoy as [Hid _].
    unfold room_is in Hid. apply String.eqb_eq in Hid.
    assert (y = x) as ->
        by (eapply NoDup_map_inj; eauto; apply keys_distinct, Hr).
    reflexivity.
  - exfalso. pose proof (find_none _ _ F x Hx) as C. cbn in C.
    unfold room_is in C. rewrite String.eqb_refl, Hs in C. discriminate.
Qed.

(** ** Presence *)

Section Presence.

Lemma filter_filter_implied {A} (f g : A -> bool) l :
  (forall x, f x = true -> g x = true) ->
  filter f (filter g l) = filter f l.
Proof.
  intros H. induction l as [|x l IH]; simpl; [reflexivity|].
  destruct (g x) eqn:G; simpl.
  - rewrite IH. reflexivity.
  - destruct (f x) eqn:F; [rewrite (H x F) in G; discriminate|exact IH].
Qed.

Lemma present_survives_sweep room now ps :
  filter (fun p => String.eqb (p_room_id p) room && (now - 30 <? last_seen p))
         (filter (fun p => negb (last_seen p <? now - 3600)) ps)
  = filter (fun p => String.eqb (p_room_id p) room && (now - 30 <? last_seen p)) ps.
Proof.
  apply filter_filter_implied. intros p H.
  apply andb_prop in H. destruct H as [_ H]. apply Z.ltb_lt in H.
  apply negb_true_iff, Z.ltb_ge. lia.
Qed.

Lemma find_app_none {A} (f : A -> bool) l1 l2 :
  (forall x, In x l1 -> f x = false) -> find f (l1 ++ l2) = find f l2.
Proof.
  induction l1 as [|x l1 IH]; intros H; simpl; [reflexivity|].
  rewrite (H x) by (left; reflexivity). apply IH.
  intros y Hy. apply H. right. exact Hy.
Qed.

End Presence.

(** X9: a heartbeat refreshes presence and nothing else.  For a registered
    pair, [heartbeat] answers 200 "alive"; it changes no room, no signal,
    and no participant's device, room or role; and from then on the device
    is listed as present in the room, with the time of the heartbeat, at
    every instant less than 30 seconds later. *)
Theorem heartbeat_refreshes_presence room data now st d :
  truthy (dict_get data "device_id") = true ->
  bind_text (dict_get data "device_id") = inr d ->
  registered room d st = true ->
  let st' := snd (heartbeat room data now st) in
  fst (heartbeat room data now st) = (Alive, 200) /\
  map membership (participants st') = map membership (participants st) /\
  rooms st' = rooms st /\ signals st' = signals st /\
  forall now', now' - 30 < now ->
    exists l pr,
      fst (list_participants room now' st') = (Present l, 200) /\
      In pr l /\ pr_device_id pr = d /\ pr_last_seen pr = now.
Proof.
  intros Ht Hb Hr st'. subst st'. unfold heartbeat. rewrite Ht, Hb.
  cbn [negb fst snd rooms participants signals].
  split; [reflexivity|]. split; [|split; [reflexivity|split; [reflexivity|]]].
  - rewrite map_map. apply map_ext. intros p.
    destruct (participant_is room d p); reflexivity.
  - intros now' Hn. unfold list_participants. cbn [fst participants].
    unfold registered in Hr. apply existsb_exists in Hr.
    destruct Hr as (p & Hp & Hpd).
    eexists. exists (mkPresence d now (role p)).
    split; [reflexivity|]. split; [|split; reflexivity].
    apply in_map_iff.
    exists (mkParticipant (device_id p) (p_room_id p) (role p) now).
    pose proof Hpd as Hpd'. unfold participant_is in Hpd'.
    apply andb_prop in Hpd'. destruct Hpd' as [Hroom Hdev].
    apply String.eqb_eq in Hdev. split.
    + cbn. rewrite Hdev. reflexivity.
    + apply filter_In. split.
      * apply in_map_iff. exists p. rewrite Hpd. auto.
      * cbn. rewrite Hroom. apply Z.ltb_lt in Hn. rewrite Hn. reflexivity.
Qed.

(** X10: the sweep.  [clean_stale_data] touches neither the rooms nor the
    id counter, keeps exactly the signals created in the last 600 seconds
    and the participants seen in the last 3600, and doing it twice is doing
    it once.  It never removes a participant who is present: the list of
    present participants of a room is the same before and after the sweep,
    and so before and after any [send_signal] made at that time. *)
Theorem sweep_keeps_the_present room now st :
  rooms (clean_stale_data now st) = rooms st /\
  signals_seq (clean_stale_data now st) = signals_seq st /\
  (forall s, In s (signals (clean_stale_data now st)) <->
             In s (signals st) /\ now - 600 <= created_at s) /\
  (forall p, In p (participants (clean_stale_data now st)) <->
             In p (participants st) /\ now - 3600 <= last_seen p) /\
  clean_stale_data now (clean_stale_data now st) = clean_stale_data now st /\
  fst (list_participants room now (clean_stale_data now st))
  = fst (list_participants room now st) /\
  (forall room' data uuid,
      fst (list_participants room now
             (snd (send_signal room' data now uuid st)))
      = fst (list_participants room now st)).
Proof.
  split; [reflexivity|]. split; [reflexivity|]. split; [|split; [|split; [|split]]].
  - intros s. unfold clean_stale_data. cbn [signals]. rewrite filter_In.
    rewrite negb_true_iff, Z.ltb_ge. tauto.
  - intros p. unfold clean_stale_data. cbn [participants]. rewrite filter_In.
    rewrite negb_true_iff, Z.ltb_ge. tauto.
  - unfold clean_stale_data. cbn [rooms participants signals signals_seq].
    f_equal; apply filter_all; intros x Hx; apply filter_In in Hx; tauto.
  - unfold list_participants, clean_stale_data. cbn [fst participants].
    rewrite present_survives_sweep. reflexivity.
  - intros room' data uuid.
    destruct (sent_row (Send room' data now uuid) (signals_seq st + 1)) as [s|] eqn:E.
    + rewrite (send_signal_accepted _ _ _ _ _ _ E). cbn [snd]. cbv zeta.
      destruct (uuid mod 10 =? 0)%N; [|reflexivity].
      unfold list_participants, clean_stale_data. cbn [fst participants].
      rewrite present_survives_sweep. reflexivity.
    + destruct (send_signal_rejected _ _ _ _ st _ E) as [-> | ->]; reflexivity.
Qed.

(** X11: create, join, list.  On a reachable database, when the drawn id
    is free, a room created by host [h], then joined by another device
    [p], lists exactly these two within 30 seconds: the host with role
    host and the peer with role peer, each with the time of its
    registration; and the peer was told the host. *)
Theorem create_join_list data rand now data' now1 now2 st h p :
  reachable st ->
  truthy (dict_get data "device_id") = true ->
  bind_text (dict_get data "device_id") = inr h ->
  room_exists (format_06d rand) st = false ->
  truthy (dict_get data' "device_id") = true ->
  bind_text (dict_get data' "device_id") = inr p ->
  p <> h -> now2 - 30 < now -> now2 - 30 < now1 ->
  let room := format_06d rand in
  exists token token',
    fst (run [CreateRoom data rand now; JoinRoom room data' now1;
              ListPresent room now2] st)
    = [(RoomCreated room token, 201); (Joined token' h, 200);
       (Present [mkPresence h now "host"; mkPresence p now1 "peer"], 200)].
Proof.
  intros Hr Ht Hb He Ht' Hb' Hne H2 H1 room.
  assert (forall q, In q (participants st) -> String.eqb (p_room_id q) room = false)
    as Hold.
  { intros q Hq. apply String.eqb_neq. intros Heq.
    pose proof (participants_have_rooms st Hr q Hq) as C.
    rewrite Heq in C. subst room. congruence. }
  assert (forall x, In x (rooms st) -> room_is room x = false) as Holdr.
  { intros x Hx. destruct (room_is room x) eqn:E; [|reflexivity].
    assert (room_exists room st = true) as C
        by (apply existsb_exists; eauto).
    subst room. congruence. }
  assert (create_room data rand now st
          = ((RoomCreated room ("host-" ++ py_str (dict_get data "device_id")
                                 ++ "-" ++ room)%string, 201),
             mkDb (rooms st ++ [mkRoom room h now "open"])
                  (participants st ++ [mkParticipant h room "host" now])
                  (signals st) (signals_seq st))) as Hc.
  { unfold create_room. rewrite Ht, Hb. cbn [negb bind_stmt]. fold room.
    unfold insert_room. cbn [room_id]. unfold room_exists in He. fold room in He.
    rewrite He. cbn [bind_stmt ret]. unfold insert_participant.
    cbn [participants p_room_id device_id rooms signals signals_seq].
    assert (existsb (participant_is room h) (participants st) = false) as Ep.
    { apply not_true_iff_false. intros C. apply existsb_exists in C.
      destruct C as (q & Hq & Hqr). unfold participant_is in Hqr.
      rewrite (Hold q Hq) in Hqr. discriminate. }
    rewrite Ep. reflexivity. }
  do 2 eexists. rewrite run_cons. cbn [handle]. rewrite Hc. cbn [fst snd].
  f_equal. rewrite run_cons. cbn [handle].
  assert (find (fun x => room_is room x && String.eqb (status x) "open")
               (rooms st ++ [mkRoom room h now "open"])
          = Some (mkRoom room h now "open")) as Hf.
  { rewrite find_app_none
      by (intros x Hx; rewrite (Holdr x Hx); reflexivity).
    cbn [find]. unfold room_is. cbn [room_id status].
    rewrite !String.eqb_refl. reflexivity. }
  unfold join_room. rewrite Ht', Hb'. cbn [negb rooms]. rewrite Hf.
  cbn [fst snd host_id].
  f_equal. cbn [run handle list_participants fst].
  f_equal. f_equal.
  cbn [replace_participant participants p_room_id device_id].
  rewrite !filter_app. cbn [filter].
  assert (participant_is room p (mkParticipant h room "host" now) = false) as Eh.
  { unfold participant_is. cbn. rewrite String.eqb_refl. cbn.
    apply String.eqb_neq. congruence. }
  rewrite Eh. cbn [negb app filter p_room_id last_seen].
  rewrite String.eqb_refl.
  apply Z.ltb_lt in H1, H2. rewrite H1, H2. cbn [andb app].
  rewrite (filter_none _ (filter _ (participants st))).
  - reflexivity.
  - intros q Hq. apply filter_In in Hq. destruct Hq as [Hq _].
    rewrite (Hold q Hq). reflexivity.
Qed.

(** ** Mailboxes *)

(** X12: a poll reads one mailbox only.  On a reachable database, a poll
    for a device of a room, whatever it answers, leaves the pending signals
    of every other device and of every other room as they were, in the
    same order, and touches no room, no participant and not the id
    counter. *)
Theorem fetch_leaves_other_mailboxes room device room' d' st :
  reachable st ->
  room' <> room \/ device <> Some d' ->
  let st' := snd (get_signals room device st) in
  select_signals room' d' st' = select_signals room' d' st /\
  rooms st' = rooms st /\ participants st' = participants st /\
  signals_seq st' = signals_seq st.
Proof.
  intros Hr Hne st'. subst st'.
  pose proof (reachable_inv st Hr) as Hinv.
  destruct device as [d|]; [|repeat split; reflexivity].
  destruct (String.eqb d "") eqn:Ed.
  { unfold get_signals. rewrite Ed. repeat split; reflexivity. }
  apply String.eqb_neq in Ed.
  destruct (Nat.le_gt_cases (List.length (select_signals room d st))
                            variable_limit) as [Hn|Hn].
  2: { rewrite (get_signals_too_many room d st Hinv Ed Hn).
       repeat split; reflexivity. }
  destruct (get_signals_ok room d st Hinv Ed Hn) as (msgs & _ & ->).
  cbn [snd]. unfold consume, select_signals.
  cbn [rooms participants signals signals_seq].
  split; [|repeat split; reflexivity]. f_equal.
  apply filter_filter_implied. intros s Hs.
  apply negb_true_iff. unfold addressed_to in *.
  apply andb_prop in Hs. destruct Hs as [H1 H2].
  apply String.eqb_eq in H1, H2.
  destruct (String.eqb (s_room_id s) room) eqn:E1; [|reflexivity].
  destruct (String.eqb (to_device s) d) eqn:E2; [|reflexivity].
  apply String.eqb_eq in E1, E2. exfalso.
  destruct Hne as [Hne|Hne]; [congruence|]. apply Hne. congruence.
Qed.

Section Ids.

Lemma signals_step q st s :
  In s (signals (snd (handle q st))) ->
  In s (signals st) \/ id s = signals_seq st + 1.
Proof.
  destruct q; cbn [handle].
  - unfold create_room. destruct (negb _); [auto|].
    destruct (bind_text _) as [e|h]; cbn [bind_stmt]; [auto|].
    unfold insert_room.
    destruct (existsb _ (rooms st)); cbn [bind_stmt raise ret]; [auto|].
    unfold insert_participant. cbn [participants].
    destruct (existsb _ (participants st)); cbn [raise ret snd signals]; auto.
  - unfold join_room. destruct (negb _); [auto|].
    destruct (find _ _); [|auto]. destruct (bind_text _); auto.
  - destruct (sent_row (Send room data now uuid) (signals_seq st + 1)) as [r|] eqn:E.
    + rewrite (send_signal_accepted _ _ _ _ _ _ E). cbn [snd]. cbv zeta.
      pose proof (sent_row_fields _ _ _ E) as [Hid _]. intros Hin.
      assert (In s (signals st ++ [r])) as Hin'.
      { destruct (uuid mod 10 =? 0)%N; cbn [clean_stale_data signals] in Hin.
        - apply filter_In in Hin. tauto.
        - exact Hin. }
      apply in_app_or in Hin'. destruct Hin' as [H|[<-|[]]]; auto.
    + destruct (send_signal_rejected _ _ _ _ st _ E) as [-> | ->]; auto.
  - poll_cases; [auto|].
    cbn [signals]. intros Hin. apply filter_In in Hin. tauto.
  - unfold heartbeat. destruct (negb _); [auto|].
    destruct (bind_text _); auto.
  - auto.
  - cbn [close_room snd signals]. intros Hin. apply filter_In in Hin. tauto.
Qed.

Lemma signals_seq_step q st :
  signals_seq st <= signals_seq (snd (handle q st)) <= signals_seq st + 1.
Proof.
  destruct q; cbn [handle].
  - unfold create_room. destruct (negb _); [cbn; lia|].
    destruct (bind_text _) as [e|h]; cbn [bind_stmt]; [cbn; lia|].
    unfold insert_room.
    destruct (existsb _ (rooms st)); cbn [bind_stmt raise ret]; [cbn; lia|].
    unfold insert_participant. cbn [participants].
    destruct (existsb _ (participants st)); cbn; lia.
  - unfold join_room. destruct (negb _); [cbn; lia|].
    destruct (find _ _); [|cbn; lia]. destruct (bind_text _); cbn; lia.
  - destruct (sent_row (Send room data now uuid) (signals_seq st + 1)) as [r|] eqn:E.
    + rewrite (send_signal_accepted _ _ _ _ _ _ E). cbn [snd]. cbv zeta.
      destruct (uuid mod 10 =? 0)%N; cbn; lia.
    + destruct (send_signal_rejected _ _ _ _ st _ E) as [-> | ->]; cbn; lia.
  - poll_cases; cbn; lia.
  - unfold heartbeat. destruct (negb _); [cbn; lia|].
    destruct (bind_text _); cbn; lia.
  - cbn. lia.
  - cbn. lia.
Qed.

Lemma signals_run qs st s :
  In s (signals (snd (run qs st))) ->
  In s (signals st) \/ signals_seq st < id s.
Proof.
  revert st. induction qs as [|q qs IH]; intros st Hin; [left; exact Hin|].
  rewrite run_cons in Hin. cbn [snd] in Hin.
  pose proof (signals_seq_step q st) as Hq.
  destruct (IH _ Hin) as [H|H].
  - destruct (signals_step q st s H) as [H'|H']; [left; exact H'|right; lia].
  - right. lia.
Qed.

End Ids.

(** X13: signal rows are never updated and ids are never reused.  Through
    any sequence of requests the id counter never decreases, and a signal
    row found afterwards is either a row that was there before, unchanged,
    or a row whose id is greater than the counter was; on a reachable
    database the counter bounds every stored id, so a new signal never
    takes the id of a signal stored before, even of one since delivered,
    swept or cascaded away. *)
Theorem signal_ids_are_fresh qs st :
  reachable st ->
  signals_seq st <= signals_seq (snd (run qs st)) /\
  (forall s, In s (signals (snd (run qs st))) ->
             In s (signals st) \/ signals_seq st < id s) /\
  (forall s, In s (signals st) -> id s <= signals_seq st).
Proof.
  intros Hr. split; [|split].
  - clear Hr. revert st. induction qs as [|q qs IH]; intros st; [cbn; lia|].
    rewrite run_cons. cbn [snd].
    pose proof (signals_seq_step q st). specialize (IH (snd (handle q st))). lia.
  - intros s. apply signals_run.
  - pose proof (reachable_inv st Hr) as [_ H _].
    rewrite Forall_forall in H. exact H.
Qed.

(** ** Stored payloads *)

Section Parsed.

Lemma scan_once_eq n s :
  scan_once (S n) s =
  match s with
  | [] => None
  | c :: t =>
      if Ascii.eqb c dquote then
        match scanstring t with
        | Some (str, r) => Some (JStr str, r)
        | None => None
        end
      else if Ascii.eqb c "{" then
        match skip_ws t with
        | c' :: r =>
            if Ascii.eqb c' "}" then Some (JObj [], r)
            else if Ascii.eqb c' dquote then
              match object_members n r with
              | Some (pairs, r') => Some (JObj (dict_of_pairs pairs), r')
              | None => None
              end
            else None
        | [] => None
        end
      else if Ascii.eqb c "[" then
        match skip_ws t with
        | c' :: r =>
            if Ascii.eqb c' "]" then Some (JArr [], r)
            else
              match array_items n (c' :: r) with
              | Some (values, r') => Some (JArr values, r')
              | None => None
              end
        | [] => None
        end
      else
        match starts_with (chars "null") s with
        | Some r => Some (JNull, r)
        | None =>
        match starts_with (chars "true") s with
        | Some r => Some (JBool true, r)
        | None =>
        match starts_with (chars "false") s with
        | Some r => Some (JBool false, r)
        | None => scan_number s
        end end end
  end.
Proof. reflexivity. Qed.

Lemma dict_set_keys d k v :
  map fst (dict_set d k v) =
  if existsb (String.eqb k) (map fst d) then map fst d else map fst d ++ [k].
Proof.
  induction d as [|[k' v'] d IH]; simpl; [reflexivity|].
  destruct (String.eqb k k'); simpl; [reflexivity|].
  rewrite IH. destruct (existsb _ _); reflexivity.
Qed.

Lemma distinct_snoc l k :
  distinct l = true -> existsb (String.eqb k) l = false ->
  distinct (l ++ [k]) = true.
Proof.
  induction l as [|x l IH]; simpl; [reflexivity|]. intros Hd Hk.
  apply andb_prop in Hd. destruct Hd as [Hx Hd].
  apply orb_false_iff in Hk. destruct Hk as [Hkx Hk].
  rewrite IH by assumption. rewrite andb_true_r.
  rewrite existsb_app. simpl. apply negb_true_iff in Hx. rewrite Hx.
  rewrite String.eqb_sym, Hkx. reflexivity.
Qed.

Lemma dict_set_wf d k v :
  wf_json (JObj d) = true -> wf_json v = true ->
  wf_json (JObj (dict_set d k v)) = true.
Proof.
  cbn [wf_json]. intros Hd Hv. apply andb_prop in Hd. destruct Hd as [Hk Hvs].
  apply andb_true_intro. split.
  - rewrite dict_set_keys. destruct (existsb _ _) eqn:E; [exact Hk|].
    apply distinct_snoc; assumption.
  - clear Hk. induction d as [|[k' v'] d IH]; simpl.
    + rewrite Hv. reflexivity.
    + simpl in Hvs. apply andb_prop in Hvs. destruct Hvs as [H1 H2].
      destruct (String.eqb k k'); simpl.
      * rewrite Hv, H2. reflexivity.
      * rewrite H1, IH by assumption. reflexivity.
Qed.

Lemma dict_of_pairs_wf pairs :
  forallb (fun kv => wf_json (snd kv)) pairs = true ->
  wf_json (JObj (dict_of_pairs pairs)) = true.
Proof.
  unfold dict_of_pairs.
  assert (forall acc,
             wf_json (JObj acc) = true ->
             forallb (fun kv => wf_json (snd kv)) pairs = true ->
             wf_json (JObj (fold_left (fun d kv => dict_set d (fst kv) (snd kv))
                                      pairs acc)) = true) as G.
  { induction pairs as [|[k v] pairs IH]; intros acc Hacc Hp; [exact Hacc|].
    simpl in Hp. apply andb_prop in Hp. destruct Hp as [Hv Hp].
    simpl. apply IH; [|exact Hp]. apply dict_set_wf; assumption. }
  apply G. reflexivity.
Qed.

Lemma scan_number_wf s v r : scan_number s = Some (v, r) -> wf_json v = true.
Proof.
  unfold scan_number. destruct (match_integer s) as [[i r']|]; [|discriminate].
  destruct (_ || _); [discriminate|]. intros [= <- _]. reflexivity.
Qed.

Lemma scan_wf fuel :
  (forall s v r, scan_once fuel s = Some (v, r) -> wf_json v = true) /\
  (forall s l r, array_items fuel s = Some (l, r) -> forallb wf_json l = true) /\
  (forall s l r, object_members fuel s = Some (l, r) ->
                 forallb (fun kv => wf_json (snd kv)) l = true).
Proof.
  induction fuel as [|n (IH1 & IH2 & IH3)];
    [repeat split; intros; discriminate|].
  split; [|split].
  - intros s v r. rewrite scan_once_eq.
    destruct s as [|c t]; [discriminate|].
    destruct (Ascii.eqb c dquote).
    { destruct (scanstring t) as [[str r0]|]; [|discriminate].
      intros [= <- _]. reflexivity. }
    destruct (Ascii.eqb c "{").
    { destruct (skip_ws t) as [|c' r0]; [discriminate|].
      destruct (Ascii.eqb c' "}"); [intros [= <- _]; reflexivity|].
      destruct (Ascii.eqb c' dquote); [|discriminate].
      destruct (object_members n r0) as [[pairs r1]|] eqn:E; [|discriminate].
      intros [= <- _]. apply dict_of_pairs_wf. eapply IH3. exact E. }
    destruct (Ascii.eqb c "[").
    { destruct (skip_ws t) as [|c' r0]; [discriminate|].
      destruct (Ascii.eqb c' "]"); [intros [= <- _]; reflexivity|].
      destruct (array_items n (c' :: r0)) as [[values r1]|] eqn:E; [|discriminate].
      intros [= <- _]. cbn [wf_json]. eapply IH2. exact E. }
    destruct (starts_with (chars "null") (c :: t));
      [intros [= <- _]; reflexivity|].
    destruct (starts_with (chars "true") (c :: t));
      [intros [= <- _]; reflexivity|].
    destruct (starts_with (chars "false") (c :: t));
      [intros [= <- _]; reflexivity|].
    apply scan_number_wf.
  - intros s l r. rewrite array_items_eq.
    destruct (scan_once n s) as [[value r0]|] eqn:E; [|discriminate].
    destruct (skip_ws r0) as [|c r1]; [discriminate|].
    destruct (Ascii.eqb c "]").
    { intros [= <- _]. cbn. rewrite (IH1 _ _ _ E). reflexivity. }
    destruct (Ascii.eqb c ","); [|discriminate].
    destruct (array_items n (skip_ws r1)) as [[values r2]|] eqn:E2; [|discriminate].
    intros [= <- _]. cbn. rewrite (IH1 _ _ _ E), (IH2 _ _ _ E2). reflexivity.
  - intros s l r. rewrite object_members_eq.
    destruct (scanstring s) as [[key r0]|]; [|discriminate].
    destruct (skip_ws r0) as [|c r1]; [discriminate|].
    destruct (Ascii.eqb c ":"); [|discriminate].
    destruct (scan_once n (skip_ws r1)) as [[value r2]|] eqn:E; [|discriminate].
    destruct (skip_ws r2) as [|c' r3]; [discriminate|].
    destruct (Ascii.eqb c' "}").
    { intros [= <- _]. cbn. rewrite (IH1 _ _ _ E). reflexivity. }
    destruct (Ascii.eqb c' ","); [|discriminate].
    destruct (skip_ws r3) as [|q r4]; [discriminate|].
    destruct (Ascii.eqb q dquote); [|discriminate].
    destruct (object_members n r4) as [[pairs r5]|] eqn:E2; [|discriminate].
    intros [= <- _]. cbn. rewrite (IH1 _ _ _ E), (IH3 _ _ _ E2). reflexivity.
Qed.

Lemma escape_char_printable c : forallb printable (escape_char c) = true.
Proof. destruct c as [[] [] [] [] [] [] [] []]; reflexivity. Qed.

Lemma escape_chars_printable s : forallb printable (escape_chars s) = true.
Proof.
  induction s as [|c s IH]; simpl; [reflexivity|].
  rewrite forallb_app, escape_char_printable, IH. reflexivity.
Qed.

Lemma uint_chars_printable u : forallb printable (uint_chars u) = true.
Proof. induction u; simpl; auto. Qed.

Lemma encode_basestring_printable s :
  forallb printable (encode_basestring_ascii s) = true.
Proof.
  unfold encode_basestring_ascii. cbn [forallb].
  rewrite forallb_app, escape_chars_printable. reflexivity.
Qed.

Lemma encode_printable v : forallb printable (encode v) = true.
Proof.
  induction v as [|b|z|s|l IH|l IH] using json_ind.
  - reflexivity.
  - destruct b; reflexivity.
  - change (encode (JInt z)) with (int_repr z). unfold int_repr, int_chars.
    destruct (Z.to_int z); cbn [forallb]; rewrite uint_chars_printable;
      reflexivity.
  - apply encode_basestring_printable.
  - rewrite encode_arr. cbn [forallb]. rewrite forallb_app. cbn [forallb].
    assert (forallb printable (encode_items l) = true) as ->; [|reflexivity].
    induction IH as [|x l' Hx Hl IHl]; [reflexivity|].
    change (encode_items (x :: l'))
      with (encode x ++ match l' with
                        | [] => []
                        | _ => chars ", " ++ encode_items l'
                        end).
    rewrite forallb_app, Hx. destruct l' as [|y l'']; [reflexivity|].
    rewrite forallb_app, IHl. reflexivity.
  - rewrite encode_obj. cbn [forallb]. rewrite forallb_app. cbn [forallb].
    assert (forallb printable (encode_members l) = true) as ->; [|reflexivity].
    induction IH as [|[k v] l' Hx Hl IHl]; [reflexivity|].
    rewrite encode_members_cons. cbn [forallb].
    rewrite forallb_app, escape_chars_printable. cbn [forallb].
    rewrite forallb_app. cbn [snd] in Hx. rewrite Hx.
    destruct l' as [|y l'']; [reflexivity|].
    cbn [forallb]. rewrite IHl. reflexivity.
Qed.

End Parsed.

(** X14: what [json.loads] returns can be stored.  A value that
    [json.loads] returns has distinct keys in each of its objects (of a
    repeated key the scanner keeps one entry), so dumping it and loading
    the text gives the value back. *)
Theorem loads_gives_storable_values s v :
  loads s = Some v ->
  wf_json v = true /\ loads (dumps v) = Some v.
Proof.
  intros H.
  assert (wf_json v = true) as Hwf.
  { unfold loads, decode in H.
    destruct (scan_once _ _) as [[v' r]|] eqn:E; [|discriminate].
    destruct (skip_ws r); [|discriminate]. injection H as <-.
    eapply (proj1 (scan_wf _)). exact E. }
  split; [exact Hwf|apply loads_dumps, Hwf].
Qed.

(** X15: the payload column.  On every reachable database each stored
    payload is printable ASCII text ([json.dumps] escapes every other
    character), and [json.loads] reads it back to a value whose dump is
    the stored text again: the decoding in [get_signals] cannot fail. *)
Theorem stored_payloads_parse st s :
  reachable st -> In s (signals st) ->
  forallb printable (chars (payload s)) = true /\
  exists v, loads (payload s) = Some v /\ dumps v = payload s.
Proof.
  intros Hr Hin.
  pose proof (inv_payload _ (reachable_inv _ Hr)) as Hp.
  rewrite Forall_forall in Hp. destruct (Hp _ Hin) as (v & Hwf & Hv).
  rewrite Hv. split.
  - unfold dumps, chars, text. rewrite list_ascii_of_string_of_list_ascii.
    apply encode_printable.
  - exists v. split; [apply loads_dumps, Hwf|reflexivity].
Qed.

(** ** Room identifiers *)

Section RoomIds.

Lemma scan_digits_zeros k s :
  scan_digits (repeat "0"%char k ++ s) =
  (Nat.iter k D0 (fst (scan_digits s)), snd (scan_digits s)).
Proof.
  induction k as [|k IH]; [simpl; destruct (scan_digits s); reflexivity|].
  change (repeat "0"%char (S k) ++ s) with ("0"%char :: (repeat "0"%char k ++ s)).
  assert (forall l, scan_digits ("0"%char :: l) =
                    (D0 (fst (scan_digits l)), snd (scan_digits l))) as E
      by (intros l; simpl; destruct (scan_digits l); reflexivity).
  rewrite E, IH. reflexivity.
Qed.

Lemma of_uint_zeros k u : N.of_uint (Nat.iter k D0 u) = N.of_uint u.
Proof. induction k as [|k IH]; [reflexivity|exact IH]. Qed.

Lemma room_number_format n : room_number (format_06d n) = n.
Proof.
  unfold room_number, format_06d, chars, text.
  rewrite list_ascii_of_string_of_list_ascii.
  rewrite scan_digits_zeros.
  rewrite <- (List.app_nil_r (uint_chars (N.to_uint n))).
  rewrite scan_digits_uint by reflexivity.
  cbn [fst]. rewrite of_uint_zeros. apply DecimalN.Unsigned.of_to.
Qed.

Lemma uint_chars_digits u : forallb is_digit (uint_chars u) = true.
Proof. induction u; simpl; auto. Qed.

Lemma uint_chars_length u : List.length (uint_chars u) = Decimal.nb_digits u.
Proof. induction u; simpl; auto. Qed.

Lemma text_length l : String.length (text l) = List.length l.
Proof. induction l as [|c l IH]; simpl; [reflexivity|rewrite IH; reflexivity]. Qed.

Lemma of_uint_acc_lower u acc :
  (Npos acc * 10 ^ N.of_nat (Decimal.nb_digits u)
   <= Npos (Pos.of_uint_acc u acc))%N.
Proof.
  revert acc. induction u; intros acc;
    [simpl; lia| | | | | | | | | |];
    cbn [Decimal.nb_digits Pos.of_uint_acc];
    rewrite Nat2N.inj_succ, N.pow_succ_r';
    match goal with
    | |- (_ <= Npos (Pos.of_uint_acc _ ?a))%N => specialize (IHu a)
    end;
    set (X := (10 ^ N.of_nat (Decimal.nb_digits u))%N) in *; nia.
Qed.

Lemma nb_digits_bound p :
  (Npos p < 10 ^ 6)%N -> (Decimal.nb_digits (Pos.to_uint p) <= 6)%nat.
Proof.
  intros Hp.
  pose proof (to_uint_nonzero_head p) as Hnz.
  pose proof (DecimalPos.Unsigned.of_to p) as Hof.
  destruct (Pos.to_uint p) as [|u|u|u|u|u|u|u|u|u|u];
    try discriminate Hnz; cbn [Decimal.nb_digits];
    cbn [N.of_uint Pos.of_uint] in Hof;
    match type of Hof with
    | Npos (Pos.of_uint_acc _ ?a) = _ =>
        pose proof (of_uint_acc_lower u a) as Hl
    end;
    rewrite Hof in Hl;
    assert (10 ^ N.of_nat (Decimal.nb_digits u) < 10 ^ 6)%N as Hlt by
      (set (X := (10 ^ N.of_nat (Decimal.nb_digits u))%N) in *; lia);
    apply N.pow_lt_mono_r_iff in Hlt; lia.
Qed.

End RoomIds.

(** X16: the identifiers of [create_room].  [f"{n:06d}"] prints digits
    only, at least six of them, and exactly six when the draw is one of
    [random.randint(0, 999999)]; the identifier spells the draw, so
    different draws give different room identifiers. *)
Theorem room_id_spells_its_draw n :
  forallb is_digit (chars (format_06d n)) = true /\
  (6 <= String.length (format_06d n))%nat /\
  ((n < 10 ^ 6)%N -> String.length (format_06d n) = 6%nat) /\
  room_number (format_06d n) = n /\
  (forall m, format_06d n = format_06d m -> n = m).
Proof.
  split; [|split; [|split; [|split]]].
  - unfold format_06d, chars, text. rewrite list_ascii_of_string_of_list_ascii.
    rewrite forallb_app, uint_chars_digits, andb_true_r.
    induction (6 - _)%nat; simpl; auto.
  - unfold format_06d. rewrite text_length, length_app, repeat_length. lia.
  - intros Hn. unfold format_06d.
    rewrite text_length, length_app, repeat_length, uint_chars_length.
    assert (Decimal.nb_digits (N.to_uint n) <= 6)%nat as Hb; [|lia].
    destruct n as [|p]; [simpl; lia|]. apply nb_digits_bound, Hn.
  - apply room_number_format.
  - intros m Hm. rewrite <- (room_number_format n), Hm.
    apply room_number_format.
Qed.

(** ** Roles and listings *)

Section Roles.

(** The role HOST is written by [create_room] alone, for the room's host. *)
Lemma roles_handle q st :
  (forall p, In p (participants st) ->
             (role p = "host" \/ role p = "peer") /\
             (role p = "host" ->
              exists x, In x (rooms st) /\ room_id x = p_room_id p /\
                        host_id x = device_id p)) ->
  forall p, In p (participants (snd (handle q st))) ->
            (role p = "host" \/ role p = "peer") /\
            (role p = "host" ->
             exists x, In x (rooms (snd (handle q st))) /\
                       room_id x = p_room_id p /\ host_id x = device_id p).
Proof.
  intros H. destruct q; cbn [handle].
  - unfold create_room. destruct (negb _); [exact H|].
    destruct (bind_text _) as [e|h]; cbn [bind_stmt]; [exact H|].
    unfold insert_room.
    destruct (existsb _ (rooms st)); cbn [bind_stmt raise ret]; [exact H|].
    unfold insert_participant. cbn [participants].
    destruct (existsb _ (participants st));
      cbn [raise ret snd rooms participants]; [exact H|].
    intros p Hp. apply in_app_or in Hp. destruct Hp as [Hp|[<-|[]]].
    + destruct (H p Hp) as [Hrole Hhost]. split; [exact Hrole|].
      intros Hh. destruct (Hhost Hh) as (x & Hx & E).
      exists x. split; [apply in_or_app; left; exact Hx|exact E].
    + split; [left; reflexivity|]. intros _. eexists. split.
      * apply in_or_app. right. left. reflexivity.
      * split; reflexivity.
  - unfold join_room. destruct (negb _); [exact H|].
    destruct (find _ _) as [x|] eqn:F; [|exact H].
    destruct (bind_text _); [exact H|].
    cbn [snd replace_participant rooms participants].
    intros p Hp. apply in_app_or in Hp. destruct Hp as [Hp|[<-|[]]].
    + apply filter_In in Hp. apply H. tauto.
    + split; [right; reflexivity|]. discriminate.
  - destruct (sent_row (Send room data now uuid) (signals_seq st + 1)) as [s|] eqn:E.
    + rewrite (send_signal_accepted _ _ _ _ _ _ E). cbn [snd]. cbv zeta.
      destruct (uuid mod 10 =? 0)%N; [|exact H].
      cbn [clean_stale_data rooms participants].
      intros p Hp. apply filter_In in Hp. apply H. tauto.
    + destruct (send_signal_rejected _ _ _ _ st _ E) as [-> | ->]; exact H.
  - poll_cases; exact H.
  - unfold heartbeat. destruct (negb _); [exact H|].
    destruct (bind_text _) as [e|d]; [exact H|].
    cbn [snd rooms participants]. intros p Hp. apply in_map_iff in Hp.
    destruct Hp as (p0 & <- & Hp0).
    destruct (participant_is room d p0); apply (H p0 Hp0).
  - exact H.
  - cbn [close_room snd rooms participants]. intros p Hp.
    apply filter_In in Hp. destruct Hp as [Hp _].
    destruct (H p Hp) as [Hrole Hhost]. split; [exact Hrole|].
    intros Hh. destruct (Hhost Hh) as (x & Hx & E1 & E2).
    eexists. split; [apply in_map; exact Hx|].
    destruct (room_is room x); split; assumption.
Qed.

Lemma participants_in_open_rooms st :
  reachable st ->
  forall p, In p (participants st) -> room_open (p_room_id p) st = true.
Proof.
  induction 1 as [|q st Hr IH Hwf]; [intros p []|].
  apply participants_in_open_rooms_handle. exact IH.
Qed.

Lemma roles_reachable st :
  reachable st ->
  forall p, In p (participants st) ->
            (role p = "host" \/ role p = "peer") /\
            (role p = "host" ->
             exists x, In x (rooms st) /\ room_id x = p_room_id p /\
                       host_id x = device_id p).
Proof.
  induction 1 as [|q st Hr IH Hwf]; [intros p []|].
  apply roles_handle. exact IH.
Qed.

End Roles.

(** X17: who is a host.  On every reachable database a participant's role
    is host or peer, and a participant with the role host is the host
    recorded for its room: only [create_room] writes that role, and it
    writes it for the device that becomes the room's [host_id]. *)
Theorem host_role_marks_the_creator st p :
  reachable st -> In p (participants st) ->
  (role p = "host" \/ role p = "peer") /\
  (role p = "host" ->
   exists x, In x (rooms st) /\ room_id x = p_room_id p /\
             host_id x = device_id p /\ status x = "open").
Proof.
  intros Hr Hin.
  pose proof (roles_reachable st Hr) as G.
  destruct (G p Hin) as [Hrole Hhost]. split; [exact Hrole|].
  intros Hh. destruct (Hhost Hh) as (x & Hx & E1 & E2).
  exists x. repeat split; try assumption.
  pose proof (participants_in_open_rooms st Hr p Hin) as Ho.
  unfold room_open in Ho. apply existsb_exists in Ho.
  destruct Ho as (y & Hy & Hopen). apply andb_prop in Hopen.
  destruct Hopen as [Hid Hst]. apply String.eqb_eq in Hid, Hst.
  assert (y = x) as <-; [|exact Hst].
  apply (NoDup_map_inj room_id (rooms st)); try assumption.
  - apply keys_distinct, Hr.
  - congruence.
Qed.

(** X18: what a listing shows.  On every reachable database
    [list_participants] answers 200 and changes nothing; no device is
    listed twice, every entry was seen less than 30 seconds ago, and at
    most one entry has the role host: the device recorded as the host of
    the room. *)
Theorem listing_has_no_duplicates room now st :
  reachable st ->
  exists l,
    list_participants room now st = ((Present l, 200), st) /\
    NoDup (map pr_device_id l) /\
    (forall e, In e l -> now - 30 < pr_last_seen e) /\
    (forall e, In e l -> pr_role e = "host" ->
               exists x, In x (rooms st) /\ room_id x = room /\
                         host_id x = pr_device_id e) /\
    (forall e e', In e l -> In e' l ->
                  pr_role e = "host" -> pr_role e' = "host" -> e = e').
Proof.
  intros Hr. eexists. split; [reflexivity|].
  destruct (keys_distinct st Hr) as [Hrooms Hkeys].
  pose proof (roles_reachable st Hr) as Hroles.
  set (sel := fun p => String.eqb (p_room_id p) room && (now - 30 <? last_seen p)).
  assert (forall e,
             In e (map (fun p => mkPresence (device_id p) (last_seen p) (role p))
                       (filter sel (participants st))) ->
             exists p, In p (participants st) /\ p_room_id p = room /\
                       now - 30 < last_seen p /\
                       e = mkPresence (device_id p) (last_seen p) (role p)) as Hsel.
  { intros e He. apply in_map_iff in He. destruct He as (p & <- & Hp).
    apply filter_In in Hp. destruct Hp as [Hp Hs]. unfold sel in Hs.
    apply andb_prop in Hs. destruct Hs as [H1 H2].
    apply String.eqb_eq in H1. apply Z.ltb_lt in H2.
    exists p. repeat split; assumption. }
  assert (forall e, In e (map (fun p => mkPresence (device_id p) (last_seen p) (role p))
                              (filter sel (participants st))) ->
                    pr_role e = "host" ->
                    exists x, In x (rooms st) /\ room_id x = room /\
                              host_id x = pr_device_id e) as Hhost.
  { intros e He Hh. destruct (Hsel e He) as (p & Hp & Hroom & _ & ->).
    cbn [pr_role pr_device_id] in *.
    destruct (proj2 (Hroles p Hp) Hh) as (x & Hx & E1 & E2).
    exists x. repeat split; congruence. }
  split; [|split; [|split]].
  - rewrite map_map. cbn [pr_device_id].
    assert (NoDup (map participant_key (filter sel (participants st)))) as Hf
        by (apply NoDup_map_filter, Hkeys).
    assert (Forall (fun p => p_room_id p = room) (filter sel (participants st)))
      as Hall.
    { apply Forall_forall. intros p Hp. apply filter_In in Hp.
      destruct Hp as [_ Hs]. unfold sel in Hs. apply andb_prop in Hs.
      apply String.eqb_eq. tauto. }
    clear Hsel Hhost.
    induction (filter sel (participants st)) as [|p l IH]; [constructor|].
    inversion Hf as [|? ? Hn Hl]; subst. inversion Hall as [|? ? Hp Hall']; subst.
    cbn [map]. constructor; [|apply IH; assumption].
    intros Hin. apply Hn. apply in_map_iff in Hin.
    destruct Hin as (p' & E & Hp'). apply in_map_iff. exists p'.
    split; [|exact Hp']. unfold participant_key. rewrite E. f_equal.
    rewrite Forall_forall in Hall'. apply Hall'. exact Hp'.
  - intros e He. destruct (Hsel e He) as (p & _ & _ & Hlt & ->). exact Hlt.
  - exact Hhost.
  - intros e e' He He' Hh Hh'.
    destruct (Hhost e He Hh) as (x & Hx & E1 & E2).
    destruct (Hhost e' He' Hh') as (x' & Hx' & E1' & E2').
    assert (x = x') as <-
        by (apply (NoDup_map_inj room_id (rooms st)); congruence).
    destruct (Hsel e He) as (p & Hp & Hroom & _ & ->).
    destruct (Hsel e' He') as (p' & Hp' & Hroom' & _ & ->).
    cbn [pr_device_id] in *.
    assert (p = p') as <-; [|reflexivity].
    apply (NoDup_map_inj participant_key (participants st)); try assumption.
    unfold participant_key. congruence.
Qed.

(** ** Payloads *)

(** X19: payloads round-trip, for the values of the model (null, booleans,
    integers, strings of code points below 256, arrays and objects of
    them).  For a well-formed request body, the text that [send_signal]
    stores loads back to the payload that was sent; and on a reachable
    database, when the recipient's pending signals are no more than one
    statement may name, the poll that follows an accepted [Send] answers
    200 and contains the message of that [Send], with the sender, the type
    and a payload equal to the one sent. *)
Theorem payload_round_trip room d data now uuid st :
  reachable st -> d <> "" ->
  sent_to room d (Send room data now uuid) = true ->
  let st1 := snd (send_signal room data now uuid st) in
  (List.length (select_signals room d st1) <= variable_limit)%nat ->
  loads (dumps (dict_get data "payload")) = Some (dict_get data "payload") /\
  exists msgs m,
    fst (get_signals room (Some d) st1) = (Messages msgs, 200) /\
    sent_message (Send room data now uuid) = Some m /\
    m_payload m = dict_get data "payload" /\
    In m msgs.
Proof.
  intros Hr Hd Hq st1 Hn.
  destruct (sent_to_inv _ _ _ Hq) as (Hwf & _ & _ & _ & _ & Hrow).
  split; [apply loads_dumps, wf_dict_get, Hwf|].
  destruct (Hrow (signals_seq st + 1)) as (s & Es & Ha).
  pose proof (reachable_step _ st Hr Hwf) as Hr1.
  pose proof (reachable_inv _ Hr1) as Hinv. cbn [handle] in Hinv.
  destruct (get_signals_ok room d _ Hinv Hd Hn) as (msgs & Hm & Hg).
  pose proof (read_messages_delivers _ _
                (select_signals_payload_ok room d _ Hinv) Hm) as Hdel.
  assert (In s (select_signals room d st1)) as Hin.
  { apply select_signals_In. split; [|exact Ha].
    destruct (send_signals _ _ _ Es) as (_ & Hin & _). exact Hin. }
  apply In_nth_error in Hin. destruct Hin as (n & Hn').
  destruct (Forall2_nth_error _ _ _ _ _ Hdel Hn') as (m & Hm' & Hsm).
  pose proof (delivers_sent _ _ _ _ Hwf Es Hsm) as Em.
  exists msgs, m. subst st1. rewrite Hg. split; [reflexivity|].
  split; [exact Em|]. split.
  - unfold sent_message in Em.
    destruct (sent_row (Send room data now uuid) 0); [|discriminate].
    injection Em as <-. reflexivity.
  - eapply nth_error_In. exact Hm'.
Qed.

End Relay.

(** * The claims and the further properties at concrete inputs

    The examples run the relay on a SQLite that accepts 999 variables in a
    statement, the default of the builds before 3.32; on a later build the
    examples with up to three pending signals run the same, and the poll of
    a thousand pending signals fails from 32767 signals on. *)

(** C1, as the spec states it, fails: the sweep that a [Send] may trigger
    deletes a signal older than ten minutes that was never polled.  Here the
    offer is sent, the answer is sent 601 seconds later by a request that
    sweeps, and the two polls that follow never show the offer. *)
Lemma sweep_drops_pending_signal :
  run limit_999 [Send "R" (signal_body "H" "P" "offer" (JInt 1)) 0 1;
       Send "R" (signal_body "H" "P" "answer" (JInt 2)) 601 10;
       Fetch "R" (Some "P"); Fetch "R" (Some "P")] init_db
  = ([(Sent, 201); (Sent, 201);
      (Messages [mkMessage "H" "answer" (JInt 2)], 200);
      (Messages [], 200)],
     mkDb [] [] [] 2).
Proof. vm_compute. reflexivity. Qed.

Lemma delivery_at_most_once_witness :
  reachable limit_999 init_db /\ "P" <> "" /\
  forallb (sent_to "R" "P") two_sends = true /\
  (List.length (select_signals "R" "P" (snd (run limit_999 two_sends init_db)))
   <= limit_999)%nat /\
  exists msgs,
    fst (run limit_999 (repeat (Fetch "R" (Some "P")) 2)
             (snd (run limit_999 two_sends init_db)))
    = [(Messages msgs, 200); (Messages [], 200)] /\
    Forall2 delivers
            (select_signals "R" "P" (snd (run limit_999 two_sends init_db))) msgs.
Proof.
  assert ("P" <> "") as Hd by discriminate.
  assert (List.length (select_signals "R" "P"
                         (snd (run limit_999 two_sends init_db)))
          <= limit_999)%nat as Hn by (apply Nat.leb_le; reflexivity).
  split; [apply reachable_init|]. split; [exact Hd|]. split; [reflexivity|].
  split; [exact Hn|].
  destruct (delivery_at_most_once limit_999 "R" "P" two_sends 1 init_db
              (reachable_init limit_999) Hd eq_refl Hn)
    as (msgs & H1 & H2 & _).
  exists msgs. split; [exact H1|exact H2].
Defined.

Lemma fetch_in_creation_order_witness :
  reachable limit_999 init_db /\ "P" <> "" /\
  forallb (sent_to "R" "P") two_sends = true /\
  (List.length (select_signals "R" "P" (snd (run limit_999 two_sends init_db)))
   <= limit_999)%nat /\
  exists msgs,
    fst (get_signals limit_999 "R" (Some "P")
                     (snd (run limit_999 two_sends init_db)))
    = (Messages msgs, 200) /\
    Forall2 delivers
            (select_signals "R" "P" (snd (run limit_999 two_sends init_db))) msgs /\
    StronglySorted earlier
      (select_signals "R" "P" (snd (run limit_999 two_sends init_db))) /\
    select_signals "R" "P" (snd (run limit_999 two_sends init_db))
    = sent_rows two_sends 1.
Proof.
  assert ("P" <> "") as Hd by discriminate.
  assert (List.length (select_signals "R" "P"
                         (snd (run limit_999 two_sends init_db)))
          <= limit_999)%nat as Hn by (apply Nat.leb_le; reflexivity).
  split; [apply reachable_init|]. split; [exact Hd|]. split; [reflexivity|].
  split; [exact Hn|].
  destruct (fetch_in_creation_order limit_999 "R" "P" two_sends init_db
              (reachable_init limit_999) Hd eq_refl Hn)
    as (msgs & H1 & H2 & _ & H3 & _).
  exists msgs. split; [exact H1|]. split; [exact H2|].
  split; [exact H3|reflexivity].
Defined.

(** C2, as the spec states it, fails: the order of the answer is the order
    of the timestamps, not of the sends.  Three signals are sent while the
    clock of the database steps back a second each time; the poll answers
    the third first and the first last. *)
Lemma fetch_out_of_send_order :
  map time_of backward_sends = [200; 199; 198] /\
  fst (run limit_999 (backward_sends ++ [Fetch "R" (Some "P")]) init_db)
  = [(Sent, 201); (Sent, 201); (Sent, 201);
     (Messages [mkMessage "H" "candidate" (JInt 3);
                mkMessage "H" "candidate" (JInt 2);
                mkMessage "H" "offer" (JInt 1)], 200)].
Proof. split; vm_compute; reflexivity. Qed.

(** C3 where the handler fails: with a thousand signals pending for P,
    the poll answers 500 and leaves them pending. *)
Lemma fetch_again_is_empty_witness :
  reachable limit_999 (snd (run limit_999 thousand_sends init_db)) /\
  "P" <> "" /\
  (limit_999 < List.length (select_signals "R" "P"
                              (snd (run limit_999 thousand_sends init_db))))%nat /\
  get_signals limit_999 "R" (Some "P")
              (snd (run limit_999 thousand_sends init_db))
  = ((InternalServerError, 500), snd (run limit_999 thousand_sends init_db)).
Proof.
  assert (reachable limit_999 (snd (run limit_999 thousand_sends init_db)))
    as Hr.
  { apply reachable_run; [apply reachable_init|]. vm_compute. reflexivity. }
  assert ("P" <> "") as Hd by discriminate.
  assert (limit_999 < List.length (select_signals "R" "P"
                                     (snd (run limit_999 thousand_sends init_db))))%nat
    as Hn.
  { apply Nat.ltb_lt. vm_compute. reflexivity. }
  split; [exact Hr|]. split; [exact Hd|]. split; [exact Hn|].
  destruct (fetch_again_is_empty limit_999 "R" "P"
              (snd (run limit_999 thousand_sends init_db)) Hr Hd) as [_ H].
  exact (H Hn).
Defined.

(** C4, as the spec states it, fails: the host of a room who calls
    [join_room] on it is stored again with role peer. *)
Lemma host_rejoins_as_peer :
  participants (snd (run limit_999 [CreateRoom (device_body "H") 42 100] init_db))
  = [mkParticipant "H" "000042" "host" 100] /\
  run limit_999 [CreateRoom (device_body "H") 42 100;
       JoinRoom "000042" (device_body "H") 200] init_db
  = ([(RoomCreated "000042" "host-H-000042", 201);
      (Joined "peer-H-000042" "H", 200)],
     mkDb [mkRoom "000042" "H" 100 "open"]
          [mkParticipant "H" "000042" "peer" 200] [] 0).
Proof. split; vm_compute; reflexivity. Qed.

Lemma join_registers_peer_witness :
  room_open "000042" (snd (create_room (device_body "H") 42 100 init_db)) = true /\
  filter (participant_is "000042" "H")
         (participants
            (snd (join_room "000042" (device_body "H") 200
                    (snd (create_room (device_body "H") 42 100 init_db)))))
  = [mkParticipant "H" "000042" "peer" 200].
Proof.
  split; [reflexivity|].
  exact (proj1 (proj2
    (join_registers_peer "000042" (device_body "H") 200
       (snd (create_room (device_body "H") 42 100 init_db)) "H"
       eq_refl eq_refl eq_refl))).
Defined.

(** C5, as the spec states it, fails: [send_signal] never reads the rooms
    table.  A signal sent into a closed room, and one sent into a room that
    was never created, are both stored and answered with 201. *)
Lemma send_into_closed_room :
  run limit_999 [CreateRoom (device_body "H") 42 100; CloseRoom "000042";
       Send "000042" (signal_body "H" "P" "offer" (JInt 1)) 101 1;
       Send "777777" (signal_body "H" "P" "offer" (JInt 2)) 102 1] init_db
  = ([(RoomCreated "000042" "host-H-000042", 201); (Closed, 200);
      (Sent, 201); (Sent, 201)],
     mkDb [mkRoom "000042" "H" 100 "closed"] []
          [mkSignal 1 "000042" "H" "P" "offer" "1" 101;
           mkSignal 2 "777777" "H" "P" "offer" "2" 102] 2).
Proof. vm_compute. reflexivity. Qed.

Lemma send_ignores_room_status_witness :
  room_open "000042" (mkDb [mkRoom "000042" "H" 100 "closed"] [] [] 0) = false /\
  fst (send_signal "000042" (signal_body "H" "P" "offer" (JInt 1)) 101 1
         (mkDb [mkRoom "000042" "H" 100 "closed"] [] [] 0))
  = (Sent, 201).
Proof.
  split; [reflexivity|].
  exact (proj1
    (send_ignores_room_status "000042" (signal_body "H" "P" "offer" (JInt 1))
       101 1 (mkDb [mkRoom "000042" "H" 100 "closed"] [] [] 0)
       (mkSignal 1 "000042" "H" "P" "offer" "1" 101) eq_refl)).
Defined.

(** C6, as the spec states it, fails in two places, both because
    [send_signal] accepts any room id.  Closing a room that does not exist
    is not always a no-op: it deletes the signals stored under that id.
    And a poll after the closure is not always empty: a signal sent into
    the closed room is stored and delivered. *)
Lemma close_room_counterexample :
  run limit_999 [Send "R" (signal_body "H" "P" "offer" (JInt 1)) 100 1] init_db
  = ([(Sent, 201)], mkDb [] [] [mkSignal 1 "R" "H" "P" "offer" "1" 100] 1) /\
  close_room "R" (mkDb [] [] [mkSignal 1 "R" "H" "P" "offer" "1" 100] 1)
  = ((Closed, 200), mkDb [] [] [] 1) /\
  fst (run limit_999 [CreateRoom (device_body "H") 42 100; CloseRoom "000042";
            Send "000042" (signal_body "H" "P" "offer" (JInt 1)) 101 1;
            Fetch "000042" (Some "P")] init_db)
  = [(RoomCreated "000042" "host-H-000042", 201); (Closed, 200); (Sent, 201);
     (Messages [mkMessage "H" "offer" (JInt 1)], 200)].
Proof. repeat split; vm_compute; reflexivity. Qed.

Lemma close_room_cascades_witness :
  "P" <> "" /\
  get_signals limit_999 "R" (Some "P")
    (snd (close_room "R" (snd (run limit_999 two_sends init_db))))
  = ((Messages [], 200), snd (close_room "R" (snd (run limit_999 two_sends init_db)))).
Proof.
  split; [discriminate|].
  destruct (close_room_cascades limit_999 "R" 0 "P" (snd (run limit_999 two_sends init_db)))
    as (_ & _ & _ & _ & _ & _ & H & _).
  exact (H ltac:(discriminate)).
Defined.

(** C7, as the spec states it, fails: a heartbeat for a pair that was never
    registered is answered with 200 and "alive". *)
Lemma heartbeat_unknown_pair_succeeds :
  registered "000001" "X" init_db = false /\
  heartbeat "000001" (device_body "X") 5 init_db = ((Alive, 200), init_db).
Proof. split; vm_compute; reflexivity. Qed.

Lemma heartbeat_unknown_pair_is_noop_witness :
  registered "000042" "X"
    (snd (create_room (device_body "H") 42 100 init_db)) = false /\
  heartbeat "000042" (device_body "X") 105
    (snd (create_room (device_body "H") 42 100 init_db))
  = ((Alive, 200), snd (create_room (device_body "H") 42 100 init_db)).
Proof.
  split; [reflexivity|].
  exact (heartbeat_unknown_pair_is_noop "000042" (device_body "X") 105
           (snd (create_room (device_body "H") 42 100 init_db)) "X"
           eq_refl eq_refl eq_refl).
Defined.

(** C8, as the spec states it, fails: when the drawn identifier is taken,
    [create_room] answers 500 with the store's duplicate-key message; it
    draws no second identifier, although the key space is far from full. *)
Lemma create_room_collision_is_raised :
  run limit_999 [CreateRoom (device_body "A") 42 100;
       CreateRoom (device_body "B") 42 101] init_db
  = ([(RoomCreated "000042" "host-A-000042", 201);
      (Raised (IntegrityError "UNIQUE constraint failed: rooms.room_id"), 500)],
     mkDb [mkRoom "000042" "A" 100 "open"]
          [mkParticipant "A" "000042" "host" 100] [] 0).
Proof. vm_compute. reflexivity. Qed.

Lemma create_room_single_attempt_witness :
  reachable limit_999 (snd (run limit_999 [CreateRoom (device_body "A") 42 100] init_db)) /\
  room_exists (format_06d 42)
    (snd (run limit_999 [CreateRoom (device_body "A") 42 100] init_db)) = true /\
  create_room (device_body "B") 42 101
    (snd (run limit_999 [CreateRoom (device_body "A") 42 100] init_db))
  = ((Raised (IntegrityError "UNIQUE constraint failed: rooms.room_id"), 500),
     snd (run limit_999 [CreateRoom (device_body "A") 42 100] init_db)).
Proof.
  assert (reachable limit_999 (snd (run limit_999 [CreateRoom (device_body "A") 42 100] init_db)))
    as Hr by (apply (reachable_run limit_999); [apply (reachable_init limit_999)|reflexivity]).
  split; [exact Hr|]. split; [reflexivity|].
  exact (proj1
    (create_room_single_attempt limit_999 (device_body "B") 42 101
       (snd (run limit_999 [CreateRoom (device_body "A") 42 100] init_db)) "B"
       Hr eq_refl eq_refl) eq_refl).
Defined.

Lemma send_rejects_null_field_witness :
  send_signal "R" (signal_body "H" "P" "offer" JNull) 100 1 init_db
  = ((Error missing_fields, 400), init_db) /\
  send_signal "R" [("from", JStr "H"); ("to", JStr "P"); ("type", JStr "offer")]
              100 1 init_db
  = ((Error missing_fields, 400), init_db).
Proof.
  split.
  - apply (send_rejects_null_field "R" (signal_body "H" "P" "offer" JNull)
             100 1 init_db "payload").
    + simpl. tauto.
    + left. reflexivity.
  - apply (send_rejects_null_field "R"
             [("from", JStr "H"); ("to", JStr "P"); ("type", JStr "offer")]
             100 1 init_db "payload").
    + simpl. tauto.
    + right. reflexivity.
Defined.

Lemma failure_changes_nothing_witness :
  status_of (fst (handle limit_999 (CreateRoom (device_body "B") 42 101)
                    (snd (run limit_999 [CreateRoom (device_body "A") 42 100] init_db))))
  = 500 /\
  snd (handle limit_999 (CreateRoom (device_body "B") 42 101)
         (snd (run limit_999 [CreateRoom (device_body "A") 42 100] init_db)))
  = snd (run limit_999 [CreateRoom (device_body "A") 42 100] init_db).
Proof.
  split; [reflexivity|].
  apply (failure_changes_nothing limit_999 (CreateRoom (device_body "B") 42 101)
           (snd (run limit_999 [CreateRoom (device_body "A") 42 100] init_db)));
    vm_compute; discriminate.
Defined.

Lemma join_room_needs_open_room_witness :
  room_open "000042"
    (snd (run limit_999 [CreateRoom (device_body "H") 42 100; CloseRoom "000042"] init_db))
  = false /\
  join_room "000042" (device_body "P") 105
    (snd (run limit_999 [CreateRoom (device_body "H") 42 100; CloseRoom "000042"] init_db))
  = ((Error "Room not found or closed", 404),
     snd (run limit_999 [CreateRoom (device_body "H") 42 100; CloseRoom "000042"] init_db)).
Proof.
  split; [reflexivity|].
  exact (join_room_needs_open_room "000042" (device_body "P") 105
           (snd (run limit_999 [CreateRoom (device_body "H") 42 100; CloseRoom "000042"]
                   init_db))
           eq_refl eq_refl).
Defined.


Lemma room_ids_are_distinct_witness :
  NoDup (map room_id
           (rooms (snd (run limit_999 [CreateRoom (device_body "A") 42 100;
                             CreateRoom (device_body "B") 42 101;
                             CreateRoom (device_body "B") 43 102] init_db)))).
Proof.
  exact (proj1 (room_ids_are_distinct limit_999 _
    (reachable_run limit_999 [CreateRoom (device_body "A") 42 100;
                    CreateRoom (device_body "B") 42 101;
                    CreateRoom (device_body "B") 43 102] init_db
       (reachable_init limit_999) eq_refl))).
Defined.

Lemma rooms_persist_witness :
  In (mkRoom "000042" "H" 100 "open")
     (rooms (snd (run limit_999 [CreateRoom (device_body "H") 42 100] init_db))) /\
  exists x',
    In x' (rooms (snd (run limit_999 [JoinRoom "000042" (device_body "P") 101;
                            CloseRoom "000042";
                            CreateRoom (device_body "Q") 42 102]
                         (snd (run limit_999 [CreateRoom (device_body "H") 42 100]
                                 init_db))))) /\
    room_id x' = "000042" /\ host_id x' = "H".
Proof.
  assert (In (mkRoom "000042" "H" 100 "open")
             (rooms (snd (run limit_999 [CreateRoom (device_body "H") 42 100] init_db))))
    as Hin by (left; reflexivity).
  split; [exact Hin|].
  destruct (rooms_persist limit_999 [JoinRoom "000042" (device_body "P") 101;
                           CloseRoom "000042";
                           CreateRoom (device_body "Q") 42 102]
              _ _ Hin) as (x' & H1 & H2 & H3 & _).
  exists x'. auto.
Defined.

Lemma closed_room_stays_empty_witness :
  room_exists "000042"
    (snd (run limit_999 [CreateRoom (device_body "H") 42 100] init_db)) = true /\
  fst (list_participants "000042" 103
         (snd (run limit_999 [CreateRoom (device_body "Q") 42 101;
                    JoinRoom "000042" (device_body "P") 102;
                    Heartbeat "000042" (device_body "H") 102]
                 (snd (close_room "000042"
                         (snd (run limit_999 [CreateRoom (device_body "H") 42 100]
                                 init_db)))))))
  = (Present [], 200).
Proof.
  split; [reflexivity|].
  destruct (closed_room_stays_empty limit_999 "000042"
              [CreateRoom (device_body "Q") 42 101;
               JoinRoom "000042" (device_body "P") 102;
               Heartbeat "000042" (device_body "H") 102]
              103 (device_body "P")
              (snd (run limit_999 [CreateRoom (device_body "H") 42 100] init_db))
              eq_refl) as [H _].
  rewrite H. reflexivity.
Defined.

Lemma participants_belong_to_open_rooms_witness :
  In (mkParticipant "P" "000042" "peer" 101)
     (participants (snd (run limit_999 [CreateRoom (device_body "H") 42 100;
                              JoinRoom "000042" (device_body "P") 101] init_db)))
  /\
  room_open "000042"
    (snd (run limit_999 [CreateRoom (device_body "H") 42 100;
               JoinRoom "000042" (device_body "P") 101] init_db)) = true.
Proof.
  assert (In (mkParticipant "P" "000042" "peer" 101)
             (participants (snd (run limit_999 [CreateRoom (device_body "H") 42 100;
                                      JoinRoom "000042" (device_body "P") 101]
                                   init_db)))) as Hin
      by (right; left; reflexivity).
  split; [exact Hin|].
  exact (participants_belong_to_open_rooms limit_999 _ _
           (reachable_run limit_999 [CreateRoom (device_body "H") 42 100;
                           JoinRoom "000042" (device_body "P") 101] init_db
              (reachable_init limit_999) eq_refl) Hin).
Defined.

Lemma join_room_returns_host_witness :
  fst (join_room "000042" (device_body "P") 101
         (snd (run limit_999 [CreateRoom (device_body "H") 42 100] init_db)))
  = (Joined "peer-P-000042" "H", 200).
Proof.
  exact (join_room_returns_host limit_999
           (snd (run limit_999 [CreateRoom (device_body "H") 42 100] init_db))
           (mkRoom "000042" "H" 100 "open") (device_body "P") 101 "P"
           (reachable_run limit_999 [CreateRoom (device_body "H") 42 100] init_db
              (reachable_init limit_999) eq_refl)
           (or_introl eq_refl) eq_refl eq_refl eq_refl).
Defined.

Lemma heartbeat_refreshes_presence_witness :
  registered "000042" "H"
    (snd (run limit_999 [CreateRoom (device_body "H") 42 100] init_db)) = true /\
  fst (heartbeat "000042" (device_body "H") 500
         (snd (run limit_999 [CreateRoom (device_body "H") 42 100] init_db)))
  = (Alive, 200).
Proof.
  split; [reflexivity|].
  exact (proj1 (heartbeat_refreshes_presence "000042" (device_body "H") 500
                  (snd (run limit_999 [CreateRoom (device_body "H") 42 100] init_db)) "H"
                  eq_refl eq_refl eq_refl)).
Defined.

Lemma create_join_list_witness :
  reachable limit_999 init_db /\ room_exists (format_06d 42) init_db = false /\
  "P" <> "H" /\
  exists token token',
    fst (run limit_999 [CreateRoom (device_body "H") 42 100;
              JoinRoom (format_06d 42) (device_body "P") 110;
              ListPresent (format_06d 42) 120] init_db)
    = [(RoomCreated (format_06d 42) token, 201); (Joined token' "H", 200);
       (Present [mkPresence "H" 100 "host"; mkPresence "P" 110 "peer"], 200)].
Proof.
  split; [apply (reachable_init limit_999)|]. split; [reflexivity|].
  split; [discriminate|].
  exact (create_join_list limit_999 (device_body "H") 42 100 (device_body "P") 110 120
           init_db "H" "P" (reachable_init limit_999) eq_refl eq_refl eq_refl
           eq_refl eq_refl ltac:(discriminate) ltac:(lia) ltac:(lia)).
Defined.

Lemma fetch_leaves_other_mailboxes_witness :
  reachable limit_999 (snd (run limit_999 [Send "R" (signal_body "H" "P" "offer" (JInt 1)) 100 1;
                       Send "R" (signal_body "P" "H" "answer" (JInt 2)) 101 1]
                    init_db)) /\
  Some "P" <> Some "H" /\
  select_signals "R" "H"
    (snd (get_signals limit_999 "R" (Some "P")
            (snd (run limit_999 [Send "R" (signal_body "H" "P" "offer" (JInt 1)) 100 1;
                       Send "R" (signal_body "P" "H" "answer" (JInt 2)) 101 1]
                    init_db))))
  = select_signals "R" "H"
      (snd (run limit_999 [Send "R" (signal_body "H" "P" "offer" (JInt 1)) 100 1;
                 Send "R" (signal_body "P" "H" "answer" (JInt 2)) 101 1]
              init_db)).
Proof.
  assert (reachable limit_999
            (snd (run limit_999 [Send "R" (signal_body "H" "P" "offer" (JInt 1)) 100 1;
                       Send "R" (signal_body "P" "H" "answer" (JInt 2)) 101 1]
                    init_db))) as Hr
      by (apply (reachable_run limit_999); [apply (reachable_init limit_999)|reflexivity]).
  assert (Some "P" <> Some "H") as Hne by discriminate.
  split; [exact Hr|]. split; [exact Hne|].
  destruct (fetch_leaves_other_mailboxes limit_999 "R" (Some "P") "R" "H"
              (snd (run limit_999 [Send "R" (signal_body "H" "P" "offer" (JInt 1)) 100 1;
                         Send "R" (signal_body "P" "H" "answer" (JInt 2)) 101 1]
                      init_db))
              Hr (or_intror Hne)) as [H _].
  exact H.
Defined.

Lemma signal_ids_are_fresh_witness :
  reachable limit_999 (snd (run limit_999 two_sends init_db)) /\
  forall s,
    In s (signals (snd (run limit_999 [Fetch "R" (Some "P");
                             Send "R" (signal_body "H" "P" "offer" (JInt 1)) 100 1]
                          (snd (run limit_999 two_sends init_db))))) ->
    In s (signals (snd (run limit_999 two_sends init_db))) \/
    signals_seq (snd (run limit_999 two_sends init_db)) < id s.
Proof.
  assert (reachable limit_999 (snd (run limit_999 two_sends init_db))) as Hr
      by (apply (reachable_run limit_999); [apply (reachable_init limit_999)|reflexivity]).
  split; [exact Hr|].
  destruct (signal_ids_are_fresh limit_999
              [Fetch "R" (Some "P");
               Send "R" (signal_body "H" "P" "offer" (JInt 1)) 100 1]
              (snd (run limit_999 two_sends init_db)) Hr) as (_ & H & _).
  exact H.
Defined.

Lemma loads_gives_storable_values_witness :
  loads (text (chars "{ " ++ dquote :: chars "k" ++ dquote :: chars " : [1, {}], " ++ dquote :: chars "k" ++ dquote :: chars " : null }"))
  = Some (JObj [("k", JNull)]) /\
  loads (dumps (JObj [("k", JNull)])) = Some (JObj [("k", JNull)]).
Proof.
  split; [reflexivity|].
  exact (proj2 (loads_gives_storable_values
                  (text (chars "{ " ++ dquote :: chars "k" ++ dquote :: chars " : [1, {}], " ++ dquote :: chars "k" ++ dquote :: chars " : null }"))
                  (JObj [("k", JNull)]) eq_refl)).
Defined.

Lemma stored_payloads_parse_witness :
  let v := JStr (String (ascii_of_nat 233) "!") in
  let st := snd (send_signal "R" (signal_body "H" "P" "offer" v) 5 1 init_db) in
  let s := mkSignal 1 "R" "H" "P" "offer" (dumps v) 5 in
  In s (signals st) /\
  forallb printable (chars (payload s)) = true /\
  exists v', loads (payload s) = Some v' /\ dumps v' = payload s.
Proof.
  cbv zeta. split; [left; reflexivity|].
  apply (stored_payloads_parse limit_999
           (snd (send_signal "R"
                   (signal_body "H" "P" "offer"
                      (JStr (String (ascii_of_nat 233) "!"))) 5 1 init_db))).
  - apply (reachable_step limit_999
             (Send "R" (signal_body "H" "P" "offer"
                          (JStr (String (ascii_of_nat 233) "!"))) 5 1)
             init_db (reachable_init limit_999)). reflexivity.
  - left. reflexivity.
Defined.

Lemma host_role_marks_the_creator_witness :
  let p := mkParticipant "H" "000007" "host" 0 in
  (role p = "host" \/ role p = "peer") /\
  (role p = "host" ->
   exists x, In x (rooms (snd (create_room (device_body "H") 7 0 init_db))) /\
             room_id x = p_room_id p /\
             host_id x = device_id p /\ status x = "open").
Proof.
  apply (host_role_marks_the_creator limit_999
           (snd (create_room (device_body "H") 7 0 init_db))
           (mkParticipant "H" "000007" "host" 0)).
  - apply (reachable_step limit_999 (CreateRoom (device_body "H") 7 0) init_db (reachable_init limit_999)).
    reflexivity.
  - left. reflexivity.
Defined.

Lemma listing_has_no_duplicates_witness :
  exists l,
    list_participants "000007" 10
      (snd (run limit_999 [CreateRoom (device_body "H") 7 0; JoinRoom "000007" (device_body "P") 5]
                init_db))
    = ((Present l, 200),
       snd (run limit_999 [CreateRoom (device_body "H") 7 0; JoinRoom "000007" (device_body "P") 5]
                init_db)) /\
    map pr_device_id l = ["H"; "P"] /\
    NoDup (map pr_device_id l).
Proof.
  destruct (listing_has_no_duplicates limit_999 "000007" 10
              (snd (run limit_999 [CreateRoom (device_body "H") 7 0;
                         JoinRoom "000007" (device_body "P") 5] init_db)))
    as (l & E & Hn & _).
  - apply (reachable_run limit_999); [apply (reachable_init limit_999)|reflexivity].
  - exists l. split; [exact E|]. split; [|exact Hn].
    injection E as <-. reflexivity.
Defined.

Lemma payload_round_trip_witness :
  let payload := JObj [("sdp", JStr "v=0"); ("ice", JArr [JInt (-7); JBool true])] in
  let st1 := snd (send_signal "R" (signal_body "H" "P" "offer" payload) 100 1
                              init_db) in
  reachable limit_999 init_db /\ "P" <> "" /\
  (List.length (select_signals "R" "P" st1) <= limit_999)%nat /\
  exists msgs m,
    fst (get_signals limit_999 "R" (Some "P") st1) = (Messages msgs, 200) /\
    m_payload m = payload /\
    In m msgs.
Proof.
  cbv zeta.
  assert ("P" <> "") as Hd by discriminate.
  assert (List.length
            (select_signals "R" "P"
               (snd (send_signal "R"
                       (signal_body "H" "P" "offer"
                          (JObj [("sdp", JStr "v=0");
                                 ("ice", JArr [JInt (-7); JBool true])]))
                       100 1 init_db)))
          <= limit_999)%nat as Hn by (apply Nat.leb_le; reflexivity).
  split; [apply reachable_init|]. split; [exact Hd|]. split; [exact Hn|].
  destruct (payload_round_trip limit_999 "R" "P"
              (signal_body "H" "P" "offer"
                 (JObj [("sdp", JStr "v=0"); ("ice", JArr [JInt (-7); JBool true])]))
              100 1 init_db (reachable_init limit_999) Hd eq_refl Hn)
    as (_ & msgs & m & H1 & _ & H2 & H3).
  exists msgs, m. split; [exact H1|]. split; [exact H2|exact H3].
Defined.
